(** * Customer review sentiment analyzer: a shallow embedding of
      [src/analyzer.py] (class [ReviewAnalyzer]) and its properties.

    The Python class talks to a remote chat-completion service, parses the
    reply with [json.loads], and aggregates the per-review dictionaries into
    a report.  The embedding keeps the dynamic typing of the source (JSON
    values, dictionaries as ordered association lists, exceptions as values),
    threads the observable effects (remote calls made, lines printed) through
    an explicit world, and uses the binary64 operations of [SpecFloat] for
    the float arithmetic of the report. *)

From Stdlib Require Import ZArith List String Ascii Bool Lia PeanoNat.
From Stdlib Require Import SpecFloat DecimalString Sorted Permutation.
Import ListNotations.

Set Warnings "-register-all".

Local Open Scope string_scope.
Local Open Scope list_scope.

(** ** Python values *)

(** The values [json.loads] can produce.  A dictionary keeps its insertion
    order and its keys are meant to be distinct (a lookup sees the first
    entry of a key).  JSON numerals with a fraction or an exponent are not
    part of the universe: the only expression that would inspect them is
    [sum(scores)], and how [sum] adds floats depends on the interpreter
    version; the data model has integer scores. *)
Inductive value : Type :=
| VNone
| VBool (b : bool)
| VInt (z : Z)
| VStr (s : string)
| VList (l : list value)
| VDict (d : list (string * value)).

Definition dict : Type := list (string * value).

(** [type(v).__name__] *)
Definition type_name (v : value) : string :=
  match v with
  | VNone => "NoneType"
  | VBool _ => "bool"
  | VInt _ => "int"
  | VStr _ => "str"
  | VList _ => "list"
  | VDict _ => "dict"
  end.

(** Exceptions are kept as their class name and [str(e)]. *)
Record exn : Type := Exn { exn_class : string; exn_str : string }.

Inductive result (A : Type) : Type :=
| Ok (a : A)
| Raise (e : exn).
Arguments Ok {A} a.
Arguments Raise {A} e.

Definition TypeError (msg : string) : exn := Exn "TypeError" msg.
Definition KeyError (key : string) : exn := Exn "KeyError" ("'" ++ key ++ "'").
Definition ZeroDivisionError : exn := Exn "ZeroDivisionError" "division by zero".
Definition OverflowError (msg : string) : exn := Exn "OverflowError" msg.

(** ** Dictionaries *)

Module Dict.

(** [key in d] *)
Fixpoint mem (d : dict) (key : string) : bool :=
  match d with
  | [] => false
  | (k, _) :: d' => if String.eqb k key then true else mem d' key
  end.

(** [d.get(key)] with [None] as [option] *)
Fixpoint lookup (d : dict) (key : string) : option value :=
  match d with
  | [] => None
  | (k, v) :: d' => if String.eqb k key then Some v else lookup d' key
  end.

(** [d[key]] *)
Definition getitem (d : dict) (key : string) : result value :=
  match lookup d key with
  | Some v => Ok v
  | None => Raise (KeyError key)
  end.

(** [d.get(key, default)] *)
Definition get (d : dict) (key : string) (default : value) : value :=
  match lookup d key with
  | Some v => v
  | None => default
  end.

(** [d[key] = v]: an existing key keeps its position, a new key goes last. *)
Fixpoint set (d : dict) (key : string) (v : value) : dict :=
  match d with
  | [] => [(key, v)]
  | (k, v0) :: d' =>
      if String.eqb k key then (k, v) :: d' else (k, v0) :: set d' key v
  end.

End Dict.

(** ** The world: remote calls and standard output *)

Definition float : Type := spec_float.

Record Message : Type := { role : string; content : string }.

(** The keyword arguments of [client.chat.completions.create]. *)
Record Request : Type :=
  { req_model : string;
    req_messages : list Message;
    req_temperature : float }.

(** What a call to the service does: it raises, or it returns a response
    whose [choices[0].message.content] is the given text. *)
Inductive Reply : Type :=
| Fails (e : exn)
| Replies (text : string).

(** The requests sent so far (oldest first) and the lines printed so far. *)
Record World : Type := { calls : list Request; stdout : list string }.

Definition initial_world : World := {| calls := []; stdout := [] |}.

(** The remote service: its reply may depend on everything it was sent
    before. *)
Definition Client : Type := list Request -> Request -> Reply.

(** ** A state and exception monad for method bodies *)

Definition M (A : Type) : Type := World -> result A * World.

Definition ret {A} (a : A) : M A := fun w => (Ok a, w).

Definition raise {A} (e : exn) : M A := fun w => (Raise e, w).

Definition bind {A B} (m : M A) (k : A -> M B) : M B :=
  fun w =>
    match m w with
    | (Ok a, w') => k a w'
    | (Raise e, w') => (Raise e, w')
    end.

Definition lift {A} (r : result A) : M A := fun w => (r, w).

(** [try: body  except Exception as e: handler e] *)
Definition try_except {A} (body : M A) (handler : exn -> M A) : M A :=
  fun w =>
    match body w with
    | (Ok a, w') => (Ok a, w')
    | (Raise e, w') => handler e w'
    end.

Declare Scope monad_scope.
Delimit Scope monad_scope with monad.
Notation "x <- m ;; k" := (bind m (fun x => k))
  (at level 61, m at next level, right associativity) : monad_scope.
Notation "m ;;; k" := (bind m (fun _ => k))
  (at level 61, right associativity) : monad_scope.
Local Open Scope monad_scope.

(** [print(line)] *)
Definition print (line : string) : M unit :=
  fun w => (Ok tt, {| calls := calls w; stdout := stdout w ++ [line] |}).

(** [client.chat.completions.create(...)] followed by
    [response.choices[0].message.content]: the request is recorded, then the
    service answers. *)
Definition create (client : Client) (req : Request) : M string :=
  fun w =>
    let w' := {| calls := calls w ++ [req]; stdout := stdout w |} in
    match client (calls w) req with
    | Fails e => (Raise e, w')
    | Replies text => (Ok text, w')
    end.

(** ** Binary64 arithmetic *)

(** Python floats are IEEE 754 binary64 numbers; the operations are the ones
    of [SpecFloat] at precision 53. *)
Module Float.

Definition prec : Z := 53.
Definition emax : Z := 1024.

(** An integer as an unrounded mantissa with exponent 0. *)
Definition raw (z : Z) : float :=
  match z with
  | Z0 => S754_zero false
  | Zpos p => S754_finite false p 0
  | Zneg p => S754_finite true p 0
  end.

(** [float(z)], correctly rounded (the analyzer only converts 100). *)
Definition of_Z (z : Z) : float := binary_normalize prec emax z 0 false.

(** The float literal [n / 10^d], e.g. [0.3] is [of_decimal 3 1]. *)
Definition of_decimal (n : Z) (d : nat) : float :=
  SFdiv prec emax (raw n) (raw (10 ^ Z.of_nat d)).

Definition mul (x y : float) : float := SFmul prec emax x y.
Definition eqb (x y : float) : bool := SFeqb x y.
Definition ltb (x y : float) : bool := SFltb x y.
Definition leb (x y : float) : bool := SFleb x y.

(** [a / b] on two ints: the exact quotient rounded once to binary64. *)
Definition int_truediv (a b : Z) : result float :=
  if (b =? 0)%Z then Raise ZeroDivisionError
  else
    match SFdiv prec emax (raw a) (raw b) with
    | S754_infinity _ =>
        Raise (OverflowError "integer division result too large for a float")
    | q => Ok q
    end.

(** The integer nearest to [a / b] for [b > 0], ties to even. *)
Definition div_half_even (a b : Z) : Z :=
  let q := (a / b)%Z in
  match (2 * (a mod b) ?= b)%Z with
  | Lt => q
  | Gt => (q + 1)%Z
  | Eq => if Z.even q then q else (q + 1)%Z
  end.

(** [round(x, ndigits)] for a float [x] and a small [ndigits >= 0]: the
    exact binary value is rounded half-even to [ndigits] decimals, and that
    decimal is converted back to the nearest float.  Infinities and NaN
    round to themselves; the sign of a zero result is the sign of [x]. *)
Definition round (x : float) (ndigits : nat) : result float :=
  match x with
  | S754_finite s m e =>
      let scale := (10 ^ Z.of_nat ndigits)%Z in
      let n :=
        match e with
        | Zneg p => div_half_even (Zpos m * scale) (2 ^ Zpos p)
        | _ => (Zpos m * 2 ^ e * scale)%Z
        end in
      match n with
      | Zpos n' =>
          match SFdiv prec emax (S754_finite s n' 0) (raw scale) with
          | S754_infinity _ =>
              Raise (OverflowError "rounded value too large to represent")
          | r => Ok r
          end
      | _ => Ok (S754_zero s)
      end
  | _ => Ok x
  end.

End Float.

(** A result that is an int on one branch and a float on the other, as in
    [round(...) if scores else 0]. *)
Inductive number : Type :=
| NInt (z : Z)
| NFloat (f : float).

(** Objects handed to [json.dumps]: JSON values, floats, and containers whose
    keys are hashable values. *)
Inductive pyobj : Type :=
| PVal (v : value)
| PFloat (f : float)
| PList (l : list pyobj)
| PDict (items : list (value * pyobj)).

Definition pyobj_of_number (n : number) : pyobj :=
  match n with
  | NInt z => PVal (VInt z)
  | NFloat f => PFloat f
  end.

(** ** Library functions taken as an interface *)

(** [json.loads(text)] and [json.dumps(obj, indent=2)].  [json.dumps] cannot
    fail on a [pyobj]: every key is a string, a number, a boolean or [None],
    and every leaf is serialisable. *)
Class Json : Type :=
  { json_loads : string -> result value;
    json_dumps : pyobj -> string }.

(** ** Text helpers *)

Definition nl : string := String "010"%char EmptyString.
Definition dq : string := String "034"%char EmptyString.

(** [str(n)] for a non-negative int. *)
Definition str_of_nat (n : nat) : string :=
  NilZero.string_of_uint (Nat.to_uint n).

(** The three UTF-8 bytes of the warning sign that opens the diagnostic. *)
Definition warning_sign : string :=
  String "226"%char (String "154"%char (String "160"%char EmptyString)).

(** ** Strings as sequences of characters *)

(** A Python [str] is a sequence of code points.  It is kept here as its
    UTF-8 encoding, so [len] and slicing count code points, not bytes: a code
    point starts at every byte that is not a continuation byte
    ([10xxxxxx]). *)
Module Utf8.

Definition continuation (c : ascii) : bool :=
  match c with
  | Ascii _ _ _ _ _ _ false true => true
  | _ => false
  end.

(** [len(s)] *)
Fixpoint len (s : string) : nat :=
  match s with
  | EmptyString => 0
  | String c s' => if continuation c then len s' else S (len s')
  end.

(** [s[:n]] *)
Fixpoint take (n : nat) (s : string) : string :=
  match s with
  | EmptyString => EmptyString
  | String c s' =>
      if continuation c then String c (take n s')
      else match n with
           | 0 => EmptyString
           | S n' => String c (take n' s')
           end
  end.

Definition starts_inside (s : string) : bool :=
  match s with
  | String c _ => continuation c
  | EmptyString => false
  end.

(** [list(s)]: the characters of [s], each as a string of its own. *)
Fixpoint chars (s : string) : list string :=
  match s with
  | EmptyString => []
  | String c s' =>
      match chars s' with
      | h :: t =>
          if starts_inside h then String c h :: t
          else String c EmptyString :: h :: t
      | [] => [String c EmptyString]
      end
  end.

End Utf8.

(** ** The analyzer *)

(** The attributes set by [__init__]. *)
Record ReviewAnalyzer : Type :=
  { client : Client;
    model : string;
    temperature : float }.

Definition default_model : string := "gpt-3.5-turbo".
Definition default_temperature : float := Float.of_decimal 3 1.

(** [ReviewAnalyzer(api_key, model=..., temperature=...)]: the key selects the
    client; omitted keyword arguments take the defaults. *)
Definition init (c : Client) (m : option string) (t : option float)
  : ReviewAnalyzer :=
  {| client := c;
     model := match m with Some m' => m' | None => default_model end;
     temperature := match t with Some t' => t' | None => default_temperature end |}.

Section Analyzer.

Context {J : Json}.
Variable self : ReviewAnalyzer.

(** *** [analyze_sentiment] *)

Definition sentiment_prompt (review : string) : string :=
  "Analyze the sentiment of this customer review. Provide your response in JSON format with:" ++ nl ++
  "- sentiment: " ++ dq ++ "positive" ++ dq ++ ", " ++ dq ++ "negative" ++ dq ++
    ", or " ++ dq ++ "neutral" ++ dq ++ nl ++
  "- score: a number from 1-5 (1=very negative, 5=very positive)" ++ nl ++
  "- key_points: list of main points mentioned" ++ nl ++
  "- emotions: list of emotions detected (e.g., satisfied, frustrated, excited)" ++ nl ++
  nl ++
  "Review: " ++ review ++ nl ++
  nl ++
  "Respond with valid JSON only.".

Definition sentiment_request (review : string) : Request :=
  {| req_model := model self;
     req_messages :=
       [ {| role := "system";
            content := "You are a sentiment analysis expert. Always respond with valid JSON." |};
         {| role := "user"; content := sentiment_prompt review |} ];
     req_temperature := temperature self |}.

(** [result['review'] = review] on whatever [json.loads] returned: only a
    dictionary accepts a string key. *)
Definition setitem_review (parsed : value) (review : string) : result dict :=
  match parsed with
  | VDict d => Ok (Dict.set d "review" (VStr review))
  | VList _ =>
      Raise (TypeError "list indices must be integers or slices, not str")
  | v =>
      Raise (TypeError ("'" ++ type_name v ++ "' object does not support item assignment"))
  end.

(** The dictionary returned by the [except] branch. *)
Definition fallback (review : string) (e : exn) : dict :=
  [ ("sentiment", VStr "neutral");
    ("score", VInt 3);
    ("key_points", VList []);
    ("emotions", VList []);
    ("review", VStr review);
    ("error", VStr (exn_str e)) ].

Definition analyze_sentiment (review : string) : M dict :=
  try_except
    (text <- create (client self) (sentiment_request review) ;;
     parsed <- lift (json_loads text) ;;
     lift (setitem_review parsed review))
    (fun e =>
       print (warning_sign ++ " Error analyzing sentiment: " ++ exn_str e) ;;;
       ret (fallback review e)).

(** *** [analyze_batch] *)

(** The [for] loop: [i] counts from 1, [total] is [len(reviews)], and
    [results] is the list appended to. *)
Fixpoint analyze_batch_loop (total i : nat) (rest : list string)
    (verbose : bool) (results : list dict) : M (list dict) :=
  match rest with
  | [] => ret results
  | review :: rest' =>
      (if verbose
       then print ("Analyzing review " ++ str_of_nat i ++ "/" ++ str_of_nat total ++ "...")
       else ret tt) ;;;
      res <- analyze_sentiment review ;;
      analyze_batch_loop total (S i) rest' verbose (results ++ [res])
  end.

Definition analyze_batch (reviews : list string) (verbose : bool)
  : M (list dict) :=
  analyze_batch_loop (List.length reviews) 1 reviews verbose [].

End Analyzer.

(** ** Pure helpers of the aggregator *)

Definition rbind {A B} (r : result A) (k : A -> result B) : result B :=
  match r with
  | Ok a => k a
  | Raise e => Raise e
  end.

Notation "x <~ r ;; k" := (rbind r (fun x => k))
  (at level 61, r at next level, right associativity) : monad_scope.

(** [[r[key] for r in analysis_results]] *)
Fixpoint column (key : string) (rs : list dict) : result (list value) :=
  match rs with
  | [] => Ok []
  | r :: rs' =>
      v <~ Dict.getitem r key ;;
      vs <~ column key rs' ;;
      Ok (v :: vs)
  end.

(** The keys of a dictionary in insertion order, each once. *)
Fixpoint dict_keys (d : dict) : list string :=
  match d with
  | [] => []
  | (k, _) :: d' => k :: filter (fun k' => negb (String.eqb k' k)) (dict_keys d')
  end.

(** What [list.extend(v)] iterates over. *)
Definition py_iter (v : value) : result (list value) :=
  match v with
  | VList l => Ok l
  | VStr s => Ok (map VStr (Utf8.chars s))
  | VDict d => Ok (map VStr (dict_keys d))
  | _ => Raise (TypeError ("'" ++ type_name v ++ "' object is not iterable"))
  end.

(** [len(v)] *)
Definition py_len (v : value) : result nat :=
  match v with
  | VStr s => Ok (Utf8.len s)
  | VList l => Ok (List.length l)
  | VDict d => Ok (List.length (dict_keys d))
  | _ => Raise (TypeError ("object of type '" ++ type_name v ++ "' has no len()"))
  end.

(** [sum(scores)]: starts from the int 0; a [bool] counts as 0 or 1. *)
Fixpoint py_sum_from (acc : Z) (l : list value) : result Z :=
  match l with
  | [] => Ok acc
  | VInt z :: l' => py_sum_from (acc + z) l'
  | VBool b :: l' => py_sum_from (acc + Z.b2z b) l'
  | v :: _ =>
      Raise (TypeError ("unsupported operand type(s) for +: 'int' and '" ++ type_name v ++ "'"))
  end.

Definition py_sum (l : list value) : result Z := py_sum_from 0 l.

(** [sentiments.count(label)] for a string [label]. *)
Definition is_str (label : string) (v : value) : bool :=
  match v with
  | VStr s => String.eqb s label
  | _ => false
  end.

Definition count_str (l : list value) (label : string) : nat :=
  List.length (filter (is_str label) l).

(** *** [collections.Counter] *)

Module Counter.

(** Key and count, in the order the keys were first seen. *)
Definition t : Type := list (value * nat).

Definition hash_check (v : value) : result unit :=
  match v with
  | VList _ => Raise (TypeError "unhashable type: 'list'")
  | VDict _ => Raise (TypeError "unhashable type: 'dict'")
  | _ => Ok tt
  end.

(** [==] on hashable values: [True == 1] and [False == 0]. *)
Definition key_eqb (a b : value) : bool :=
  match a, b with
  | VNone, VNone => true
  | VStr s, VStr s' => String.eqb s s'
  | VInt z, VInt z' => (z =? z')%Z
  | VInt z, VBool b | VBool b, VInt z => (z =? Z.b2z b)%Z
  | VBool b, VBool b' => Bool.eqb b b'
  | _, _ => false
  end.

(** [c[x] = c.get(x, 0) + 1] *)
Fixpoint incr (c : t) (x : value) : t :=
  match c with
  | [] => [(x, 1)]
  | (k, n) :: c' => if key_eqb k x then (k, S n) :: c' else (k, n) :: incr c' x
  end.

Fixpoint update (c : t) (items : list value) : result t :=
  match items with
  | [] => Ok c
  | x :: items' =>
      _ <~ hash_check x ;;
      update (incr c x) items'
  end.

(** [Counter(items)] *)
Definition make (items : list value) : result t := update [] items.

(** [sorted(c.items(), key=itemgetter(1), reverse=True)]: a stable sort,
    so entries with equal counts keep their insertion order. *)
Fixpoint insert_desc (x : value * nat) (l : t) : t :=
  match l with
  | [] => [x]
  | y :: l' => if (snd x <? snd y)%nat then y :: insert_desc x l' else x :: y :: l'
  end.

Fixpoint sort_desc (c : t) : t :=
  match c with
  | [] => []
  | x :: c' => insert_desc x (sort_desc c')
  end.

(** [c.most_common(n)], that is [heapq.nlargest(n, c.items(), key=count)],
    which the library documents as the first [n] entries of the sort
    above. *)
Definition most_common (n : nat) (c : t) : t := firstn n (sort_desc c).

End Counter.

(** [[item for item, count in Counter(items).most_common(n)]] *)
Definition top_items (n : nat) (items : list value) : result (list value) :=
  c <~ Counter.make items ;;
  Ok (map fst (Counter.most_common n c)).

(** The loop that gathers every record's key points and emotions. *)
Fixpoint collect (rs : list dict) (all_key_points all_emotions : list value)
  : result (list value * list value) :=
  match rs with
  | [] => Ok (all_key_points, all_emotions)
  | r :: rs' =>
      kp <~ py_iter (Dict.get r "key_points" (VList [])) ;;
      em <~ py_iter (Dict.get r "emotions" (VList [])) ;;
      collect rs' (all_key_points ++ kp) (all_emotions ++ em)
  end.

(** [sum(scores) / len(scores) if scores else 0] *)
Definition mean (scores : list value) : result number :=
  match scores with
  | [] => Ok (NInt 0)
  | _ =>
      total <~ py_sum scores ;;
      q <~ Float.int_truediv total (Z.of_nat (List.length scores)) ;;
      Ok (NFloat q)
  end.

(** [round(sum(scores) / len(scores), 2) if scores else 0] *)
Definition rounded_mean (scores : list value) : result number :=
  match scores with
  | [] => Ok (NInt 0)
  | _ =>
      total <~ py_sum scores ;;
      q <~ Float.int_truediv total (Z.of_nat (List.length scores)) ;;
      r <~ Float.round q 2 ;;
      Ok (NFloat r)
  end.

(** [round((sentiments.count(label) / len(sentiments)) * 100, 1)] *)
Definition percentage (sentiments : list value) (label : string) : result float :=
  q <~ Float.int_truediv (Z.of_nat (count_str sentiments label))
         (Z.of_nat (List.length sentiments)) ;;
  Float.round (Float.mul q (Float.of_Z 100)) 1.

(** [r['review'][:200] + '...' if len(r['review']) > 200 else r['review']].
    A review is a string in every record the extractor builds; for the other
    sized values the long branch fails on the slice or on the [+]. *)
Definition sample (r : dict) : result value :=
  review <~ Dict.getitem r "review" ;;
  n <~ py_len review ;;
  if (200 <? n)%nat then
    match review with
    | VStr s => Ok (VStr (Utf8.take 200 s ++ "...")%string)
    | VList _ =>
        Raise (TypeError ("can only concatenate list (not " ++ dq ++ "str" ++ dq ++ ") to list"))
    | _ => Raise (TypeError "unhashable type: 'slice'")
    end
  else Ok review.

Fixpoint samples (rs : list dict) : result (list value) :=
  match rs with
  | [] => Ok []
  | r :: rs' =>
      s <~ sample r ;;
      ss <~ samples rs' ;;
      Ok (s :: ss)
  end.

(** The dictionary [summary_data] built by [generate_summary]. *)
Module Summary.

Record data : Type :=
  { total_reviews : nat;
    sentiment_breakdown : Counter.t;
    average_score : number;
    common_points : list value;
    common_emotions : list value }.

Definition int (n : nat) : pyobj := PVal (VInt (Z.of_nat n)).

(** The same dictionary as the object given to [json.dumps]. *)
Definition to_pyobj (d : data) : pyobj :=
  PDict
    [ (VStr "total_reviews", int (total_reviews d));
      (VStr "sentiment_breakdown",
        PDict (map (fun kn => (fst kn, int (snd kn))) (sentiment_breakdown d)));
      (VStr "average_score", pyobj_of_number (average_score d));
      (VStr "common_points", PList (map PVal (common_points d)));
      (VStr "common_emotions", PList (map PVal (common_emotions d))) ].

End Summary.

(** The statements of [generate_summary] before the prompt is built. *)
Definition summary_data (analysis_results : list dict) : result Summary.data :=
  sentiments <~ column "sentiment" analysis_results ;;
  scores <~ column "score" analysis_results ;;
  gathered <~ collect analysis_results [] [] ;;
  breakdown <~ Counter.make sentiments ;;
  average <~ mean scores ;;
  points <~ top_items 10 (fst gathered) ;;
  emotions <~ top_items 5 (snd gathered) ;;
  Ok {| Summary.total_reviews := List.length analysis_results;
        Summary.sentiment_breakdown := breakdown;
        Summary.average_score := average;
        Summary.common_points := points;
        Summary.common_emotions := emotions |}.

(** The dictionary returned by [generate_report]. *)
Record Report : Type :=
  { total_reviews : nat;
    sentiment_distribution : Counter.t;
    average_rating : number;
    positive_percentage : float;
    negative_percentage : float;
    neutral_percentage : float;
    summary : string;
    detailed_results : list dict }.

Section Aggregator.

Context {J : Json}.
Variable self : ReviewAnalyzer.

(** *** [generate_summary] *)

Definition summary_prompt (analysis_results : list dict) : result string :=
  data <~ summary_data analysis_results ;;
  shown <~ samples (firstn 5 analysis_results) ;;
  Ok ("Based on the following customer review analysis data, generate a concise executive summary:" ++ nl ++
      nl ++
      "Data:" ++ nl ++
      json_dumps (Summary.to_pyobj data) ++ nl ++
      nl ++
      "Sample reviews:" ++ nl ++
      json_dumps (PList (map PVal shown)) ++ nl ++
      nl ++
      "Generate a professional summary that includes:" ++ nl ++
      "1. Overall sentiment overview" ++ nl ++
      "2. Key themes and patterns" ++ nl ++
      "3. Main customer concerns or praises" ++ nl ++
      "4. Actionable insights for business improvement" ++ nl ++
      nl ++
      "Keep it under 300 words.")%string.

(** The temperature of the summary call is the literal [0.5]. *)
Definition summary_temperature : float := Float.of_decimal 5 1.

Definition summary_request (prompt : string) : Request :=
  {| req_model := model self;
     req_messages :=
       [ {| role := "system";
            content := "You are a business analyst expert at summarizing customer feedback." |};
         {| role := "user"; content := prompt |} ];
     req_temperature := summary_temperature |}.

Definition generate_summary (analysis_results : list dict) : M string :=
  prompt <- lift (summary_prompt analysis_results) ;;
  try_except
    (create (client self) (summary_request prompt))
    (fun e => ret ("Error generating summary: " ++ exn_str e)%string).

(** *** [generate_report] *)

(** The entries of the dictionary literal are evaluated top to bottom, so
    the percentages are computed before [generate_summary] is called. *)
Definition generate_report (analysis_results : list dict) : M Report :=
  sentiments <- lift (column "sentiment" analysis_results) ;;
  scores <- lift (column "score" analysis_results) ;;
  distribution <- lift (Counter.make sentiments) ;;
  average <- lift (rounded_mean scores) ;;
  positive <- lift (percentage sentiments "positive") ;;
  negative <- lift (percentage sentiments "negative") ;;
  neutral <- lift (percentage sentiments "neutral") ;;
  text <- generate_summary analysis_results ;;
  ret {| total_reviews := List.length analysis_results;
         sentiment_distribution := distribution;
         average_rating := average;
         positive_percentage := positive;
         negative_percentage := negative;
         neutral_percentage := neutral;
         summary := text;
         detailed_results := analysis_results |}.

End Aggregator.

(** ** Specification-side notions *)

(** How the guarded block of [analyze_sentiment] can raise: the call itself
    fails, the reply is not JSON, or the parsed value rejects the [review]
    key. *)
Section ExtractionFailure.

Context {J : Json}.
Variable self : ReviewAnalyzer.
Variable review : string.
Variable w : World.

Definition reply_to_review : Reply :=
  client self (calls w) (sentiment_request self review).

Inductive extraction_fails : exn -> Prop :=
| transport_failure e :
    reply_to_review = Fails e -> extraction_fails e
| parse_failure text e :
    reply_to_review = Replies text ->
    json_loads text = Raise e ->
    extraction_fails e
| assignment_failure text parsed e :
    reply_to_review = Replies text ->
    json_loads text = Ok parsed ->
    setitem_review parsed review = Raise e ->
    extraction_fails e.

(** The world after one extraction that returned from the [try] block. *)
Definition after_success : World :=
  {| calls := calls w ++ [sentiment_request self review]; stdout := stdout w |}.

(** The world after one extraction that took the [except] branch. *)
Definition after_failure (e : exn) : World :=
  {| calls := calls w ++ [sentiment_request self review];
     stdout := stdout w ++ [(warning_sign ++ " Error analyzing sentiment: " ++ exn_str e)%string] |}.

End ExtractionFailure.

Definition is_dict (v : value) : bool :=
  match v with
  | VDict _ => true
  | _ => false
  end.

(** The record the spec promises when extraction fails with message [msg]. *)
Definition neutral_fallback (review msg : string) (r : dict) : Prop :=
  Dict.lookup r "sentiment" = Some (VStr "neutral") /\
  Dict.lookup r "score" = Some (VInt 3) /\
  Dict.lookup r "key_points" = Some (VList []) /\
  Dict.lookup r "emotions" = Some (VList []) /\
  Dict.lookup r "review" = Some (VStr review) /\
  Dict.lookup r "error" = Some (VStr msg).

(** *** Magnitudes of floats *)

(** A mantissa and exponent whose value is below [2^K], with the exponent
    itself at most [K]. *)
Definition fits (K m e : Z) : Prop :=
  (0 <= m /\ Zdigits2 m + e <= K /\ e <= K)%Z.

(** A finite float of absolute value below [2^K]. *)
Definition mag_le (K : Z) (x : float) : Prop :=
  match x with
  | S754_zero _ => True
  | S754_finite _ m e => (Zdigits2 (Zpos m) + e <= K)%Z
  | _ => False
  end.

(** *** Well-formed sentiment records *)

Definition is_string (v : value) : bool :=
  match v with
  | VStr _ => true
  | _ => false
  end.

Definition is_score (v : value) : bool :=
  match v with
  | VInt z => ((1 <=? z) && (z <=? 5))%Z
  | _ => false
  end.

Definition is_string_list (v : value) : bool :=
  match v with
  | VList l => forallb is_string l
  | _ => false
  end.

Definition has (r : dict) (key : string) (p : value -> bool) : bool :=
  match Dict.lookup r key with
  | Some v => p v
  | None => false
  end.

Definition may_have (r : dict) (key : string) (p : value -> bool) : bool :=
  match Dict.lookup r key with
  | Some v => p v
  | None => true
  end.

(** A record of the data model: [review] and [sentiment] are strings,
    [score] is an integer from 1 to 5, and [key_points] and [emotions], when
    present, are lists of strings.  Any other key is allowed. *)
Definition well_formed (r : dict) : bool :=
  has r "review" is_string &&
  has r "sentiment" is_string &&
  has r "score" is_score &&
  may_have r "key_points" is_string_list &&
  may_have r "emotions" is_string_list.

Definition all_well_formed (rs : list dict) : Prop :=
  Forall (fun r => well_formed r = true) rs.

Definition text_of (v : value) : string :=
  match v with
  | VStr s => s
  | _ => EmptyString
  end.

Definition strings_of (v : value) : list string :=
  match v with
  | VList l => map text_of l
  | _ => []
  end.

Definition review_of (r : dict) : string := text_of (Dict.get r "review" VNone).
Definition sentiment_of (r : dict) : string := text_of (Dict.get r "sentiment" VNone).
Definition score_of (r : dict) : Z :=
  match Dict.lookup r "score" with
  | Some (VInt z) => z
  | _ => 0%Z
  end.
Definition key_points_of (r : dict) : list string :=
  strings_of (Dict.get r "key_points" (VList [])).
Definition emotions_of (r : dict) : list string :=
  strings_of (Dict.get r "emotions" (VList [])).

(** The statistics of the report in the words of the spec. *)
Definition total_score (rs : list dict) : Z :=
  fold_right Z.add 0%Z (map score_of rs).

Definition labelled (label : string) (rs : list dict) : nat :=
  List.length (filter (fun r => String.eqb (sentiment_of r) label) rs).

(** *** Frequencies and ranking of strings *)

Definition differs (x : string) (y : string) : bool := negb (String.eqb y x).

(** The distinct strings of a list, in order of first appearance. *)
Fixpoint uniq (l : list string) : list string :=
  match l with
  | [] => []
  | x :: l' => x :: filter (differs x) (uniq l')
  end.

(** How often a string occurs. *)
Definition frequency (l : list string) (x : string) : nat :=
  count_occ string_dec l x.

(** The position of the first occurrence. *)
Fixpoint first_index (l : list string) (x : string) : nat :=
  match l with
  | [] => 0
  | y :: l' => if String.eqb y x then 0 else S (first_index l' x)
  end.

(** [p] is ranked before [q]: it is more frequent, or as frequent and
    encountered first. *)
Definition outranks (l : list string) (p q : string) : Prop :=
  frequency l q < frequency l p \/
  (frequency l p = frequency l q /\ first_index l p < first_index l q).

(** The counter of a list of strings, stated directly. *)
Definition tally (l : list string) : Counter.t :=
  map (fun x => (VStr x, frequency l x)) (uniq l).

(** Counter entry [a] comes before entry [b] in [most_common]: a higher
    count, or the same count and a smaller tie-breaking rank. *)
Definition before (rk : value * nat -> nat) (a b : value * nat) : Prop :=
  snd b < snd a \/ (snd a = snd b /\ rk a < rk b).

(** [selected] is the top [n] of [items]: the first [n] entries of the list
    of distinct items ranked by frequency, ties by first appearance. *)
Definition top_ranked (n : nat) (items selected : list string) : Prop :=
  exists rest,
    Permutation (selected ++ rest) (uniq items) /\
    StronglySorted (outranks items) (selected ++ rest) /\
    List.length selected = Nat.min n (List.length (uniq items)).

(** The average rating in the words of the spec: the mean of the [score]
    fields, rounded to 2 decimals. *)
Definition spec_average_rating (rs : list dict) : result float :=
  q <~ Float.int_truediv (total_score rs) (Z.of_nat (List.length rs)) ;;
  Float.round q 2.

(** A percentage in the words of the spec: the count of the label over the
    total, times 100, rounded to 1 decimal. *)
Definition spec_percentage (label : string) (rs : list dict) : result float :=
  q <~ Float.int_truediv (Z.of_nat (labelled label rs)) (Z.of_nat (List.length rs)) ;;
  Float.round (Float.mul q (Float.of_Z 100)) 1.

(** *** Rounded quotients *)


(** A finite float that is not negative. *)
Definition nonneg (x : float) : Prop :=
  match x with
  | S754_zero false => True
  | S754_finite false _ e => (-1074 <= e)%Z
  | _ => False
  end.

(** The exact value of a finite float, counted in units of [2^-1074]: every
    finite binary64 number is an integer multiple of that unit. *)
Definition ulps (x : float) : Z :=
  match x with
  | S754_finite false m e => (Zpos m * 2 ^ (e + 1074))%Z
  | S754_finite true m e => (- (Zpos m * 2 ^ (e + 1074)))%Z
  | _ => 0%Z
  end.

(** [x] is a non-negative float within [2^E] of the exact quotient [a / b]. *)
Definition approximates (E : Z) (x : float) (a b : Z) : Prop :=
  nonneg x /\ (Z.abs (ulps x * b - a * 2 ^ 1074) <= b * 2 ^ (E + 1074))%Z.

(** [k / 10^nd] is the decimal with [nd] places nearest to the exact value
    of [x], the even [k] when [x] lies halfway between two of them. *)
Definition rounds_to (nd : nat) (x : float) (k : Z) : Prop :=
  (2 * Z.abs (k * 2 ^ 1074 - ulps x * 10 ^ Z.of_nat nd) <= 2 ^ 1074)%Z /\
  ((2 * Z.abs (k * 2 ^ 1074 - ulps x * 10 ^ Z.of_nat nd) = 2 ^ 1074)%Z -> Z.even k = true).

(** [k / 10^nd] is within half a unit of the last place of the exact
    quotient [a / b], plus [2^-37] of that unit for the rounding errors of
    the binary arithmetic: [|k - 10^nd * a / b| <= 1/2 + 2^-37]. *)
Definition rounds_quotient (nd : nat) (a b k : Z) : Prop :=
  (0 <= k /\ 2 ^ 37 * Z.abs (k * b - 10 ^ Z.of_nat nd * a) <= b * (2 ^ 36 + 1))%Z.

(** [k / 10^nd] is a decimal with [nd] places nearest to the exact quotient
    [a / b]: [|k - 10^nd * a / b| <= 1/2]. *)
Definition nearest_decimal (nd : nat) (a b k : Z) : Prop :=
  (0 <= k /\ 2 * Z.abs (k * b - 10 ^ Z.of_nat nd * a) <= b)%Z.

(** [x] is the float of a decimal with [nd] places that rounds the exact
    quotient [a / b]; for a denominator below [2^36] that decimal is a
    nearest one. *)
Definition rounded_quotient (nd : nat) (a b : Z) (x : float) : Prop :=
  exists k,
    x = Float.of_decimal k nd /\
    rounds_quotient nd a b k /\
    ((b < 2 ^ 36)%Z -> nearest_decimal nd a b k).

(** The summary text: the reply of the service, or the description of the
    exception it raised. *)
Definition summary_text (reply : Reply) : string :=
  match reply with
  | Replies text => text
  | Fails e => "Error generating summary: " ++ exn_str e
  end.

(** ** A concrete decoder and concrete services for the examples *)

Module Fixture.

Definition quoted (s : string) : string := dq ++ s ++ dq.

(** A reply that follows the requested schema. *)
Definition good_text : string :=
  "{" ++ quoted "sentiment" ++ ": " ++ quoted "positive" ++ ", " ++
  quoted "score" ++ ": 5, " ++
  quoted "key_points" ++ ": [" ++ quoted "quality" ++ "], " ++
  quoted "emotions" ++ ": [" ++ quoted "happy" ++ "]}".

Definition good_value : value :=
  VDict [ ("sentiment", VStr "positive");
          ("score", VInt 5);
          ("key_points", VList [VStr "quality"]);
          ("emotions", VList [VStr "happy"]) ].

(** A JSON object that happens to carry an [error] member. *)
Definition error_text : string :=
  "{" ++ quoted "sentiment" ++ ": " ++ quoted "positive" ++ ", " ++
  quoted "error" ++ ": " ++ quoted "none" ++ "}".

Definition error_value : value :=
  VDict [ ("sentiment", VStr "positive"); ("error", VStr "none") ].

Definition JSONDecodeError : exn :=
  Exn "JSONDecodeError" "Expecting value: line 1 column 1 (char 0)".

(** [json.loads] restricted to a table of documents; every other text is
    rejected the way free-form prose is. *)
Definition loads (text : string) : result value :=
  if String.eqb text good_text then Ok good_value
  else if String.eqb text error_text then Ok error_value
  else if String.eqb text "[]" then Ok (VList [])
  else if String.eqb text "42" then Ok (VInt 42)
  else Raise JSONDecodeError.

(** A serialiser that only names the kind of object it was given. *)
Definition dumps (o : pyobj) : string :=
  match o with
  | PVal _ => "<value>"
  | PFloat _ => "<float>"
  | PList _ => "[...]"
  | PDict _ => "{...}"
  end.

Definition json : Json := {| json_loads := loads; json_dumps := dumps |}.

(** Services that always answer the same way. *)
Definition answering (text : string) : Client := fun _ _ => Replies text.
Definition failing (e : exn) : Client := fun _ _ => Fails e.

(** A timeout raised without a message: [str(TimeoutError())] is empty. *)
Definition silent_timeout : exn := Exn "TimeoutError" EmptyString.

Definition connection_error : exn := Exn "APIConnectionError" "Connection error.".

(** The records of the unit tests. *)
Definition record (sentiment : string) (score : Z) (review : string) : dict :=
  [ ("sentiment", VStr sentiment); ("score", VInt score); ("review", VStr review) ].

Definition four_labels : list dict :=
  [ record "positive" 5 "Great!"; record "positive" 4 "Good";
    record "negative" 2 "Bad"; record "neutral" 3 "OK" ].

Definition two_scores : list dict :=
  [ record "positive" 5 "Great!" ++
      [ ("key_points", VList [VStr "quality"]); ("emotions", VList [VStr "happy"]) ];
    record "negative" 2 "Bad" ++
      [ ("key_points", VList [VStr "poor quality"]); ("emotions", VList [VStr "frustrated"]) ] ].

(** Records whose key points tie: "price" and "quality" occur twice,
    "price" first. *)
Definition tied : list dict :=
  [ record "positive" 4 "Cheap and solid" ++
      [ ("key_points", VList [VStr "price"; VStr "quality"]) ];
    record "neutral" 3 "Slow delivery" ++
      [ ("key_points", VList [VStr "delivery"; VStr "quality"; VStr "price"]) ] ].

(** The settings of the custom-settings test: model gpt-4, temperature 0.5. *)
Definition custom : ReviewAnalyzer :=
  init (failing connection_error) (Some "gpt-4") (Some (Float.of_decimal 5 1)).

(** Analyzers with the default settings in front of those services. *)
Definition offline : ReviewAnalyzer := init (failing connection_error) None None.
Definition timing_out : ReviewAnalyzer := init (failing silent_timeout) None None.
Definition well_behaved : ReviewAnalyzer := init (answering good_text) None None.
Definition chatty : ReviewAnalyzer := init (answering error_text) None None.
Definition listing : ReviewAnalyzer := init (answering "[]") None None.

(** [s * n] *)
Fixpoint times (s : string) (n : nat) : string :=
  match n with
  | 0 => EmptyString
  | S n' => (s ++ times s n')%string
  end.

(** The letter e with an acute accent: one character, two bytes. *)
Definition e_acute : string := String "195"%char (String "169"%char EmptyString).

(** Three records whose mean score and percentages are not finite decimals:
    13/3, 2/3 and 1/3. *)
Definition thirds : list dict :=
  [ record "positive" 5 "Great!"; record "positive" 5 "Good"; record "negative" 3 "Bad" ].

(** A review of 150 accented letters and one of 250. *)
Definition accented : list dict :=
  [ record "positive" 5 (times e_acute 150); record "negative" 1 (times e_acute 250) ].

End Fixture.

(** ** The stand-alone script *)

(** [src/Custom_Review_Analysis.py] holds an earlier copy of the class: the
    model name and the temperature are written into the calls, progress is
    always printed, and the diagnostic has no warning sign.  The prompts and
    the aggregation are the ones above. *)
Module Legacy.

Section Script.

Context {J : Json}.

(** [self.client], the only attribute. *)
Variable self_client : Client.

Definition sentiment_request (review : string) : Request :=
  {| req_model := "gpt-3.5-turbo";
     req_messages :=
       [ {| role := "system";
            content := "You are a sentiment analysis expert. Always respond with valid JSON." |};
         {| role := "user"; content := sentiment_prompt review |} ];
     req_temperature := Float.of_decimal 3 1 |}.

Definition analyze_sentiment (review : string) : M dict :=
  try_except
    (text <- create self_client (sentiment_request review) ;;
     parsed <- lift (json_loads text) ;;
     lift (setitem_review parsed review))
    (fun e =>
       print ("Error analyzing sentiment: " ++ exn_str e) ;;;
       ret (fallback review e)).

(** [for i, review in enumerate(reviews)]: [i] counts from 0 and [i+1] is
    printed. *)
Fixpoint analyze_batch_loop (total i : nat) (rest : list string)
    (results : list dict) : M (list dict) :=
  match rest with
  | [] => ret results
  | review :: rest' =>
      print ("Analyzing review " ++ str_of_nat (i + 1) ++ "/" ++ str_of_nat total ++ "...") ;;;
      res <- analyze_sentiment review ;;
      analyze_batch_loop total (S i) rest' (results ++ [res])
  end.

Definition analyze_batch (reviews : list string) : M (list dict) :=
  analyze_batch_loop (List.length reviews) 0 reviews [].

Definition summary_request (prompt : string) : Request :=
  {| req_model := "gpt-3.5-turbo";
     req_messages :=
       [ {| role := "system";
            content := "You are a business analyst expert at summarizing customer feedback." |};
         {| role := "user"; content := prompt |} ];
     req_temperature := Float.of_decimal 5 1 |}.

Definition generate_summary (analysis_results : list dict) : M string :=
  prompt <- lift (summary_prompt analysis_results) ;;
  try_except
    (create self_client (summary_request prompt))
    (fun e => ret ("Error generating summary: " ++ exn_str e)%string).

Definition generate_report (analysis_results : list dict) : M Report :=
  sentiments <- lift (column "sentiment" analysis_results) ;;
  scores <- lift (column "score" analysis_results) ;;
  distribution <- lift (Counter.make sentiments) ;;
  average <- lift (rounded_mean scores) ;;
  positive <- lift (percentage sentiments "positive") ;;
  negative <- lift (percentage sentiments "negative") ;;
  neutral <- lift (percentage sentiments "neutral") ;;
  text <- generate_summary analysis_results ;;
  ret {| total_reviews := List.length analysis_results;
         sentiment_distribution := distribution;
         average_rating := average;
         positive_percentage := positive;
         negative_percentage := negative;
         neutral_percentage := neutral;
         summary := text;
         detailed_results := analysis_results |}.

End Script.

End Legacy.

(** ** Notions for the properties of the pipeline *)

(** The record [analyze_sentiment] returns for [review] once the requests of
    [history] have been sent. *)
Definition record_after {J : Json} (self : ReviewAnalyzer)
    (history : list Request) (review : string) : dict :=
  match fst (analyze_sentiment self review {| calls := history; stdout := [] |}) with
  | Ok r => r
  | Raise _ => []
  end.

(** The records of a batch, each extracted after the requests of the reviews
    before it. *)
Fixpoint batch_records {J : Json} (self : ReviewAnalyzer)
    (history : list Request) (reviews : list string) : list dict :=
  match reviews with
  | [] => []
  | review :: rest =>
      record_after self history review ::
      batch_records self (history ++ [sentiment_request self review]) rest
  end.

(** The progress line of review number [i] out of [total]. *)
Definition progress_line (total i : nat) : string :=
  "Analyzing review " ++ str_of_nat i ++ "/" ++ str_of_nat total ++ "...".

(** A service that answers every request with a JSON object. *)
Definition healthy {J : Json} (c : Client) : Prop :=
  forall history req,
    exists text d, c history req = Replies text /\ json_loads text = Ok (VDict d).

(** A service that fails every request. *)
Definition down (c : Client) : Prop :=
  forall history req, exists e, c history req = Fails e.

(** The members the extractor asks the model for, with the types of the data
    model. *)
Definition follows_schema (d : dict) : bool :=
  has d "sentiment" is_string &&
  has d "score" is_score &&
  may_have d "key_points" is_string_list &&
  may_have d "emotions" is_string_list.

(** A service whose replies, whenever they parse to a JSON object, follow the
    schema.  It may still fail, or answer with something that is not an
    object. *)
Definition conforming {J : Json} (c : Client) : Prop :=
  forall history req text d,
    c history req = Replies text ->
    json_loads text = Ok (VDict d) ->
    follows_schema d = true.

(** What [sum] accepts. *)
Definition is_number (v : value) : bool :=
  match v with
  | VInt _ | VBool _ => true
  | _ => false
  end.

(** The sum of the counts of a counter. *)
Definition counts_total (c : Counter.t) : nat := list_sum (map snd c).

(** No two entries of a counter have equal keys. *)
Definition distinct_keys (c : Counter.t) : Prop :=
  ForallOrdPairs (fun a b => Counter.key_eqb (fst a) (fst b) = false) c.

(** * Properties *)

(** ** The definitions on small inputs *)

(** [round(2.675, 2)] is [2.67]: the binary value lies below the tie. *)
Example round_2_675 :
  Float.round (Float.of_decimal 2675 3) 2 = Ok (Float.of_decimal 267 2).
Proof. vm_compute. reflexivity. Qed.

(** [round(0.125, 2)] is [0.12]: an exact tie goes to the even digit. *)
Example round_0_125 :
  Float.round (Float.of_decimal 125 3) 2 = Ok (Float.of_decimal 12 2).
Proof. vm_compute. reflexivity. Qed.

(** [round((2 / 3) * 100, 1)] is [66.7]. *)
Example two_thirds_percent :
  (q <~ Float.int_truediv 2 3 ;; Float.round (Float.mul q (Float.of_Z 100)) 1)
    = Ok (Float.of_decimal 667 1).
Proof. vm_compute. reflexivity. Qed.

(** [1 / 0] raises. *)
Example one_over_zero : Float.int_truediv 1 0 = Raise ZeroDivisionError.
Proof. reflexivity. Qed.

(** [Counter(['b', 'a', 'b', 'a', 'c']).most_common(2)] keeps ['b'] before
    ['a']: both occur twice and ['b'] was seen first. *)
Example most_common_tie :
  top_items 2 [VStr "b"; VStr "a"; VStr "b"; VStr "a"; VStr "c"]
    = Ok [VStr "b"; VStr "a"].
Proof. reflexivity. Qed.

(** [True] and [1] are one key of a [Counter]. *)
Example counter_true_is_one :
  Counter.make [VBool true; VInt 1; VStr "1"] = Ok [(VBool true, 2); (VStr "1", 1)].
Proof. reflexivity. Qed.

(** A list cannot be counted. *)
Example counter_unhashable :
  Counter.make [VStr "a"; VList []] = Raise (TypeError "unhashable type: 'list'").
Proof. reflexivity. Qed.

(** A reply that follows the schema comes back with the review appended. *)
Example analyze_sentiment_good_reply :
  fst (@analyze_sentiment Fixture.json Fixture.well_behaved "Great!" initial_world)
    = Ok [ ("sentiment", VStr "positive"); ("score", VInt 5);
           ("key_points", VList [VStr "quality"]); ("emotions", VList [VStr "happy"]);
           ("review", VStr "Great!") ].
Proof. vm_compute. reflexivity. Qed.

(** Free-form prose is rejected by the decoder and yields the fallback. *)
Example analyze_sentiment_prose_reply :
  fst (@analyze_sentiment Fixture.json
         (init (Fixture.answering "Sure! The review is positive.") None None)
         "Great!" initial_world)
    = Ok (fallback "Great!" Fixture.JSONDecodeError).
Proof. vm_compute. reflexivity. Qed.

(** A record without a [sentiment] entry stops the report with a
    [KeyError]. *)
Example generate_report_missing_sentiment :
  fst (@generate_report Fixture.json Fixture.offline [[("review", VStr "Fine")]]
         initial_world)
    = Raise (KeyError "sentiment").
Proof. vm_compute. reflexivity. Qed.

(** ** Dictionaries *)

Lemma lookup_set_same (d : dict) (key : string) (v : value) :
  Dict.lookup (Dict.set d key v) key = Some v.
Proof.
  induction d as [|[k v0] d IH]; simpl.
  - now rewrite String.eqb_refl.
  - destruct (String.eqb k key) eqn:E; simpl; rewrite E; auto.
Qed.

Lemma lookup_set_other (d : dict) (key key' : string) (v : value) :
  key <> key' ->
  Dict.lookup (Dict.set d key v) key' = Dict.lookup d key'.
Proof.
  intros Hne. induction d as [|[k v0] d IH]; simpl.
  - destruct (String.eqb key key') eqn:E; auto.
    apply String.eqb_eq in E. contradiction.
  - destruct (String.eqb k key) eqn:E; simpl.
    + apply String.eqb_eq in E. subst k.
      destruct (String.eqb key key') eqn:E'; auto.
      apply String.eqb_eq in E'. contradiction.
    + destruct (String.eqb k key'); auto.
Qed.

Lemma mem_lookup (d : dict) (key : string) :
  Dict.mem d key = match Dict.lookup d key with Some _ => true | None => false end.
Proof.
  induction d as [|[k v] d IH]; simpl; auto.
  destruct (String.eqb k key); auto.
Qed.

Lemma mem_set_other (d : dict) (key key' : string) (v : value) :
  key <> key' -> Dict.mem (Dict.set d key v) key' = Dict.mem d key'.
Proof.
  intros Hne. rewrite !mem_lookup. now rewrite lookup_set_other.
Qed.

(** ** Float magnitudes *)

Section FloatBounds.

Local Open Scope Z_scope.

Lemma digits2_pos_upper p : Zpos p < 2 ^ Zpos (digits2_pos p).
Proof.
  induction p as [p IH | p IH | ]; simpl digits2_pos;
    rewrite ?Pos2Z.inj_succ, ?Z.pow_succ_r by lia; lia.
Qed.

Lemma digits2_pos_lower p : 2 ^ (Zpos (digits2_pos p) - 1) <= Zpos p.
Proof.
  induction p as [p IH | p IH | ]; simpl digits2_pos;
    rewrite ?Pos2Z.inj_succ; try (simpl; lia);
    replace (Z.succ (Zpos (digits2_pos p)) - 1) with (Z.succ (Zpos (digits2_pos p) - 1)) by lia;
    rewrite Z.pow_succ_r by lia; lia.
Qed.

Lemma Zdigits2_nonneg m : 0 <= Zdigits2 m.
Proof. destruct m; simpl; lia. Qed.

Lemma Zdigits2_le m d : 0 <= m -> 0 <= d -> m < 2 ^ d -> Zdigits2 m <= d.
Proof.
  intros Hm Hd Hlt. destruct m as [|p|p]; simpl; try lia.
  destruct (Z_le_gt_dec (Zpos (digits2_pos p)) d) as [|Hgt]; [assumption|].
  exfalso. pose proof (digits2_pos_lower p) as Hlow.
  assert (2 ^ d <= 2 ^ (Zpos (digits2_pos p) - 1)) by (apply Z.pow_le_mono_r; lia).
  lia.
Qed.

Lemma Zdigits2_upper m : 0 <= m -> m < 2 ^ Zdigits2 m.
Proof.
  intros Hm. destruct m as [|p|p]; simpl; try lia. apply digits2_pos_upper.
Qed.

Lemma shr_1_digits mrs :
  0 <= shr_m mrs ->
  0 <= shr_m (shr_1 mrs) /\ Zdigits2 (shr_m (shr_1 mrs)) = Z.max 0 (Zdigits2 (shr_m mrs) - 1).
Proof.
  destruct mrs as [m r s]. simpl shr_m at 1. intros Hm.
  destruct m as [|p|p]; try lia; [simpl; lia|].
  destruct p; cbn [shr_1 shr_m Zdigits2 digits2_pos orb];
    rewrite ?Pos2Z.inj_succ; lia.
Qed.

Lemma iter_shr_1_digits p : forall mrs,
  0 <= shr_m mrs ->
  0 <= shr_m (iter_pos shr_1 p mrs) /\
  Zdigits2 (shr_m (iter_pos shr_1 p mrs)) = Z.max 0 (Zdigits2 (shr_m mrs) - Zpos p).
Proof.
  induction p as [p IH | p IH | ]; intros mrs Hm; simpl iter_pos.
  - destruct (shr_1_digits mrs Hm) as [H1 E1].
    destruct (IH _ H1) as [H2 E2]. destruct (IH _ H2) as [H3 E3].
    split; [assumption|]. rewrite E3, E2, E1. lia.
  - destruct (IH _ Hm) as [H2 E2]. destruct (IH _ H2) as [H3 E3].
    split; [assumption|]. rewrite E3, E2. lia.
  - apply shr_1_digits; assumption.
Qed.

Lemma shr_m_of_loc m l : shr_m (shr_record_of_loc m l) = m.
Proof. destruct l as [|[| |]]; reflexivity. Qed.

Lemma shr_fexp_fits K m e l :
  -1000 <= K -> fits K m e ->
  fits K (shr_m (fst (shr_fexp Float.prec Float.emax m e l)))
         (snd (shr_fexp Float.prec Float.emax m e l)).
Proof.
  intros HK (Hm & Hd & He). unfold shr_fexp, shr.
  destruct (fexp Float.prec Float.emax (Zdigits2 m + e) - e) as [|p|p] eqn:En;
    cbn [fst snd]; rewrite ?shr_m_of_loc; try (repeat split; assumption).
  assert (Hm' : 0 <= shr_m (shr_record_of_loc m l)) by now rewrite shr_m_of_loc.
  destruct (iter_shr_1_digits p _ Hm') as [H1 E1].
  rewrite shr_m_of_loc in E1.
  unfold fexp, emin, Float.prec, Float.emax in En.
  repeat split; [assumption| rewrite E1; lia | lia].
Qed.

Lemma round_nearest_even_fits K m e l :
  fits K m e -> fits (K + 1) (round_nearest_even m l) e.
Proof.
  intros (Hm & Hd & He).
  assert (Hup : 0 <= m + 1 /\ Zdigits2 (m + 1) <= Zdigits2 m + 1).
  { split; [lia|]. pose proof (Zdigits2_nonneg m). pose proof (Zdigits2_upper m Hm).
    apply Zdigits2_le; try lia. rewrite Z.pow_add_r by lia. lia. }
  unfold round_nearest_even.
  destruct l as [|[| |]]; try destruct (Z.even m); repeat split; lia.
Qed.

Lemma binary_round_aux_mag K s m e l :
  -1000 <= K <= 970 -> fits K m e ->
  mag_le (K + 1) (binary_round_aux Float.prec Float.emax s m e l).
Proof.
  intros HK Hfit. unfold binary_round_aux.
  pose proof (shr_fexp_fits K m e l ltac:(lia) Hfit) as H1.
  destruct (shr_fexp Float.prec Float.emax m e l) as [mrs' e'].
  cbn [fst snd] in H1.
  apply (round_nearest_even_fits K _ _ (loc_of_shr_record mrs')) in H1.
  apply (shr_fexp_fits (K + 1) _ _ loc_Exact ltac:(lia)) in H1.
  destruct (shr_fexp Float.prec Float.emax
              (round_nearest_even (shr_m mrs') (loc_of_shr_record mrs')) e' loc_Exact)
    as [mrs'' e''].
  cbn [fst snd] in H1. destruct H1 as (Hm & Hd & He).
  destruct (shr_m mrs'') as [|p|p]; cbn [mag_le]; try lia.
  destruct (Z.leb_spec e'' (Float.emax - Float.prec)) as [Hle|Hgt]; cbn [mag_le].
  - exact Hd.
  - unfold Float.emax, Float.prec in Hgt. lia.
Qed.

Lemma SFdiv_core_fits a b k :
  0 <= k -> Zpos a < 2 ^ k * Zpos b ->
  fits k (fst (fst (SFdiv_core_binary Float.prec Float.emax (Zpos a) 0 (Zpos b) 0)))
         (snd (fst (SFdiv_core_binary Float.prec Float.emax (Zpos a) 0 (Zpos b) 0))).
Proof.
  intros Hk Hlt. unfold SFdiv_core_binary.
  set (e' := Z.min _ (0 - 0)).
  assert (He' : e' <= 0) by (unfold e'; lia).
  set (m' := match 0 - 0 - e' with Z0 => Zpos a | Zpos _ => Z.shiftl (Zpos a) (0 - 0 - e') | Zneg _ => 0 end).
  assert (Hm' : m' = Zpos a * 2 ^ (- e')).
  { unfold m'. destruct (0 - 0 - e') as [|p|p] eqn:Es.
    - replace (- e') with 0 by lia. simpl. lia.
    - rewrite Z.shiftl_mul_pow2 by lia. f_equal. f_equal. lia.
    - lia. }
  pose proof (Z.div_eucl_eq m' (Zpos b) ltac:(lia)) as Hdiv.
  pose proof (Z.mod_pos_bound m' (Zpos b) ltac:(lia)) as Hmod.
  unfold Z.modulo in Hmod.
  destruct (Z.div_eucl m' (Zpos b)) as [q r]. cbn [fst snd].
  assert (Hpow : 0 < 2 ^ (- e')) by (apply Z.pow_pos_nonneg; lia).
  assert (Hq0 : 0 <= q) by nia.
  assert (Hq : q < 2 ^ (k + - e')).
  { rewrite Z.pow_add_r by lia. nia. }
  repeat split; try lia.
  pose proof (Zdigits2_le q (k + - e') Hq0 ltac:(lia) Hq). lia.
Qed.

Lemma SFdiv_mag s s' a b k :
  0 <= k <= 970 -> Zpos a < 2 ^ k * Zpos b ->
  mag_le (k + 1) (SFdiv Float.prec Float.emax (S754_finite s a 0) (S754_finite s' b 0)).
Proof.
  intros Hk Hlt. cbn [SFdiv].
  pose proof (SFdiv_core_fits a b k ltac:(lia) Hlt) as Hfit.
  destruct (SFdiv_core_binary Float.prec Float.emax (Zpos a) 0 (Zpos b) 0) as [[q e'] l].
  cbn [fst snd] in Hfit. apply binary_round_aux_mag; [lia | assumption].
Qed.

Lemma mag_le_mono K K' x : K <= K' -> mag_le K x -> mag_le K' x.
Proof. destruct x; simpl; auto; lia. Qed.

(** True division of a small quotient returns a float. *)
Lemma int_truediv_ok a b k :
  0 <= a -> 0 < b -> 0 <= k <= 970 -> a < 2 ^ k * b ->
  exists q, Float.int_truediv a b = Ok q /\ mag_le (k + 1) q.
Proof.
  intros Ha Hb Hk Hlt. unfold Float.int_truediv.
  destruct (Z.eqb_spec b 0) as [|_]; [lia|].
  destruct b as [|b|b]; try lia.
  destruct a as [|a|a]; try lia.
  - exists (S754_zero false). split; reflexivity.
  - pose proof (SFdiv_mag false false a b k Hk Hlt) as Hmag.
    unfold Float.raw.
    destruct (SFdiv Float.prec Float.emax (S754_finite false a 0) (S754_finite false b 0));
      try contradiction; eexists; split; try reflexivity; assumption.
Qed.

Lemma mag_le_value K s m e :
  mag_le K (S754_finite s m e) -> e <= K - 1 /\ Zpos m < 2 ^ (K - e).
Proof.
  cbn [mag_le Zdigits2]. intros H.
  pose proof (digits2_pos_upper m) as Hup.
  assert (2 ^ Zpos (digits2_pos m) <= 2 ^ (K - e)) by (apply Z.pow_le_mono_r; lia).
  lia.
Qed.

Lemma div_half_even_le a b : Float.div_half_even a b <= a / b + 1.
Proof.
  unfold Float.div_half_even.
  destruct (2 * (a mod b) ?= b); try destruct (Z.even (a / b)); lia.
Qed.

Lemma div_half_even_nonneg a b : 0 <= a -> 0 < b -> 0 <= Float.div_half_even a b.
Proof.
  intros Ha Hb. pose proof (Z.div_pos a b Ha Hb). unfold Float.div_half_even.
  destruct (2 * (a mod b) ?= b); try destruct (Z.even (a / b)); lia.
Qed.

(** Rounding a float of small magnitude to a few decimals returns a float. *)
Lemma round_ok x nd K :
  0 <= K <= 968 -> mag_le K x ->
  exists r, Float.round x nd = Ok r /\ mag_le (K + 2) r.
Proof.
  intros HK Hmag. destruct x as [s0 | s0 | | s m e]; try contradiction.
  - exists (S754_zero s0). split; reflexivity.
  - destruct (mag_le_value K s m e Hmag) as [He Hm].
    unfold Float.round.
    set (scale := 10 ^ Z.of_nat nd).
    assert (Hscale : 0 < scale) by (apply Z.pow_pos_nonneg; lia).
    assert (H2K : 0 < 2 ^ K) by (apply Z.pow_pos_nonneg; lia).
    set (n := match e with
              | Zneg p => Float.div_half_even (Zpos m * scale) (2 ^ Zpos p)
              | _ => Zpos m * 2 ^ e * scale
              end).
    assert (Hn : 0 <= n <= 2 ^ K * scale).
    { unfold n. destruct e as [|p|p].
      - replace (K - 0) with K in Hm by lia. nia.
      - rewrite Z.pow_sub_r in Hm by lia.
        assert (Hp : 0 < 2 ^ Zpos p) by (apply Z.pow_pos_nonneg; lia).
        assert (Hle : 2 ^ Zpos p <= 2 ^ K) by (apply Z.pow_le_mono_r; lia).
        assert (Zpos m * 2 ^ Zpos p < 2 ^ K).
        { apply Z.lt_le_trans with (2 ^ K / 2 ^ Zpos p * 2 ^ Zpos p); [nia|].
          rewrite Z.mul_comm. apply Z.mul_div_le. lia. }
        nia.
      - assert (Hp : 0 < 2 ^ Zpos p) by (apply Z.pow_pos_nonneg; lia).
        replace (K - Zneg p) with (K + Zpos p) in Hm by lia.
        rewrite Z.pow_add_r in Hm by lia.
        split; [apply div_half_even_nonneg; nia|].
        pose proof (div_half_even_le (Zpos m * scale) (2 ^ Zpos p)) as Hle.
        assert (Zpos m * scale / 2 ^ Zpos p < 2 ^ K * scale).
        { apply Z.div_lt_upper_bound; nia. }
        lia. }
    destruct n as [|n'|n'] eqn:En; try (eexists; split; reflexivity).
    destruct scale as [|sc|sc] eqn:Esc; try lia. cbn [Float.raw].
    assert (Hlt : Zpos n' < 2 ^ (K + 1) * Zpos sc).
    { rewrite Z.pow_add_r by lia. nia. }
    pose proof (SFdiv_mag s false n' sc (K + 1) ltac:(lia) Hlt) as Hr.
    replace (K + 1 + 1) with (K + 2) in Hr by lia.
    destruct (SFdiv Float.prec Float.emax (S754_finite s n' 0) (S754_finite false sc 0));
      try contradiction; eexists; split; try reflexivity; assumption.
Qed.

Lemma mul_mag K1 K2 x y :
  -1000 <= K1 + K2 <= 970 -> mag_le K1 x -> mag_le K2 y ->
  mag_le (K1 + K2 + 1) (Float.mul x y).
Proof.
  intros HK Hx Hy.
  destruct x as [sx | sx | | sx mx ex]; try contradiction;
    destruct y as [sy | sy | | sy my ey]; try contradiction; try exact I.
  unfold Float.mul. cbn [SFmul].
  apply binary_round_aux_mag; [lia|].
  destruct (mag_le_value _ _ _ _ Hx) as [Hex Hmx].
  destruct (mag_le_value _ _ _ _ Hy) as [Hey Hmy].
  repeat split; try lia.
  assert (Zdigits2 (Zpos (mx * my)) <= (K1 - ex) + (K2 - ey)); [|lia].
  apply Zdigits2_le; try lia.
  rewrite Z.pow_add_r by lia. rewrite Pos2Z.inj_mul. nia.
Qed.

End FloatBounds.

(** ** The monad *)

Lemma bind_ok {A B} (m : M A) (k : A -> M B) w a w' :
  m w = (Ok a, w') -> bind m k w = k a w'.
Proof. unfold bind. now intros ->. Qed.

Lemma bind_raise {A B} (m : M A) (k : A -> M B) w e w' :
  m w = (Raise e, w') -> bind m k w = (Raise e, w').
Proof. unfold bind. now intros ->. Qed.

Lemma lift_ok {A} (r : result A) a w : r = Ok a -> lift r w = (Ok a, w).
Proof. unfold lift. now intros ->. Qed.

Lemma lift_raise {A} (r : result A) e w : r = Raise e -> lift r w = (Raise e, w).
Proof. unfold lift. now intros ->. Qed.

(** ** The extractor *)

Section ExtractorFacts.

Context {J : Json}.
Variable self : ReviewAnalyzer.

Lemma analyze_sentiment_success review w text d :
  reply_to_review self review w = Replies text ->
  json_loads text = Ok (VDict d) ->
  analyze_sentiment self review w =
    (Ok (Dict.set d "review" (VStr review)), after_success self review w).
Proof.
  unfold reply_to_review. intros Hreply Hparse.
  unfold analyze_sentiment, try_except, bind, create, lift.
  now rewrite Hreply, Hparse.
Qed.

Lemma analyze_sentiment_failure review w e :
  extraction_fails self review w e ->
  analyze_sentiment self review w =
    (Ok (fallback review e), after_failure self review w e).
Proof.
  intros Hfail.
  unfold analyze_sentiment, try_except, bind, create, lift, print, ret.
  destruct Hfail as [e Hreply | text e Hreply Hparse | text parsed e Hreply Hparse Hset];
    unfold reply_to_review in Hreply; rewrite Hreply; try rewrite Hparse;
    try rewrite Hset; reflexivity.
Qed.

(** Every extraction takes exactly one of the two paths. *)
Lemma extraction_outcome review w :
  (exists text d,
      reply_to_review self review w = Replies text /\
      json_loads text = Ok (VDict d)) \/
  (exists e, extraction_fails self review w e).
Proof.
  destruct (reply_to_review self review w) as [e | text] eqn:Hreply.
  - right. exists e. now apply transport_failure.
  - destruct (json_loads text) as [parsed | e] eqn:Hparse.
    + destruct parsed as [ | b | z | s | l | d ];
        try (right; eexists; eapply assignment_failure; eauto; reflexivity).
      left. now exists text, d.
    + right. exists e. eapply parse_failure; eauto.
Qed.

(** A non-dictionary never survives the assignment. *)
Lemma setitem_review_non_dict parsed review :
  is_dict parsed = false ->
  exists msg, setitem_review parsed review = Raise (TypeError msg).
Proof.
  destruct parsed; simpl; intros H; try discriminate; eexists; reflexivity.
Qed.

Lemma fallback_review review e :
  Dict.lookup (fallback review e) "review" = Some (VStr review).
Proof. reflexivity. Qed.

(** Whatever the service does, the extractor returns a dictionary whose
    [review] entry is the input, after exactly one request. *)
Lemma analyze_sentiment_review review w :
  exists r w',
    analyze_sentiment self review w = (Ok r, w') /\
    Dict.lookup r "review" = Some (VStr review) /\
    calls w' = calls w ++ [sentiment_request self review].
Proof.
  destruct (extraction_outcome review w) as [(text & d & Hreply & Hparse) | (e & Hfail)].
  - exists (Dict.set d "review" (VStr review)), (after_success self review w).
    split; [now apply analyze_sentiment_success with (text := text)|].
    split; [apply lookup_set_same | reflexivity].
  - exists (fallback review e), (after_failure self review w e).
    split; [now apply analyze_sentiment_failure|].
    split; reflexivity.
Qed.

(** The loop of [analyze_batch], for any starting index and any list of
    results gathered so far. *)
Lemma analyze_batch_loop_spec total verbose rest :
  forall i results w,
  exists fresh w',
    analyze_batch_loop self total i rest verbose results w = (Ok (results ++ fresh), w') /\
    Forall2 (fun review r => Dict.lookup r "review" = Some (VStr review)) rest fresh /\
    calls w' = calls w ++ map (sentiment_request self) rest.
Proof.
  induction rest as [|review rest IH]; intros i results w; simpl.
  - exists [], w. rewrite !app_nil_r. repeat split; constructor.
  - set (progress := if verbose
                     then print ("Analyzing review " ++ str_of_nat i ++ "/" ++
                                 str_of_nat total ++ "...")
                     else ret tt).
    destruct (progress w) as [u w0] eqn:Hprint.
    assert (Hw0 : u = Ok tt /\ calls w0 = calls w).
    { unfold progress in Hprint. destruct verbose; inversion Hprint; auto. }
    destruct Hw0 as [-> Hcalls].
    destruct (analyze_sentiment_review review w0) as (r & w1 & Hrun & Hrev & Hlog).
    destruct (IH (S i) (results ++ [r]) w1) as (fresh & w2 & Hloop & Hall & Hlog2).
    exists (r :: fresh), w2. split; [|split].
    + rewrite (bind_ok _ _ _ _ _ Hprint), (bind_ok _ _ _ _ _ Hrun), Hloop.
      now rewrite <- app_assoc.
    + now constructor.
    + rewrite Hlog2, Hlog, Hcalls. now rewrite <- app_assoc.
Qed.

End ExtractorFacts.

Lemma Forall2_nth_error {A B} (P : A -> B -> Prop) (l : list A) (l' : list B) :
  Forall2 P l l' ->
  forall i a, nth_error l i = Some a -> exists b, nth_error l' i = Some b /\ P a b.
Proof.
  induction 1 as [|x y l l' Hxy Hall IH]; intros [|i] a Hnth; simpl in *;
    try discriminate.
  - inversion Hnth; subst. now exists y.
  - now apply IH.
Qed.

(** C1. [analyze_batch] returns normally with one record per review: the
    output has the length of the input, the record at index [i] carries the
    [i]-th review verbatim under [review] (whichever path the extraction
    took), and the requests sent are exactly one per review, in input
    order. *)
Theorem analyze_batch_preserves_reviews {J : Json} (self : ReviewAnalyzer)
    (reviews : list string) (verbose : bool) (w : World) :
  exists results w',
    analyze_batch self reviews verbose w = (Ok results, w') /\
    List.length results = List.length reviews /\
    (forall i review,
        nth_error reviews i = Some review ->
        exists r, nth_error results i = Some r /\
                  Dict.lookup r "review" = Some (VStr review)) /\
    calls w' = calls w ++ map (sentiment_request self) reviews.
Proof.
  destruct (analyze_batch_loop_spec self (List.length reviews) verbose reviews 1 [] w)
    as (fresh & w' & Hrun & Hall & Hlog).
  exists fresh, w'. repeat split; auto.
  - symmetry. eapply Forall2_length; eauto.
  - intros i review Hnth. eapply Forall2_nth_error in Hall; eauto.
Qed.

Lemma analyze_batch_preserves_reviews_witness :
  exists results w',
    @analyze_batch Fixture.json Fixture.offline ["Good product"; "Bad quality"; "Average"]
      false initial_world = (Ok results, w') /\
    List.length results = 3 /\
    calls w' = map (sentiment_request Fixture.offline) ["Good product"; "Bad quality"; "Average"].
Proof.
  destruct (@analyze_batch_preserves_reviews Fixture.json Fixture.offline
              ["Good product"; "Bad quality"; "Average"] false initial_world)
    as (results & w' & Hrun & Hlen & _ & Hlog).
  exists results, w'. auto.
Defined.

(** C2 (as amended). When the guarded block raises [e] (the call fails, the
    reply is not JSON, or the parsed value is not a dictionary), the
    extractor returns normally with the neutral fallback record for the
    review; its [error] entry is [str(e)], hence non-empty exactly when the
    exception has a message.  One request was sent and none is repeated. *)
Theorem analyze_sentiment_fallback {J : Json} (self : ReviewAnalyzer)
    (review : string) (w : World) (e : exn) :
  extraction_fails self review w e ->
  exists r w',
    analyze_sentiment self review w = (Ok r, w') /\
    neutral_fallback review (exn_str e) r /\
    calls w' = calls w ++ [sentiment_request self review].
Proof.
  intros Hfail.
  exists (fallback review e), (after_failure self review w e).
  split; [now apply analyze_sentiment_failure|].
  split; [|reflexivity].
  repeat split.
Qed.

Lemma analyze_sentiment_fallback_witness :
  extraction_fails (J := Fixture.json) Fixture.offline "Test review" initial_world
    Fixture.connection_error /\
  exists r w',
    @analyze_sentiment Fixture.json Fixture.offline "Test review" initial_world = (Ok r, w') /\
    neutral_fallback "Test review" "Connection error." r /\
    calls w' = [sentiment_request Fixture.offline "Test review"].
Proof.
  assert (H : extraction_fails (J := Fixture.json) Fixture.offline "Test review"
                initial_world Fixture.connection_error)
    by (apply transport_failure; reflexivity).
  split; [exact H|].
  exact (@analyze_sentiment_fallback Fixture.json Fixture.offline "Test review"
           initial_world Fixture.connection_error H).
Defined.

(** C2, counterexample to the claim as stated: a timeout raised without a
    message makes the extraction fail, and the fallback record then carries
    the empty string under [error]. *)
Lemma analyze_sentiment_error_may_be_empty :
  extraction_fails (J := Fixture.json) Fixture.timing_out "Great product"
    initial_world Fixture.silent_timeout /\
  exists r w',
    @analyze_sentiment Fixture.json Fixture.timing_out "Great product" initial_world
      = (Ok r, w') /\
    Dict.lookup r "error" = Some (VStr EmptyString).
Proof.
  split; [apply transport_failure; reflexivity|].
  eexists _, _. split; reflexivity.
Qed.

(** C7 (as amended). The extractor always returns a record.  If the guarded
    block raised, the record has an [error] key.  If the reply parsed to a
    JSON object, the record has an [error] key exactly when that object has
    one: the parsed object is returned as it is, apart from [review]. *)
Theorem error_key_characterisation {J : Json} (self : ReviewAnalyzer)
    (review : string) (w : World) :
  exists r w',
    analyze_sentiment self review w = (Ok r, w') /\
    (forall e, extraction_fails self review w e -> Dict.mem r "error" = true) /\
    (forall text d,
        reply_to_review self review w = Replies text ->
        json_loads text = Ok (VDict d) ->
        Dict.mem r "error" = Dict.mem d "error").
Proof.
  destruct (extraction_outcome self review w)
    as [(text & d & Hreply & Hparse) | (e & Hfail)].
  - exists (Dict.set d "review" (VStr review)), (after_success self review w).
    split; [now apply analyze_sentiment_success with (text := text)|]. split.
    + intros e Hfail.
      destruct Hfail as [e H | text' e H Hp | text' parsed e H Hp Hset];
        rewrite Hreply in H; try discriminate; inversion H; subst text';
        rewrite Hparse in Hp; try discriminate.
      inversion Hp; subst parsed. discriminate.
    + intros text' d' Hreply' Hparse'.
      rewrite Hreply in Hreply'. inversion Hreply'; subst text'.
      rewrite Hparse in Hparse'. inversion Hparse'; subst d'.
      apply mem_set_other. discriminate.
  - exists (fallback review e), (after_failure self review w e).
    split; [now apply analyze_sentiment_failure|]. split.
    + reflexivity.
    + intros text d Hreply Hparse. exfalso.
      destruct Hfail as [e H | text' e H Hp | text' parsed e H Hp Hset];
        rewrite Hreply in H; try discriminate; inversion H; subst text';
        rewrite Hparse in Hp; try discriminate.
      inversion Hp; subst parsed. discriminate.
Qed.

Lemma error_key_characterisation_witness :
  exists r w',
    @analyze_sentiment Fixture.json Fixture.well_behaved "Great!" initial_world = (Ok r, w') /\
    Dict.mem r "error" = false.
Proof.
  destruct (@error_key_characterisation Fixture.json Fixture.well_behaved "Great!"
              initial_world) as (r & w' & Hrun & _ & Hsuccess).
  exists r, w'. split; [exact Hrun|].
  apply (Hsuccess Fixture.good_text
           [ ("sentiment", VStr "positive"); ("score", VInt 5);
             ("key_points", VList [VStr "quality"]); ("emotions", VList [VStr "happy"]) ]);
    reflexivity.
Defined.

(** C7, counterexample to the claim as stated: the service answers with a
    JSON object that has an [error] member; nothing fails, and the returned
    record has an [error] key. *)
Lemma error_key_on_success :
  (forall e, ~ extraction_fails (J := Fixture.json) Fixture.chatty "Fine" initial_world e) /\
  exists r w',
    @analyze_sentiment Fixture.json Fixture.chatty "Fine" initial_world = (Ok r, w') /\
    Dict.mem r "error" = true.
Proof.
  split.
  - intros e Hfail.
    destruct Hfail as [e H | text e H Hp | text parsed e H Hp Hset];
      try discriminate; inversion H; subst text; vm_compute in Hp;
      try discriminate.
    inversion Hp; subst parsed. discriminate.
  - eexists _, _. split; reflexivity.
Qed.

(** C10. If the call succeeds and the reply parses to a JSON value that is
    not an object, assigning the [review] key raises a [TypeError] inside
    the guarded block, and the extractor returns the neutral fallback record
    with that error instead of the parsed value. *)
Theorem analyze_sentiment_non_object {J : Json} (self : ReviewAnalyzer)
    (review : string) (w : World) (text : string) (parsed : value) :
  reply_to_review self review w = Replies text ->
  json_loads text = Ok parsed ->
  is_dict parsed = false ->
  exists msg,
    setitem_review parsed review = Raise (TypeError msg) /\
    analyze_sentiment self review w =
      (Ok (fallback review (TypeError msg)), after_failure self review w (TypeError msg)) /\
    neutral_fallback review msg (fallback review (TypeError msg)).
Proof.
  intros Hreply Hparse Hshape.
  destruct (setitem_review_non_dict parsed review Hshape) as (msg & Hset).
  exists msg. split; [exact Hset|]. split.
  - apply analyze_sentiment_failure.
    now apply assignment_failure with (text := text) (parsed := parsed).
  - repeat split.
Qed.

Lemma analyze_sentiment_non_object_witness :
  exists msg,
    setitem_review (VList []) "Okay" = Raise (TypeError msg) /\
    @analyze_sentiment Fixture.json Fixture.listing "Okay" initial_world =
      (Ok (fallback "Okay" (TypeError msg)),
       after_failure Fixture.listing "Okay" initial_world (TypeError msg)) /\
    neutral_fallback "Okay" msg (fallback "Okay" (TypeError msg)).
Proof.
  apply (@analyze_sentiment_non_object Fixture.json Fixture.listing "Okay"
           initial_world "[]" (VList [])); reflexivity.
Defined.

(** ** Well-formed records *)

Lemma well_formed_inv r :
  well_formed r = true ->
  exists review sentiment score,
    Dict.lookup r "review" = Some (VStr review) /\
    Dict.lookup r "sentiment" = Some (VStr sentiment) /\
    Dict.lookup r "score" = Some (VInt score) /\
    (1 <= score <= 5)%Z /\
    may_have r "key_points" is_string_list = true /\
    may_have r "emotions" is_string_list = true.
Proof.
  unfold well_formed, has. intros H.
  apply andb_true_iff in H. destruct H as [H Hem].
  apply andb_true_iff in H. destruct H as [H Hkp].
  apply andb_true_iff in H. destruct H as [H Hscore].
  apply andb_true_iff in H. destruct H as [Hreview Hsentiment].
  destruct (Dict.lookup r "review") as [[ | | |review| | ]|]; try discriminate.
  destruct (Dict.lookup r "sentiment") as [[ | | |sentiment| | ]|]; try discriminate.
  destruct (Dict.lookup r "score") as [[ | |score| | | ]|]; try discriminate.
  exists review, sentiment, score. cbn [is_score] in Hscore.
  apply andb_true_iff in Hscore. repeat split; auto; lia.
Qed.

Lemma string_list_map l :
  forallb is_string l = true -> l = map VStr (map text_of l).
Proof.
  induction l as [|v l IH]; simpl; [reflexivity|].
  intros H. apply andb_true_iff in H. destruct H as [Hv Hl].
  destruct v; try discriminate. simpl. f_equal. now apply IH.
Qed.

Lemma py_iter_strings r key :
  may_have r key is_string_list = true ->
  py_iter (Dict.get r key (VList [])) =
    Ok (map VStr (strings_of (Dict.get r key (VList [])))).
Proof.
  unfold may_have, Dict.get. destruct (Dict.lookup r key) as [v|]; [|reflexivity].
  destruct v; simpl; try discriminate. intros H. f_equal. now apply string_list_map.
Qed.

Lemma column_sentiment rs (Hwf : all_well_formed rs) :
  column "sentiment" rs = Ok (map (fun r => VStr (sentiment_of r)) rs).
Proof.
  induction Hwf as [|r rs' Hr Hrs IH]; [reflexivity|].
  destruct (well_formed_inv r Hr) as (rv & s & z & _ & Hs & _).
  simpl. unfold Dict.getitem, sentiment_of, Dict.get. rewrite Hs. simpl.
  now rewrite IH.
Qed.

Lemma column_score rs (Hwf : all_well_formed rs) :
  column "score" rs = Ok (map (fun r => VInt (score_of r)) rs).
Proof.
  induction Hwf as [|r rs' Hr Hrs IH]; [reflexivity|].
  destruct (well_formed_inv r Hr) as (rv & s & z & _ & _ & Hz & _).
  simpl. unfold Dict.getitem, score_of. rewrite Hz. simpl.
  now rewrite IH.
Qed.

Lemma total_score_bounds rs (Hwf : all_well_formed rs) :
  (Z.of_nat (List.length rs) <= total_score rs <= 5 * Z.of_nat (List.length rs))%Z.
Proof.
  unfold total_score.
  induction Hwf as [|r rs' Hr Hrs IH]; [simpl; lia|].
  destruct (well_formed_inv r Hr) as (rv & s & z & _ & _ & Hz & Hrange & _).
  assert (Hscore : score_of r = z) by (unfold score_of; now rewrite Hz).
  cbn [map fold_right List.length]. rewrite Hscore. lia.
Qed.

Lemma collect_strings rs (Hwf : all_well_formed rs) : forall all_key_points all_emotions,
  collect rs all_key_points all_emotions =
    Ok (all_key_points ++ map VStr (List.concat (map key_points_of rs)),
        all_emotions ++ map VStr (List.concat (map emotions_of rs))).
Proof.
  induction Hwf as [|r rs' Hr Hrs IH]; intros kp em.
  - simpl. now rewrite !app_nil_r.
  - destruct (well_formed_inv r Hr) as (rv & s & z & _ & _ & _ & _ & Hkp & Hem).
    cbn [collect]. rewrite (py_iter_strings r "key_points" Hkp).
    rewrite (py_iter_strings r "emotions" Hem). cbn [rbind].
    rewrite IH. cbn [map List.concat]. unfold key_points_of, emotions_of.
    now rewrite !map_app, !app_assoc.
Qed.

Lemma samples_ok rs (Hwf : all_well_formed rs) : exists shown, samples rs = Ok shown.
Proof.
  induction Hwf as [|r rs' Hr Hrs IH]; [now exists []|].
  destruct (well_formed_inv r Hr) as (rv & s & z & Hrv & _).
  destruct IH as (shown & Hshown).
  cbn [samples]. unfold sample, Dict.getitem. rewrite Hrv. cbn [rbind py_len].
  destruct (200 <? Utf8.len rv)%nat; cbn [rbind]; rewrite Hshown;
    eexists; reflexivity.
Qed.

Lemma py_sum_from_ints (zs : list Z) : forall acc,
  py_sum_from acc (map VInt zs) = Ok (acc + fold_right Z.add 0 zs)%Z.
Proof.
  induction zs as [|z zs IH]; intros acc; simpl.
  - f_equal. lia.
  - rewrite IH. f_equal. lia.
Qed.

Lemma py_sum_scores (rs : list dict) :
  py_sum (map (fun r => VInt (score_of r)) rs) = Ok (total_score rs).
Proof.
  unfold py_sum, total_score. rewrite <- (map_map score_of VInt).
  now rewrite py_sum_from_ints.
Qed.

Lemma count_str_sentiments (label : string) (rs : list dict) :
  count_str (map (fun r => VStr (sentiment_of r)) rs) label = labelled label rs.
Proof.
  unfold count_str, labelled.
  induction rs as [|r rs IH]; [reflexivity|]. cbn [map filter is_str].
  destruct (String.eqb (sentiment_of r) label); cbn [List.length]; now rewrite IH.
Qed.

Lemma labelled_le (label : string) (rs : list dict) :
  labelled label rs <= List.length rs.
Proof. unfold labelled. apply filter_length_le. Qed.

(** ** Counting strings *)

Lemma differs_true x y : differs x y = true <-> y <> x.
Proof.
  unfold differs. rewrite negb_true_iff. split.
  - intros H ->. now rewrite String.eqb_refl in H.
  - intros H. now apply String.eqb_neq.
Qed.

Lemma uniq_In l x : In x (uniq l) <-> In x l.
Proof.
  induction l as [|y l IH]; simpl; [tauto|].
  rewrite filter_In, differs_true, IH.
  destruct (string_dec y x) as [->|Hne]; [tauto|].
  split; [tauto|]. intros [H|H]; [tauto|]. right. split; congruence.
Qed.

Lemma uniq_NoDup l : NoDup (uniq l).
Proof.
  induction l as [|y l IH]; simpl; constructor.
  - rewrite filter_In, differs_true. tauto.
  - now apply NoDup_filter.
Qed.

Lemma frequency_snoc l x y :
  frequency (l ++ [x]) y = frequency l y + (if String.eqb x y then 1 else 0).
Proof.
  unfold frequency. rewrite count_occ_app. simpl.
  destruct (string_dec x y) as [->|Hne].
  - now rewrite String.eqb_refl.
  - apply String.eqb_neq in Hne. now rewrite Hne.
Qed.

Lemma uniq_snoc l x :
  uniq (l ++ [x]) = if existsb (String.eqb x) l then uniq l else uniq l ++ [x].
Proof.
  induction l as [|y l IH]; simpl; [reflexivity|].
  rewrite IH. destruct (String.eqb x y) eqn:Exy; simpl.
  - apply String.eqb_eq in Exy. subst y.
    destruct (existsb (String.eqb x) l); [reflexivity|].
    rewrite filter_app. simpl. unfold differs at 2. rewrite String.eqb_refl. simpl.
    now rewrite app_nil_r.
  - destruct (existsb (String.eqb x) l); [reflexivity|].
    rewrite filter_app. simpl. unfold differs at 2. now rewrite Exy.
Qed.

Lemma existsb_eqb_In x l : existsb (String.eqb x) l = true <-> In x l.
Proof.
  rewrite existsb_exists. split.
  - intros (y & Hy & E). apply String.eqb_eq in E. now subst.
  - intros H. exists x. split; [assumption | apply String.eqb_refl].
Qed.

(** Incrementing a key that the counter holds once. *)
Lemma incr_present (f : string -> nat) x u :
  In x u -> NoDup u ->
  Counter.incr (map (fun s => (VStr s, f s)) u) (VStr x) =
    map (fun s => (VStr s, f s + (if String.eqb x s then 1 else 0))) u.
Proof.
  induction u as [|y u IH]; intros Hin Hnd; [contradiction|].
  inversion Hnd as [|? ? Hy Hu]; subst. cbn [map Counter.incr Counter.key_eqb].
  destruct (String.eqb y x) eqn:Eyx.
  - apply String.eqb_eq in Eyx. subst y. rewrite String.eqb_refl.
    f_equal; [f_equal; lia|].
    apply map_ext_in. intros s Hs.
    destruct (String.eqb x s) eqn:Exs; [|f_equal; lia].
    apply String.eqb_eq in Exs. subst s. contradiction.
  - rewrite String.eqb_sym, Eyx. f_equal; [f_equal; lia|].
    apply IH; [|assumption]. destruct Hin as [->|]; [|assumption].
    now rewrite String.eqb_refl in Eyx.
Qed.

(** Incrementing a key that the counter does not hold. *)
Lemma incr_absent (f : string -> nat) x u :
  ~ In x u ->
  Counter.incr (map (fun s => (VStr s, f s)) u) (VStr x) =
    map (fun s => (VStr s, f s)) u ++ [(VStr x, 1)].
Proof.
  induction u as [|y u IH]; intros Hin; [reflexivity|].
  cbn [map Counter.incr Counter.key_eqb].
  destruct (String.eqb y x) eqn:Eyx.
  - apply String.eqb_eq in Eyx. subst y. exfalso. apply Hin. now left.
  - simpl. f_equal. apply IH. intros H. apply Hin. now right.
Qed.

Lemma update_snoc c items x :
  Counter.update c (items ++ [x]) =
    (c' <~ Counter.update c items ;; _ <~ Counter.hash_check x ;; Ok (Counter.incr c' x)).
Proof.
  revert c. induction items as [|y items IH]; intros c; simpl.
  - now destruct (Counter.hash_check x).
  - destruct (Counter.hash_check y); simpl; [apply IH | reflexivity].
Qed.

(** [Counter] on strings holds each distinct string once, in order of first
    appearance, with its number of occurrences. *)
Lemma Counter_make_strings l : Counter.make (map VStr l) = Ok (tally l).
Proof.
  induction l as [|x l IH] using rev_ind; [reflexivity|].
  unfold Counter.make in *. rewrite map_app. cbn [map].
  rewrite update_snoc, IH. cbn [rbind Counter.hash_check].
  f_equal. unfold tally. rewrite uniq_snoc.
  destruct (existsb (String.eqb x) l) eqn:Ex.
  - apply existsb_eqb_In in Ex. rewrite incr_present.
    + apply map_ext. intros s. now rewrite frequency_snoc.
    + now apply uniq_In.
    + apply uniq_NoDup.
  - assert (Hnot : ~ In x l).
    { intros H. apply existsb_eqb_In in H. congruence. }
    rewrite incr_absent by now rewrite uniq_In.
    rewrite map_app. cbn [map]. f_equal.
    + apply map_ext_in. intros s Hs. rewrite frequency_snoc.
      destruct (String.eqb x s) eqn:Exs; [|f_equal; lia].
      apply String.eqb_eq in Exs. subst s. apply (proj1 (uniq_In _ _)) in Hs. contradiction.
    + rewrite frequency_snoc, String.eqb_refl.
      unfold frequency. rewrite (proj1 (count_occ_not_In string_dec l x) Hnot).
      reflexivity.
Qed.

(** ** The stable descending sort *)

Lemma insert_desc_perm x l : Permutation (Counter.insert_desc x l) (x :: l).
Proof.
  induction l as [|y l IH]; simpl; [reflexivity|].
  destruct (snd x <? snd y)%nat; [|reflexivity].
  rewrite IH. apply perm_swap.
Qed.

Lemma sort_desc_perm c : Permutation (Counter.sort_desc c) c.
Proof.
  induction c as [|x c IH]; simpl; [constructor|].
  rewrite insert_desc_perm. now constructor.
Qed.

Section StableSort.

Variable rk : value * nat -> nat.

Lemma insert_desc_sorted x l :
  StronglySorted (before rk) l ->
  Forall (fun y => rk x < rk y) l ->
  StronglySorted (before rk) (Counter.insert_desc x l).
Proof.
  induction 1 as [|y l Hl IH Hy]; intros Hrk; simpl.
  - repeat constructor.
  - inversion Hrk as [|? ? Hxy Hxl]; subst.
    destruct (Nat.ltb_spec (snd x) (snd y)) as [Hlt|Hge].
    + constructor; [now apply IH|].
      rewrite insert_desc_perm. constructor; [now left | assumption].
    + constructor; [now constructor|].
      constructor.
      * unfold before. lia.
      * rewrite Forall_forall in *. intros z Hz.
        specialize (Hy z Hz). specialize (Hxl z Hz). unfold before in *. lia.
Qed.

(** Sorting a list whose ranks increase yields the ranking by count, ties
    in the original order. *)
Lemma sort_desc_sorted c :
  StronglySorted (fun a b => rk a < rk b) c ->
  StronglySorted (before rk) (Counter.sort_desc c).
Proof.
  induction 1 as [|x c Hc IH Hx]; simpl; [constructor|].
  apply insert_desc_sorted; [assumption|].
  now rewrite sort_desc_perm.
Qed.

End StableSort.

Lemma StronglySorted_filter_impl {A} (R R' : A -> A -> Prop) (f : A -> bool) l :
  (forall a b, f a = true -> f b = true -> R a b -> R' a b) ->
  StronglySorted R l -> StronglySorted R' (filter f l).
Proof.
  intros Himpl. induction 1 as [|a l Hl IH Ha]; simpl; [constructor|].
  destruct (f a) eqn:Efa; [|assumption].
  constructor; [assumption|].
  rewrite Forall_forall in *. intros b Hb. apply filter_In in Hb.
  destruct Hb as [Hb Efb]. now apply Himpl; auto.
Qed.

Lemma StronglySorted_map {A B} (R : B -> B -> Prop) (f : A -> B) l :
  StronglySorted (fun a b => R (f a) (f b)) l <-> StronglySorted R (map f l).
Proof.
  induction l as [|a l IH]; simpl; split; intros H; try constructor;
    inversion H as [|? ? Hl Ha]; subst.
  - now apply IH.
  - now rewrite Forall_map.
  - now apply IH.
  - now rewrite Forall_map in Ha.
Qed.

Lemma first_index_cons_other x y l :
  y <> x -> first_index (x :: l) y = S (first_index l y).
Proof.
  intros Hne. simpl. destruct (String.eqb x y) eqn:E; [|reflexivity].
  apply String.eqb_eq in E. congruence.
Qed.

(** The distinct strings are listed by increasing first occurrence. *)
Lemma uniq_first_index l :
  StronglySorted (fun a b => first_index l a < first_index l b) (uniq l).
Proof.
  induction l as [|x l IH]; simpl uniq; constructor.
  - apply StronglySorted_filter_impl with (R := fun a b => first_index l a < first_index l b);
      [|exact IH].
    intros a b Ha Hb Hab. apply differs_true in Ha, Hb.
    rewrite !first_index_cons_other by assumption. lia.
  - rewrite Forall_forall. intros y Hy. apply filter_In in Hy.
    destruct Hy as [_ Hy]. apply differs_true in Hy.
    rewrite (first_index_cons_other x y) by assumption.
    simpl. rewrite String.eqb_refl. lia.
Qed.

(** The selection made by [top_items] on strings: the distinct strings
    ranked by [outranks], cut after [n]. *)
Lemma top_items_strings n l :
  exists selected rest,
    top_items n (map VStr l) = Ok (map VStr selected) /\
    Permutation (selected ++ rest) (uniq l) /\
    StronglySorted (outranks l) (selected ++ rest) /\
    List.length selected = Nat.min n (List.length (uniq l)).
Proof.
  unfold top_items. rewrite Counter_make_strings. cbn [rbind].
  unfold Counter.most_common.
  pose proof (sort_desc_perm (tally l)) as Hperm.
  unfold tally in Hperm at 2.
  destruct (Permutation_map_inv _ _ Hperm) as (ranking & Hsorted & Hranking).
  assert (Hrank : StronglySorted (outranks l) ranking).
  { apply (proj2 (StronglySorted_map
                      (before (fun a => first_index l (text_of (fst a))))
                      (fun x => (VStr x, frequency l x)) ranking)).
    rewrite <- Hsorted. apply sort_desc_sorted. unfold tally.
    apply (proj1 (StronglySorted_map
                    (fun a b : value * nat =>
                       first_index l (text_of (fst a)) < first_index l (text_of (fst b)))
                    (fun x => (VStr x, frequency l x)) (uniq l))).
    exact (uniq_first_index l). }
  exists (firstn n ranking), (skipn n ranking).
  rewrite firstn_skipn. repeat split.
  - rewrite Hsorted, firstn_map, map_map. reflexivity.
  - now symmetry.
  - assumption.
  - rewrite length_firstn. now rewrite (Permutation_length Hranking).
Qed.

(** ** The aggregator on well-formed records *)

Lemma spec_average_rating_ok rs :
  all_well_formed rs -> rs <> [] ->
  exists q avg,
    Float.int_truediv (total_score rs) (Z.of_nat (List.length rs)) = Ok q /\
    mag_le 4 q /\
    Float.round q 2 = Ok avg /\
    spec_average_rating rs = Ok avg.
Proof.
  intros Hwf Hne. pose proof (total_score_bounds rs Hwf) as Hb.
  assert (Hlen : (0 < Z.of_nat (List.length rs))%Z) by (destruct rs; simpl; [congruence | lia]).
  destruct (int_truediv_ok (total_score rs) (Z.of_nat (List.length rs)) 3)
    as (q & Hq & Hmag); try lia.
  destruct (round_ok q 2 4 ltac:(lia) Hmag) as (avg & Havg & _).
  exists q, avg. unfold spec_average_rating. rewrite Hq. cbn [rbind]. auto.
Qed.

Lemma rounded_mean_scores rs avg :
  rs <> [] ->
  spec_average_rating rs = Ok avg ->
  rounded_mean (map (fun r => VInt (score_of r)) rs) = Ok (NFloat avg).
Proof.
  intros Hne Havg. unfold rounded_mean.
  destruct (map (fun r => VInt (score_of r)) rs) as [|v vs] eqn:Escores.
  - destruct rs; [congruence | discriminate].
  - rewrite <- Escores, py_sum_scores, length_map. cbn [rbind].
    unfold spec_average_rating in Havg.
    destruct (Float.int_truediv (total_score rs) (Z.of_nat (List.length rs))) as [q|e];
      [|discriminate].
    cbn [rbind] in *. now rewrite Havg.
Qed.

Lemma mean_scores_ok rs :
  all_well_formed rs ->
  exists average, mean (map (fun r => VInt (score_of r)) rs) = Ok average.
Proof.
  intros Hwf. destruct rs as [|r rs'] eqn:Ers; [now exists (NInt 0)|].
  rewrite <- Ers in *.
  destruct (spec_average_rating_ok rs Hwf ltac:(subst; discriminate))
    as (q & _ & Hq & _).
  exists (NFloat q). unfold mean.
  destruct (map (fun r => VInt (score_of r)) rs) as [|v vs] eqn:Escores.
  - subst rs. discriminate.
  - rewrite <- Escores, py_sum_scores, length_map. cbn [rbind]. now rewrite Hq.
Qed.

Lemma of_Z_100_mag : mag_le 7 (Float.of_Z 100).
Proof. vm_compute. discriminate. Qed.

Lemma spec_percentage_ok label rs :
  rs <> [] -> exists p, spec_percentage label rs = Ok p.
Proof.
  intros Hne. pose proof (labelled_le label rs) as Hle.
  assert (Hlen : (0 < Z.of_nat (List.length rs))%Z) by (destruct rs; simpl; [congruence | lia]).
  destruct (int_truediv_ok (Z.of_nat (labelled label rs)) (Z.of_nat (List.length rs)) 1)
    as (q & Hq & Hmag); try lia.
  pose proof (mul_mag 2 7 q (Float.of_Z 100) ltac:(lia) Hmag of_Z_100_mag) as Hmul.
  destruct (round_ok _ 1 (2 + 7 + 1) ltac:(lia) Hmul) as (p & Hp & _).
  exists p. unfold spec_percentage. rewrite Hq. cbn [rbind]. exact Hp.
Qed.

Lemma percentage_sentiments label rs :
  percentage (map (fun r => VStr (sentiment_of r)) rs) label = spec_percentage label rs.
Proof.
  unfold percentage, spec_percentage. now rewrite count_str_sentiments, length_map.
Qed.

Lemma all_well_formed_firstn n rs : all_well_formed rs -> all_well_formed (firstn n rs).
Proof.
  unfold all_well_formed. intros H.
  rewrite <- (firstn_skipn n rs) in H. now apply Forall_app in H.
Qed.

Lemma sentiments_as_strings rs :
  map (fun r => VStr (sentiment_of r)) rs = map VStr (map sentiment_of rs).
Proof. now rewrite map_map. Qed.

(** What [summary_data] computes on well-formed records. *)
Lemma summary_data_well_formed rs :
  all_well_formed rs ->
  exists average points emotions,
    summary_data rs =
      Ok {| Summary.total_reviews := List.length rs;
            Summary.sentiment_breakdown := tally (map sentiment_of rs);
            Summary.average_score := average;
            Summary.common_points := points;
            Summary.common_emotions := emotions |} /\
    top_items 10 (map VStr (List.concat (map key_points_of rs))) = Ok points /\
    top_items 5 (map VStr (List.concat (map emotions_of rs))) = Ok emotions.
Proof.
  intros Hwf.
  destruct (mean_scores_ok rs Hwf) as (average & Haverage).
  destruct (top_items_strings 10 (List.concat (map key_points_of rs)))
    as (points & ? & Hpoints & _).
  destruct (top_items_strings 5 (List.concat (map emotions_of rs)))
    as (emotions & ? & Hemotions & _).
  exists average, (map VStr points), (map VStr emotions).
  split; [|split; assumption].
  unfold summary_data.
  rewrite (column_sentiment rs Hwf), (column_score rs Hwf). cbn [rbind].
  rewrite (collect_strings rs Hwf). cbn [rbind fst snd app].
  rewrite sentiments_as_strings, Counter_make_strings. cbn [rbind].
  rewrite Haverage. cbn [rbind]. rewrite Hpoints, Hemotions. reflexivity.
Qed.

Section AggregatorFacts.

Context {J : Json}.
Variable self : ReviewAnalyzer.

Lemma summary_prompt_ok rs :
  all_well_formed rs -> exists prompt, summary_prompt rs = Ok prompt.
Proof.
  intros Hwf. unfold summary_prompt.
  destruct (summary_data_well_formed rs Hwf) as (? & ? & ? & -> & _).
  destruct (samples_ok (firstn 5 rs) (all_well_formed_firstn 5 rs Hwf)) as (shown & ->).
  cbn [rbind]. eexists. reflexivity.
Qed.

Lemma generate_summary_run rs prompt w :
  summary_prompt rs = Ok prompt ->
  generate_summary self rs w =
    (Ok (summary_text (client self (calls w) (summary_request self prompt))),
     {| calls := calls w ++ [summary_request self prompt]; stdout := stdout w |}).
Proof.
  intros Hprompt. unfold generate_summary.
  rewrite (bind_ok _ _ _ _ _ (lift_ok _ _ w Hprompt)).
  unfold try_except, create, ret.
  now destruct (client self (calls w) (summary_request self prompt)).
Qed.

End AggregatorFacts.

(** ** The exact value of the floats of the report *)

Section Rounding.

Local Open Scope Z_scope.

Lemma shr_1_value mrs : 0 <= shr_m mrs -> shr_m (shr_1 mrs) = shr_m mrs / 2.
Proof.
  destruct mrs as [m r s]. cbn [shr_m]. intros Hm.
  destruct m as [|p|p]; try lia; [reflexivity|].
  destruct p; cbn [shr_1 shr_m].
  - apply Z.div_unique with (r := 1); lia.
  - apply Z.div_unique with (r := 0); lia.
  - reflexivity.
Qed.

Lemma iter_shr_1_value p : forall mrs,
  0 <= shr_m mrs ->
  shr_m (iter_pos shr_1 p mrs) = shr_m mrs / 2 ^ Zpos p.
Proof.
  assert (Hpos : forall q, 0 < 2 ^ Zpos q) by (intros; apply Z.pow_pos_nonneg; lia).
  assert (Hnn : forall a b, 0 <= a -> 0 < b -> 0 <= a / b)
    by (intros; apply Z.div_pos; lia).
  induction p as [p IH | p IH | ]; intros mrs Hm; simpl iter_pos.
  - pose proof (shr_1_value mrs Hm) as E1.
    assert (H1 : 0 <= shr_m (shr_1 mrs)) by (rewrite E1; apply Hnn; lia).
    pose proof (IH _ H1) as E2.
    assert (H2 : 0 <= shr_m (iter_pos shr_1 p (shr_1 mrs)))
      by (rewrite E2; apply Hnn; [lia | apply Hpos]).
    rewrite (IH _ H2), E2, E1.
    specialize (Hpos p).
    rewrite !Z.div_div by lia. f_equal.
    replace (Zpos p~1) with (1 + Zpos p + Zpos p) by lia.
    rewrite !Z.pow_add_r by lia. lia.
  - pose proof (IH _ Hm) as E2.
    assert (H2 : 0 <= shr_m (iter_pos shr_1 p mrs))
      by (rewrite E2; apply Hnn; [lia | apply Hpos]).
    rewrite (IH _ H2), E2.
    specialize (Hpos p).
    rewrite !Z.div_div by lia. f_equal.
    replace (Zpos p~0) with (Zpos p + Zpos p) by lia.
    rewrite !Z.pow_add_r by lia. lia.
  - rewrite shr_1_value by assumption. reflexivity.
Qed.

Lemma shr_fexp_value m e l :
  0 <= m ->
  snd (shr_fexp Float.prec Float.emax m e l) =
    Z.max e (fexp Float.prec Float.emax (Zdigits2 m + e)) /\
  shr_m (fst (shr_fexp Float.prec Float.emax m e l)) =
    m / 2 ^ (snd (shr_fexp Float.prec Float.emax m e l) - e).
Proof.
  intros Hm. unfold shr_fexp, shr.
  destruct (fexp Float.prec Float.emax (Zdigits2 m + e) - e) as [|p|p] eqn:En;
    cbn [fst snd]; rewrite ?shr_m_of_loc.
  - split; [lia|]. replace (e - e) with 0 by lia. now rewrite Z.div_1_r.
  - split; [lia|]. rewrite iter_shr_1_value by (now rewrite shr_m_of_loc).
    rewrite shr_m_of_loc. f_equal. f_equal. lia.
  - split; [lia|]. replace (e - e) with 0 by lia. now rewrite Z.div_1_r.
Qed.

Lemma round_nearest_even_value m l :
  m <= round_nearest_even m l <= m + 1.
Proof.
  unfold round_nearest_even.
  destruct l as [|[| |]]; try destruct (Z.even m); lia.
Qed.

Lemma Zdigits2_div m t :
  0 <= m -> 0 <= t -> Zdigits2 (m / 2 ^ t) <= Z.max 0 (Zdigits2 m - t).
Proof.
  intros Hm Ht. pose proof (Zdigits2_upper m Hm) as Hup.
  pose proof (Zdigits2_nonneg m) as Hd.
  assert (Hpow : 0 < 2 ^ t) by (apply Z.pow_pos_nonneg; lia).
  destruct (Z_le_gt_dec t (Zdigits2 m)) as [Hle|Hgt].
  - apply Z.le_trans with (Zdigits2 m - t); [|lia].
    apply Zdigits2_le; [apply Z.div_pos; lia | lia |].
    apply Z.div_lt_upper_bound; [lia|].
    rewrite <- Z.pow_add_r by lia. now replace (t + (Zdigits2 m - t)) with (Zdigits2 m) by lia.
  - rewrite Z.div_small; [cbn [Zdigits2]; lia|].
    split; [lia|]. apply Z.lt_le_trans with (2 ^ Zdigits2 m); [lia|].
    apply Z.pow_le_mono_r; lia.
Qed.

Lemma Zdigits2_succ m m' :
  0 <= m -> 0 <= m' <= m + 1 -> Zdigits2 m' <= Zdigits2 m + 1.
Proof.
  intros Hm0 Hm.
  pose proof (Zdigits2_upper m Hm0) as Hup.
  pose proof (Zdigits2_nonneg m) as Hd.
  apply Zdigits2_le; try lia.
  rewrite Z.pow_add_r by lia. lia.
Qed.

(** The float produced by rounding [m * 2^e]: its exponent and how far its
    mantissa is from the exact one. *)
Lemma binary_round_aux_value s m e l :
  0 <= m ->
  exists m3 e3,
    e <= e3 /\ -1074 <= e3 /\
    e3 <= Z.max e (fexp Float.prec Float.emax (Zdigits2 m + e)) + 1 /\
    m - 2 * 2 ^ (e3 - e) < m3 * 2 ^ (e3 - e) <= m + 2 ^ (e3 - e) /\
    ((m3 = 0 /\ binary_round_aux Float.prec Float.emax s m e l = S754_zero s) \/
     (exists p, m3 = Zpos p /\
        binary_round_aux Float.prec Float.emax s m e l =
          if e3 <=? Float.emax - Float.prec then S754_finite s p e3 else S754_infinity s)).
Proof.
  intros Hm. unfold binary_round_aux.
  destruct (shr_fexp_value m e l Hm) as [E1 V1].
  destruct (shr_fexp Float.prec Float.emax m e l) as [mrs1 e1]. cbn [fst snd] in E1, V1.
  set (m1 := shr_m mrs1) in *.
  set (m2 := round_nearest_even m1 (loc_of_shr_record mrs1)).
  pose proof (round_nearest_even_value m1 (loc_of_shr_record mrs1)) as Hrne.
  fold m2 in Hrne.
  assert (Ht1 : 0 <= e1 - e) by lia.
  assert (HT1 : 0 < 2 ^ (e1 - e)) by (apply Z.pow_pos_nonneg; lia).
  assert (Hm1 : 0 <= m1) by (rewrite V1; apply Z.div_pos; lia).
  assert (Hm2 : 0 <= m2) by lia.
  destruct (shr_fexp_value m2 e1 loc_Exact Hm2) as [E3 V3].
  destruct (shr_fexp Float.prec Float.emax m2 e1 loc_Exact) as [mrs3 e3].
  cbn [fst snd] in E3, V3.
  assert (Ht3 : 0 <= e3 - e1) by lia.
  assert (HT3 : 0 < 2 ^ (e3 - e1)) by (apply Z.pow_pos_nonneg; lia).
  assert (Hm3 : 0 <= shr_m mrs3) by (rewrite V3; apply Z.div_pos; lia).
  pose proof (Zdigits2_div m (e1 - e) Hm Ht1) as Hd1. rewrite <- V1 in Hd1.
  pose proof (Zdigits2_succ m1 m2 Hm1 ltac:(lia)) as Hd2.
  pose proof (Zdigits2_nonneg m) as Hdm.
  assert (He3 : e3 <= e1 + 1).
  { unfold fexp, emin, Float.prec, Float.emax in *. lia. }
  assert (Hstep : 2 ^ (e3 - e1) <= 2).
  { change 2 with (2 ^ 1) at 2. apply Z.pow_le_mono_r; lia. }
  assert (Hsplit : 2 ^ (e3 - e) = 2 ^ (e1 - e) * 2 ^ (e3 - e1)).
  { rewrite <- Z.pow_add_r by lia. f_equal. lia. }
  pose proof (Z.div_mod m (2 ^ (e1 - e)) ltac:(lia)) as Hdiv1.
  pose proof (Z.mod_pos_bound m (2 ^ (e1 - e)) HT1) as Hmod1.
  pose proof (Z.div_mod m2 (2 ^ (e3 - e1)) ltac:(lia)) as Hdiv3.
  pose proof (Z.mod_pos_bound m2 (2 ^ (e3 - e1)) HT3) as Hmod3.
  rewrite <- V1 in Hdiv1. rewrite <- V3 in Hdiv3.
  exists (shr_m mrs3), e3.
  split; [lia|]. split.
  { unfold fexp, emin, Float.prec, Float.emax in *. lia. }
  split; [lia|]. split.
  { rewrite Hsplit. nia. }
  destruct (shr_m mrs3) as [|p|p]; [left; auto | right; exists p; auto | lia].
Qed.

Lemma SFdiv_core_value a b :
  exists q e' l,
    SFdiv_core_binary Float.prec Float.emax (Zpos a) 0 (Zpos b) 0 = (q, e', l) /\
    e' = Z.min (fexp Float.prec Float.emax (Zdigits2 (Zpos a) - Zdigits2 (Zpos b))) 0 /\
    0 <= q /\
    q * Zpos b <= Zpos a * 2 ^ (- e') < (q + 1) * Zpos b.
Proof.
  unfold SFdiv_core_binary.
  replace (Zdigits2 (Zpos a) + 0 - (Zdigits2 (Zpos b) + 0))
    with (Zdigits2 (Zpos a) - Zdigits2 (Zpos b)) by lia.
  change (0 - 0) with 0.
  set (e' := Z.min _ 0).
  assert (He' : e' <= 0) by (unfold e'; lia).
  set (m' := match 0 - e' with Z0 => Zpos a | Zpos _ => Z.shiftl (Zpos a) (0 - e') | Zneg _ => 0 end).
  assert (Hm' : m' = Zpos a * 2 ^ (- e')).
  { unfold m'. destruct (0 - e') as [|p|p] eqn:Es.
    - replace (- e') with 0 by lia. simpl. lia.
    - rewrite Z.shiftl_mul_pow2 by lia. f_equal. f_equal. lia.
    - lia. }
  pose proof (Z.div_eucl_eq m' (Zpos b) ltac:(lia)) as Hdiv.
  pose proof (Z.mod_pos_bound m' (Zpos b) ltac:(lia)) as Hmod.
  unfold Z.modulo in Hmod.
  destruct (Z.div_eucl m' (Zpos b)) as [q r].
  assert (Hpow : 0 < 2 ^ (- e')) by (apply Z.pow_pos_nonneg; lia).
  exists q, e', (new_location (Zpos b) r).
  split; [reflexivity|]. split; [reflexivity|].
  rewrite <- Hm'. split; nia.
Qed.

(** The quotient of two positive integers as a float is within [2^(K-50)]
    of the exact quotient, when that is below [2^K]. *)
Lemma SFdiv_value a b K :
  0 <= K <= 970 -> Zpos a < 2 ^ K * Zpos b ->
  approximates (K - 50)
    (SFdiv Float.prec Float.emax (S754_finite false a 0) (S754_finite false b 0))
    (Zpos a) (Zpos b).
Proof.
  intros HK Hlt.
  pose proof (SFdiv_core_fits a b K ltac:(lia) Hlt) as Hfit.
  cbn [SFdiv].
  destruct (SFdiv_core_value a b) as (q & e' & l & Hcore & He' & Hq & Hdiv).
  rewrite Hcore in *. cbn [fst snd] in Hfit. destruct Hfit as (_ & Hdig & _).
  cbn [xorb].
  assert (Hdd : Zdigits2 (Zpos a) - Zdigits2 (Zpos b) <= K).
  { cbn [Zdigits2].
    pose proof (digits2_pos_lower a) as Hlow. pose proof (digits2_pos_upper b) as Hup.
    assert (H2K : 0 < 2 ^ K) by (apply Z.pow_pos_nonneg; lia).
    assert (Hab : 2 ^ (Zpos (digits2_pos a) - 1) < 2 ^ (K + Zpos (digits2_pos b))).
    { rewrite Z.pow_add_r by lia. nia. }
    apply Z.pow_lt_mono_r_iff in Hab; lia. }
  destruct (binary_round_aux_value false q e' l Hq)
    as (m3 & e3 & Hle & Hmin & Hmax & Hval & Hres).
  assert (He3 : e3 <= K - 52).
  { unfold fexp, emin, Float.prec, Float.emax in *. lia. }
  assert (He'min : -1074 <= e').
  { unfold fexp, emin, Float.prec, Float.emax in *. lia. }
  set (T := 2 ^ (e3 - e')) in *. set (P := 2 ^ (- e')) in *.
  set (W := 2 ^ (e' + 1074)).
  assert (HT : 0 < T) by (apply Z.pow_pos_nonneg; lia).
  assert (HP : 0 < P) by (apply Z.pow_pos_nonneg; lia).
  assert (HW : 0 < W) by (apply Z.pow_pos_nonneg; lia).
  assert (HPW : P * W = 2 ^ 1074).
  { unfold P, W. rewrite <- Z.pow_add_r by lia. f_equal. lia. }
  assert (HTW : T * W = 2 ^ (e3 + 1074)).
  { unfold T, W. rewrite <- Z.pow_add_r by lia. f_equal. lia. }
  assert (HB : 4 * 2 ^ (e3 + 1074) <= 2 ^ (K - 50 + 1074)).
  { change 4 with (2 ^ 2). rewrite <- Z.pow_add_r by lia.
    apply Z.pow_le_mono_r; lia. }
  unfold approximates. rewrite <- HPW. rewrite <- HTW in HB.
  destruct Hres as [[Hz ->] | (p & Hp & ->)].
  - split; [exact I|]. cbn [ulps]. subst m3.
    assert (Zpos a * P < 2 * T * Zpos b) by nia.
    assert (Zpos a * P * W < 2 * T * Zpos b * W) by (apply Z.mul_lt_mono_pos_r; lia).
    rewrite Z.abs_le. nia.
  - destruct (Z.leb_spec e3 (Float.emax - Float.prec)) as [_|Hgt];
      [|unfold Float.emax, Float.prec in Hgt; lia].
    split; [exact Hmin|]. cbn [ulps]. rewrite <- HTW, <- Hp.
    set (X := m3 * T * Zpos b - Zpos a * P).
    assert (HX : - (3 * T * Zpos b) <= X <= 3 * T * Zpos b) by (unfold X; nia).
    replace (m3 * (T * W) * Zpos b - Zpos a * (P * W)) with (X * W) by (unfold X; ring).
    rewrite Z.abs_le.
    assert (X * W <= 3 * T * Zpos b * W) by (apply Z.mul_le_mono_nonneg_r; lia).
    assert (- (3 * T * Zpos b) * W <= X * W) by (apply Z.mul_le_mono_nonneg_r; lia).
    nia.
Qed.

Lemma int_truediv_near a b K q :
  0 <= a -> 0 < b -> 0 <= K <= 970 -> a < 2 ^ K * b ->
  Float.int_truediv a b = Ok q -> approximates (K - 50) q a b.
Proof.
  intros Ha Hb HK Hlt. unfold Float.int_truediv.
  destruct (Z.eqb_spec b 0) as [|_]; [lia|].
  destruct b as [|b|b]; try lia.
  destruct a as [|a|a]; try lia.
  - cbn. intros [= <-]. split; [exact I|]. cbn [ulps].
    assert (0 <= 2 ^ (K - 50 + 1074)) by (apply Z.pow_nonneg; lia).
    rewrite Z.abs_le. nia.
  - pose proof (SFdiv_value a b K HK Hlt) as Hnear. unfold Float.raw.
    destruct (SFdiv Float.prec Float.emax (S754_finite false a 0) (S754_finite false b 0));
      try (destruct Hnear as [[] _]); intros [= <-]; exact Hnear.
Qed.

Lemma of_Z_100 : Float.of_Z 100 = S754_finite false 7036874417766400 (-46).
Proof. vm_compute. reflexivity. Qed.

(** Multiplying a float below 4 by 100 is off by [2^-42] at most. *)
Lemma mul_100_value q :
  nonneg q -> mag_le 2 q ->
  nonneg (Float.mul q (Float.of_Z 100)) /\
  Z.abs (ulps (Float.mul q (Float.of_Z 100)) - 100 * ulps q) <= 2 ^ 1032.
Proof.
  intros Hq Hmag. rewrite of_Z_100. unfold Float.mul.
  destruct q as [[|] | | | [|] mx ex]; try contradiction.
  - cbn. split; [exact I | lia].
  - cbn [SFmul xorb]. cbn [nonneg] in Hq.
    destruct (mag_le_value 2 false mx ex Hmag) as [Hex Hmx].
    set (my := 7036874417766400%positive).
    assert (Hmy : Zpos my = 100 * 2 ^ 46) by reflexivity.
    destruct (binary_round_aux_value false (Zpos (mx * my)) (ex + -46) loc_Exact ltac:(lia))
      as (m3 & e3 & Hle & Hmin & Hmax & Hval & Hres).
    assert (Hdig : Zdigits2 (Zpos (mx * my)) + (ex + -46) <= 9).
    { assert (Zdigits2 (Zpos (mx * my)) <= 55 - ex); [|lia].
      apply Zdigits2_le; try lia.
      rewrite Pos2Z.inj_mul, Hmy.
      replace (55 - ex) with ((2 - ex) + 53) by lia.
      rewrite Z.pow_add_r by lia.
      assert (100 * 2 ^ 46 < 2 ^ 53) by (vm_compute; reflexivity).
      nia. }
    assert (He3 : e3 <= -43).
    { unfold fexp, emin, Float.prec, Float.emax in *. lia. }
    set (T := 2 ^ (e3 - (ex + -46))) in *.
    set (W := 2 ^ (ex + 1074)).
    set (U := 2 ^ (e3 + 1074)).
    assert (HT : 0 < T) by (apply Z.pow_pos_nonneg; lia).
    assert (HW : 0 < W) by (apply Z.pow_pos_nonneg; lia).
    assert (HU : 0 < U) by (apply Z.pow_pos_nonneg; lia).
    assert (HTW : T * W = 2 ^ 46 * U).
    { unfold T, W, U. rewrite <- !Z.pow_add_r by lia. f_equal. lia. }
    assert (HU' : 2 * U <= 2 ^ 1032).
    { unfold U. change 2 with (2 ^ 1) at 1. rewrite <- Z.pow_add_r by lia.
      apply Z.pow_le_mono_r; lia. }
    rewrite Pos2Z.inj_mul, Hmy in Hval.
    assert (Hcore : Z.abs (m3 * U - 100 * (Zpos mx * W)) <= 2 ^ 1032).
    { set (X := m3 * T - Zpos mx * (100 * 2 ^ 46)) in *.
      assert (HX : - (2 * T) <= X <= 2 * T) by (unfold X; lia).
      assert (HXW : X * W = 2 ^ 46 * (m3 * U - 100 * (Zpos mx * W))).
      { unfold X. rewrite Z.mul_sub_distr_r.
        replace (m3 * T * W) with (m3 * (T * W)) by ring. rewrite HTW. ring. }
      assert (X * W <= 2 * T * W) by (apply Z.mul_le_mono_nonneg_r; lia).
      assert (- (2 * T) * W <= X * W) by (apply Z.mul_le_mono_nonneg_r; lia).
      assert (H46 : 0 < 2 ^ 46) by (apply Z.pow_pos_nonneg; lia).
      rewrite Z.abs_le. nia. }
    destruct Hres as [[Hz ->] | (p & Hp & ->)].
    + split; [exact I|]. cbn [ulps]. subst m3.
      replace (0 - 100 * (Zpos mx * 2 ^ (ex + 1074))) with (0 * U - 100 * (Zpos mx * W))
        by (unfold W; ring).
      exact Hcore.
    + destruct (Z.leb_spec e3 (Float.emax - Float.prec)) as [_|Hgt];
        [|unfold Float.emax, Float.prec in Hgt; lia].
      split; [exact Hmin|]. cbn [ulps]. rewrite <- Hp. exact Hcore.
Qed.

Lemma div_half_even_near a b :
  0 < b ->
  2 * Z.abs (Float.div_half_even a b * b - a) <= b /\
  (2 * Z.abs (Float.div_half_even a b * b - a) = b -> Z.even (Float.div_half_even a b) = true).
Proof.
  intros Hb. pose proof (Z.div_mod a b ltac:(lia)) as Hdiv.
  pose proof (Z.mod_pos_bound a b Hb) as Hmod.
  unfold Float.div_half_even.
  destruct (Z.compare_spec (2 * (a mod b)) b) as [Heq|Hlt|Hgt].
  - destruct (Z.even (a / b)) eqn:Heven; (split; [nia|intros _]).
    + exact Heven.
    + rewrite Z.even_add, Heven. reflexivity.
  - split; nia.
  - split; nia.
Qed.

Lemma round_core s m e nd r :
  -1074 <= e -> Float.round (S754_finite s m e) nd = Ok r ->
  exists n,
    0 <= n /\
    (2 * Z.abs (n * 2 ^ 1074 - Zpos m * 2 ^ (e + 1074) * 10 ^ Z.of_nat nd) <= 2 ^ 1074 /\
     (2 * Z.abs (n * 2 ^ 1074 - Zpos m * 2 ^ (e + 1074) * 10 ^ Z.of_nat nd) = 2 ^ 1074 ->
      Z.even n = true)) /\
    r = match n with
        | Zpos n' =>
            SFdiv Float.prec Float.emax (S754_finite s n' 0) (Float.raw (10 ^ Z.of_nat nd))
        | _ => S754_zero s
        end.
Proof.
  intros He. unfold Float.round.
  set (scale := 10 ^ Z.of_nat nd).
  assert (Hscale : 0 < scale) by (apply Z.pow_pos_nonneg; lia).
  set (n := match e with
            | Zneg p => Float.div_half_even (Zpos m * scale) (2 ^ Zpos p)
            | _ => Zpos m * 2 ^ e * scale
            end).
  assert (Hn : 0 <= n /\
               (2 * Z.abs (n * 2 ^ 1074 - Zpos m * 2 ^ (e + 1074) * scale) <= 2 ^ 1074 /\
                (2 * Z.abs (n * 2 ^ 1074 - Zpos m * 2 ^ (e + 1074) * scale) = 2 ^ 1074 ->
                 Z.even n = true))).
  { assert (HC : 0 < 2 ^ 1074) by (apply Z.pow_pos_nonneg; lia).
    unfold n. destruct e as [|p|p].
    - split; [lia|]. replace (Zpos m * 2 ^ 0 * scale * 2 ^ 1074
                              - Zpos m * 2 ^ (0 + 1074) * scale) with 0; [split; lia|].
      change (2 ^ 0) with 1. replace (0 + 1074) with 1074 by lia. ring.
    - assert (0 < 2 ^ Zpos p) by (apply Z.pow_pos_nonneg; lia).
      split; [nia|]. rewrite Z.pow_add_r by lia.
      replace (Zpos m * 2 ^ Zpos p * scale * 2 ^ 1074
               - Zpos m * (2 ^ Zpos p * 2 ^ 1074) * scale) with 0 by ring. split; lia.
    - assert (HD : 0 < 2 ^ Zpos p) by (apply Z.pow_pos_nonneg; lia).
      split; [apply div_half_even_nonneg; nia|].
      destruct (div_half_even_near (Zpos m * scale) (2 ^ Zpos p) HD) as [Hnear Htie].
      set (k := Float.div_half_even (Zpos m * scale) (2 ^ Zpos p)) in *.
      set (W := 2 ^ (Zneg p + 1074)).
      assert (HW : 0 < W) by (apply Z.pow_pos_nonneg; lia).
      assert (HDW : 2 ^ Zpos p * W = 2 ^ 1074).
      { unfold W. rewrite <- Z.pow_add_r by lia. f_equal. lia. }
      rewrite <- HDW.
      replace (k * (2 ^ Zpos p * W) - Zpos m * W * scale)
        with ((k * 2 ^ Zpos p - Zpos m * scale) * W) by ring.
      rewrite Z.abs_mul, (Z.abs_eq W) by lia. split; [nia|].
      intros Heq. apply Htie. nia. }
  destruct Hn as [Hn0 Hnear]. intros Hr. exists n.
  split; [exact Hn0|]. split; [exact Hnear|].
  destruct n as [|n'|n']; try lia.
  - congruence.
  - destruct (SFdiv Float.prec Float.emax (S754_finite s n' 0) (Float.raw scale));
      congruence.
Qed.

Lemma of_decimal_zero nd : Float.of_decimal 0 nd = S754_zero false.
Proof.
  unfold Float.of_decimal. cbn [Float.raw].
  assert (Hscale : 0 < 10 ^ Z.of_nat nd) by (apply Z.pow_pos_nonneg; lia).
  destruct (10 ^ Z.of_nat nd); try lia. reflexivity.
Qed.


Lemma round_value x nd r :
  nonneg x -> Float.round x nd = Ok r ->
  exists k, 0 <= k /\ r = Float.of_decimal k nd /\ rounds_to nd x k.
Proof.
  intros Hx Hr. unfold rounds_to.
  assert (HC : 0 < 2 ^ 1074) by (apply Z.pow_pos_nonneg; lia).
  destruct x as [[|] | | | [|] m e]; try contradiction.
  - cbn [Float.round] in Hr. injection Hr as <-. exists 0. cbn [ulps].
    split; [lia|]. split; [now rewrite of_decimal_zero | split; lia].
  - cbn [nonneg] in Hx.
    destruct (round_core false m e nd r Hx Hr) as (n & Hn & Hnear & ->).
    exists n. cbn [ulps]. split; [exact Hn|]. split; [|exact Hnear].
    destruct n as [|n'|n']; try lia; [now rewrite of_decimal_zero | reflexivity].
Qed.


Lemma abs_scale x n c : 0 < n -> 2 * Z.abs x <= c -> 2 * Z.abs (x * n) <= c * n.
Proof. intros Hn Hx. rewrite Z.abs_mul, (Z.abs_eq n) by lia. nia. Qed.

Lemma average_rounds S n q k :
  0 < n -> 0 <= k -> approximates (-47) q S n -> rounds_to 2 q k ->
  rounds_quotient 2 S n k.
Proof.
  intros Hn Hk [_ Hq] [Hr _]. split; [exact Hk|].
  apply (abs_scale _ n _ Hn) in Hr.
  change (10 ^ Z.of_nat 2) with 100 in *.
  change (-47 + 1074) with 1027 in Hq.
  set (u := ulps q) in *.
  replace ((k * 2 ^ 1074 - u * 100) * n) with (2 ^ 1074 * (k * n) - 100 * (u * n)) in Hr by ring.
  lia.
Qed.

Lemma percentage_rounds c n q k :
  0 < n -> 0 <= k -> approximates (-49) q c n -> mag_le 2 q ->
  rounds_to 1 (Float.mul q (Float.of_Z 100)) k ->
  rounds_quotient 1 (100 * c) n k.
Proof.
  intros Hn Hk [Hnn Hq] Hmag [Hr _]. split; [exact Hk|].
  destruct (mul_100_value q Hnn Hmag) as [_ Hmul].
  apply (abs_scale _ n _ Hn) in Hr.
  assert (Hmul' : 2 * Z.abs (ulps (Float.mul q (Float.of_Z 100)) - 100 * ulps q) <= 2 ^ 1033)
    by (change (2 ^ 1033) with (2 * 2 ^ 1032); lia).
  apply (abs_scale _ n _ Hn) in Hmul'.
  change (10 ^ Z.of_nat 1) with 10 in *.
  change (-49 + 1074) with 1025 in Hq.
  set (u := ulps q) in *. set (v := ulps (Float.mul q (Float.of_Z 100))) in *.
  replace ((k * 2 ^ 1074 - v * 10) * n) with (2 ^ 1074 * (k * n) - 10 * (v * n)) in Hr by ring.
  replace ((v - 100 * u) * n) with (v * n - 100 * (u * n)) in Hmul' by ring.
  lia.
Qed.

Lemma rounds_quotient_nearest nd a b k :
  0 < b < 2 ^ 36 -> rounds_quotient nd a b k -> nearest_decimal nd a b k.
Proof.
  intros Hb [Hk H]. split; [exact Hk|]. lia.
Qed.

Lemma rounded_quotient_intro nd a b k :
  0 < b -> rounds_quotient nd a b k -> rounded_quotient nd a b (Float.of_decimal k nd).
Proof.
  intros Hb Hrq. exists k. split; [reflexivity|]. split; [exact Hrq|].
  intros Hsmall. apply rounds_quotient_nearest; [lia | exact Hrq].
Qed.

Lemma spec_average_rating_rounded rs avg :
  all_well_formed rs -> rs <> [] -> spec_average_rating rs = Ok avg ->
  rounded_quotient 2 (total_score rs) (Z.of_nat (List.length rs)) avg.
Proof.
  intros Hwf Hne Havg. pose proof (total_score_bounds rs Hwf) as Hb.
  assert (Hlen : 0 < Z.of_nat (List.length rs)) by (destruct rs; simpl; [congruence | lia]).
  unfold spec_average_rating in Havg.
  destruct (Float.int_truediv (total_score rs) (Z.of_nat (List.length rs))) as [q|e] eqn:Hq;
    cbn [rbind] in Havg; [|discriminate].
  assert (Hnear : approximates (-47) q (total_score rs) (Z.of_nat (List.length rs))).
  { apply (int_truediv_near _ _ 3 q); try lia. exact Hq. }
  destruct (round_value q 2 avg (proj1 Hnear) Havg) as (k & Hk & -> & Hround).
  apply rounded_quotient_intro; [exact Hlen|].
  exact (average_rounds _ _ q k Hlen Hk Hnear Hround).
Qed.

Lemma spec_percentage_rounded label rs p :
  rs <> [] -> spec_percentage label rs = Ok p ->
  rounded_quotient 1 (100 * Z.of_nat (labelled label rs)) (Z.of_nat (List.length rs)) p.
Proof.
  intros Hne Hp. pose proof (labelled_le label rs) as Hle.
  assert (Hlen : 0 < Z.of_nat (List.length rs)) by (destruct rs; simpl; [congruence | lia]).
  unfold spec_percentage in Hp.
  destruct (int_truediv_ok (Z.of_nat (labelled label rs)) (Z.of_nat (List.length rs)) 1)
    as (q & Hq & Hmag); try lia.
  rewrite Hq in Hp. cbn [rbind] in Hp.
  assert (Hnear : approximates (-49) q (Z.of_nat (labelled label rs))
                    (Z.of_nat (List.length rs))).
  { apply (int_truediv_near _ _ 1 q); try lia. exact Hq. }
  destruct (mul_100_value q (proj1 Hnear) Hmag) as [Hnn _].
  destruct (round_value _ 1 p Hnn Hp) as (k & Hk & -> & Hround).
  apply rounded_quotient_intro; [exact Hlen|].
  exact (percentage_rounds _ _ q k Hlen Hk Hnear Hmag Hround).
Qed.


End Rounding.

(** ** The report *)

Section ReportFacts.

Context {J : Json}.
Variable self : ReviewAnalyzer.

(** On the empty list the first percentage divides by zero, before any
    request is sent. *)
Lemma generate_report_nil w :
  generate_report self [] w = (Raise ZeroDivisionError, w).
Proof. reflexivity. Qed.

(** Whenever a report is returned, its bookkeeping fields are the input. *)
Lemma generate_report_fields rs w rep w' :
  generate_report self rs w = (Ok rep, w') ->
  total_reviews rep = List.length rs /\ detailed_results rep = rs.
Proof.
  unfold generate_report, bind, lift, ret. intros H.
  repeat match type of H with
         | context [match ?x with Ok _ => _ | Raise _ => _ end] =>
             destruct x; try discriminate
         | context [match ?x with (_, _) => _ end] =>
             let r := fresh "r" in let w0 := fresh "w" in
             destruct x as [r w0]
         end.
  inversion H; subst. split; reflexivity.
Qed.

(** On well-formed records the report is returned, with the statistics the
    spec describes. *)
Lemma generate_report_well_formed rs w :
  all_well_formed rs -> rs <> [] ->
  exists rep w' avg pos neg neu,
    generate_report self rs w = (Ok rep, w') /\
    spec_average_rating rs = Ok avg /\
    spec_percentage "positive" rs = Ok pos /\
    spec_percentage "negative" rs = Ok neg /\
    spec_percentage "neutral" rs = Ok neu /\
    average_rating rep = NFloat avg /\
    positive_percentage rep = pos /\
    negative_percentage rep = neg /\
    neutral_percentage rep = neu /\
    sentiment_distribution rep = tally (map sentiment_of rs).
Proof.
  intros Hwf Hne.
  destruct (spec_average_rating_ok rs Hwf Hne) as (q & avg & _ & _ & _ & Havg).
  destruct (spec_percentage_ok "positive" rs Hne) as (pos & Hpos).
  destruct (spec_percentage_ok "negative" rs Hne) as (neg & Hneg).
  destruct (spec_percentage_ok "neutral" rs Hne) as (neu & Hneu).
  destruct (summary_prompt_ok rs Hwf) as (prompt & Hprompt).
  exists {| total_reviews := List.length rs;
            sentiment_distribution := tally (map sentiment_of rs);
            average_rating := NFloat avg;
            positive_percentage := pos;
            negative_percentage := neg;
            neutral_percentage := neu;
            summary := summary_text (client self (calls w) (summary_request self prompt));
            detailed_results := rs |},
         {| calls := calls w ++ [summary_request self prompt]; stdout := stdout w |},
         avg, pos, neg, neu.
  split; [|repeat split; assumption].
  unfold generate_report.
  rewrite (bind_ok _ _ _ _ _ (lift_ok _ _ w (column_sentiment rs Hwf))).
  rewrite (bind_ok _ _ _ _ _ (lift_ok _ _ w (column_score rs Hwf))).
  rewrite sentiments_as_strings at 1.
  rewrite (bind_ok _ _ _ _ _ (lift_ok _ _ w (Counter_make_strings _))).
  rewrite (bind_ok _ _ _ _ _ (lift_ok _ _ w (rounded_mean_scores rs avg Hne Havg))).
  rewrite !percentage_sentiments.
  rewrite (bind_ok _ _ _ _ _ (lift_ok _ _ w Hpos)).
  rewrite (bind_ok _ _ _ _ _ (lift_ok _ _ w Hneg)).
  rewrite (bind_ok _ _ _ _ _ (lift_ok _ _ w Hneu)).
  rewrite (bind_ok _ _ _ _ _ (generate_summary_run self rs prompt w Hprompt)).
  reflexivity.
Qed.

End ReportFacts.

(** ** Uniqueness of the ranking *)

Lemma outranks_asym l p q : outranks l p q -> outranks l q p -> False.
Proof. unfold outranks. lia. Qed.

(** Two rankings of the same elements by an asymmetric relation agree. *)
Lemma sorted_perm_unique {A} (R : A -> A -> Prop) :
  (forall a b, R a b -> R b a -> False) ->
  forall l1 l2,
    StronglySorted R l1 -> StronglySorted R l2 -> Permutation l1 l2 -> l1 = l2.
Proof.
  intros Hasym. induction l1 as [|a1 l1 IH]; intros l2 H1 H2 Hperm.
  - now apply Permutation_nil in Hperm.
  - destruct l2 as [|a2 l2].
    + symmetry in Hperm. now apply Permutation_nil in Hperm.
    + inversion H1 as [|? ? Hs1 Hall1]; subst.
      inversion H2 as [|? ? Hs2 Hall2]; subst.
      assert (Heq : a1 = a2).
      { assert (Hin1 : In a1 (a2 :: l2))
          by (eapply Permutation_in; [exact Hperm | now left]).
        assert (Hin2 : In a2 (a1 :: l1))
          by (eapply Permutation_in; [symmetry; exact Hperm | now left]).
        destruct Hin1 as [->|Hin1]; [reflexivity|].
        destruct Hin2 as [->|Hin2]; [reflexivity|].
        rewrite Forall_forall in Hall1, Hall2.
        exfalso. apply (Hasym a1 a2); auto. }
      subst a2. f_equal. apply IH; auto.
      now apply Permutation_cons_inv in Hperm.
Qed.

Lemma app_eq_length {A} (l1 l2 r1 r2 : list A) :
  l1 ++ r1 = l2 ++ r2 -> List.length l1 = List.length l2 -> l1 = l2.
Proof.
  revert l2. induction l1 as [|a l1 IH]; intros [|b l2] Heq Hlen;
    simpl in *; try discriminate; [reflexivity|].
  inversion Heq; subst. f_equal. apply IH; auto.
Qed.

(** The top [n] of a list is determined by the list. *)
Lemma top_ranked_unique n items s1 s2 :
  top_ranked n items s1 -> top_ranked n items s2 -> s1 = s2.
Proof.
  intros (r1 & Hp1 & Hs1 & Hl1) (r2 & Hp2 & Hs2 & Hl2).
  apply app_eq_length with (r1 := r1) (r2 := r2); [|congruence].
  apply (sorted_perm_unique (outranks items) (outranks_asym items)); auto.
  rewrite Hp1. now symmetry.
Qed.

Lemma top_items_top_ranked n l :
  exists selected,
    top_items n (map VStr l) = Ok (map VStr selected) /\ top_ranked n l selected.
Proof.
  destruct (top_items_strings n l) as (selected & rest & Hrun & Hperm & Hsorted & Hlen).
  exists selected. split; [assumption|]. now exists rest.
Qed.

(** ** The claims about the aggregator *)

(** C3. [generate_report] on the empty list of records does not return: the
    first percentage divides by [len(sentiments) = 0], the
    [ZeroDivisionError] leaves the method, and no request has been sent.
    (The average two lines above is guarded by [if scores else 0]; the
    percentages are not.) *)
Theorem generate_report_empty_raises {J : Json} (self : ReviewAnalyzer) (w : World) :
  generate_report self [] w = (Raise ZeroDivisionError, w).
Proof. apply generate_report_nil. Qed.

(** C4. Every report that [generate_report] returns has
    [total_reviews = len(records) = len(detailed_results)] and carries the
    input records unchanged and in order; but on the empty list no report is
    returned at all, so the equation [total_reviews = 0] is never
    delivered. *)
Theorem generate_report_total_reviews {J : Json} (self : ReviewAnalyzer) :
  (forall w rep w', generate_report self [] w <> (Ok rep, w')) /\
  (forall rs w rep w',
      generate_report self rs w = (Ok rep, w') ->
      total_reviews rep = List.length rs /\
      total_reviews rep = List.length (detailed_results rep) /\
      detailed_results rep = rs).
Proof.
  split.
  - intros w rep w'. rewrite generate_report_nil. discriminate.
  - intros rs w rep w' Hrun.
    destruct (generate_report_fields self rs w rep w' Hrun) as [Htotal Hdetail].
    repeat split; congruence.
Qed.

Lemma generate_report_total_reviews_witness :
  exists rep w',
    @generate_report Fixture.json Fixture.offline Fixture.two_scores initial_world
      = (Ok rep, w') /\
    total_reviews rep = List.length Fixture.two_scores /\
    total_reviews rep = List.length (detailed_results rep) /\
    detailed_results rep = Fixture.two_scores.
Proof.
  eexists _, _. split; [vm_compute; reflexivity|].
  eapply (proj2 (@generate_report_total_reviews Fixture.json Fixture.offline)
            Fixture.two_scores initial_world).
  vm_compute. reflexivity.
Defined.

(** C5. On a non-empty list of well-formed records [generate_report] returns
    a report whose [average_rating] is the mean of the scores rounded to 2
    decimals and whose three percentages are the count of the label over the
    total, times 100, rounded to 1 decimal (with binary64 arithmetic and
    Python's [round]); on no scores the average expression is the int 0.
    Rounded means: the average is the float of a decimal [k / 100] with
    [|k - 100 * total / n| <= 1/2 + 2^-37], and a percentage the float of a
    decimal [k / 10] with [|k - 1000 * count / n| <= 1/2 + 2^-37]; for fewer
    than [2^36] records these are nearest decimals of the exact quotients.
    The labels positive, positive, negative, neutral give 50.0, 25.0 and
    25.0, and the scores 5 and 2 give 3.5; the scores 5, 5, 3 with two
    positive and one negative label give 4.33, 66.7, 33.3 and 0.0. *)
Theorem generate_report_statistics {J : Json} (self : ReviewAnalyzer) :
  (forall rs w,
      all_well_formed rs -> rs <> [] ->
      exists rep w' avg pos neg neu,
        generate_report self rs w = (Ok rep, w') /\
        spec_average_rating rs = Ok avg /\
        spec_percentage "positive" rs = Ok pos /\
        spec_percentage "negative" rs = Ok neg /\
        spec_percentage "neutral" rs = Ok neu /\
        average_rating rep = NFloat avg /\
        positive_percentage rep = pos /\
        negative_percentage rep = neg /\
        neutral_percentage rep = neu /\
        rounded_quotient 2 (total_score rs) (Z.of_nat (List.length rs)) avg /\
        rounded_quotient 1 (100 * Z.of_nat (labelled "positive" rs))
          (Z.of_nat (List.length rs)) pos /\
        rounded_quotient 1 (100 * Z.of_nat (labelled "negative" rs))
          (Z.of_nat (List.length rs)) neg /\
        rounded_quotient 1 (100 * Z.of_nat (labelled "neutral" rs))
          (Z.of_nat (List.length rs)) neu) /\
  rounded_mean [] = Ok (NInt 0) /\
  (forall w,
      exists rep w',
        generate_report self Fixture.four_labels w = (Ok rep, w') /\
        positive_percentage rep = Float.of_decimal 500 1 /\
        negative_percentage rep = Float.of_decimal 250 1 /\
        neutral_percentage rep = Float.of_decimal 250 1) /\
  (forall w,
      exists rep w',
        generate_report self Fixture.two_scores w = (Ok rep, w') /\
        average_rating rep = NFloat (Float.of_decimal 35 1)) /\
  (forall w,
      exists rep w',
        generate_report self Fixture.thirds w = (Ok rep, w') /\
        average_rating rep = NFloat (Float.of_decimal 433 2) /\
        positive_percentage rep = Float.of_decimal 667 1 /\
        negative_percentage rep = Float.of_decimal 333 1 /\
        neutral_percentage rep = Float.of_decimal 0 1).
Proof.
  split; [|split; [reflexivity|split; [|split]]].
  - intros rs w Hwf Hne.
    destruct (generate_report_well_formed self rs w Hwf Hne)
      as (rep & w' & avg & pos & neg & neu & Hrun & Havg & Hpos & Hneg & Hneu
          & H1 & H2 & H3 & H4 & _).
    exists rep, w', avg, pos, neg, neu.
    pose proof (spec_average_rating_rounded rs avg Hwf Hne Havg).
    pose proof (spec_percentage_rounded "positive" rs pos Hne Hpos).
    pose proof (spec_percentage_rounded "negative" rs neg Hne Hneg).
    pose proof (spec_percentage_rounded "neutral" rs neu Hne Hneu).
    repeat split; assumption.
  - intros w.
    destruct (generate_report_well_formed self Fixture.four_labels w)
      as (rep & w' & avg & pos & neg & neu & Hrun & Havg & Hpos & Hneg & Hneu
          & H1 & H2 & H3 & H4 & _);
      [repeat constructor | discriminate |].
    exists rep, w'. split; [assumption|].
    assert (Epos : spec_percentage "positive" Fixture.four_labels
                   = Ok (Float.of_decimal 500 1)) by (vm_compute; reflexivity).
    assert (Eneg : spec_percentage "negative" Fixture.four_labels
                   = Ok (Float.of_decimal 250 1)) by (vm_compute; reflexivity).
    assert (Eneu : spec_percentage "neutral" Fixture.four_labels
                   = Ok (Float.of_decimal 250 1)) by (vm_compute; reflexivity).
    repeat split; congruence.
  - intros w.
    destruct (generate_report_well_formed self Fixture.two_scores w)
      as (rep & w' & avg & pos & neg & neu & Hrun & Havg & Hpos & Hneg & Hneu
          & H1 & H2 & H3 & H4 & _);
      [repeat constructor | discriminate |].
    exists rep, w'. split; [assumption|].
    assert (Eavg : spec_average_rating Fixture.two_scores
                   = Ok (Float.of_decimal 35 1)) by (vm_compute; reflexivity).
    congruence.
  - intros w.
    destruct (generate_report_well_formed self Fixture.thirds w)
      as (rep & w' & avg & pos & neg & neu & Hrun & Havg & Hpos & Hneg & Hneu
          & H1 & H2 & H3 & H4 & _);
      [repeat constructor | discriminate |].
    exists rep, w'. split; [assumption|].
    assert (Eavg : spec_average_rating Fixture.thirds
                   = Ok (Float.of_decimal 433 2)) by (vm_compute; reflexivity).
    assert (Epos : spec_percentage "positive" Fixture.thirds
                   = Ok (Float.of_decimal 667 1)) by (vm_compute; reflexivity).
    assert (Eneg : spec_percentage "negative" Fixture.thirds
                   = Ok (Float.of_decimal 333 1)) by (vm_compute; reflexivity).
    assert (Eneu : spec_percentage "neutral" Fixture.thirds
                   = Ok (Float.of_decimal 0 1)) by (vm_compute; reflexivity).
    repeat split; congruence.
Qed.

(** The general statement at the scores 5, 5, 3: the decimals it allows are
    433 hundredths, 667 and 333 tenths and 0, and no other. *)
Lemma generate_report_statistics_witness :
  exists rep w',
    @generate_report Fixture.json Fixture.offline Fixture.thirds initial_world
      = (Ok rep, w') /\
    average_rating rep = NFloat (Float.of_decimal 433 2) /\
    positive_percentage rep = Float.of_decimal 667 1 /\
    negative_percentage rep = Float.of_decimal 333 1 /\
    neutral_percentage rep = Float.of_decimal 0 1.
Proof.
  destruct (proj1 (@generate_report_statistics Fixture.json Fixture.offline)
              Fixture.thirds initial_world)
    as (rep & w' & avg & pos & neg & neu & Hrun & _ & _ & _ & _
        & Havg & Hpos & Hneg & Hneu & Ravg & Rpos & Rneg & Rneu).
  - repeat constructor.
  - discriminate.
  - exists rep, w'. split; [exact Hrun|].
    rewrite Havg, Hpos, Hneg, Hneu.
    destruct Ravg as (ka & -> & [_ Ha] & _).
    destruct Rpos as (kp & -> & [_ Hp] & _).
    destruct Rneg as (kn & -> & [_ Hn] & _).
    destruct Rneu as (ku & -> & [Hu0 Hu] & _).
    change (total_score Fixture.thirds) with 13%Z in Ha.
    change (Z.of_nat (List.length Fixture.thirds)) with 3%Z in Ha, Hp, Hn, Hu.
    change (Z.of_nat (labelled "positive" Fixture.thirds)) with 2%Z in Hp.
    change (Z.of_nat (labelled "negative" Fixture.thirds)) with 1%Z in Hn.
    change (Z.of_nat (labelled "neutral" Fixture.thirds)) with 0%Z in Hu.
    change (10 ^ Z.of_nat 2)%Z with 100%Z in Ha.
    change (10 ^ Z.of_nat 1)%Z with 10%Z in Hp, Hn, Hu.
    assert (Eka : ka = 433%Z) by lia.
    assert (Ekp : kp = 667%Z) by lia.
    assert (Ekn : kn = 333%Z) by lia.
    assert (Eku : ku = 0%Z) by lia.
    subst. repeat split; reflexivity.
Defined.

(** C6. On every list of well-formed records, the empty list included,
    [generate_summary] returns a string after one request: the reply of the
    service, or, when the call raises [e], the text
    "Error generating summary: " followed by [str(e)].  Nothing is raised;
    on the empty list the mean is guarded and no division takes place. *)
Theorem generate_summary_returns {J : Json} (self : ReviewAnalyzer)
    (rs : list dict) (w : World) :
  all_well_formed rs ->
  exists prompt text w',
    summary_prompt rs = Ok prompt /\
    generate_summary self rs w = (Ok text, w') /\
    calls w' = calls w ++ [summary_request self prompt] /\
    (forall e,
        client self (calls w) (summary_request self prompt) = Fails e ->
        text = ("Error generating summary: " ++ exn_str e)%string) /\
    (forall reply,
        client self (calls w) (summary_request self prompt) = Replies reply ->
        text = reply).
Proof.
  intros Hwf. destruct (summary_prompt_ok rs Hwf) as (prompt & Hprompt).
  exists prompt. eexists _, _. split; [assumption|].
  split; [exact (generate_summary_run self rs prompt _ Hprompt)|].
  split; [reflexivity|]. split.
  - intros e ->. reflexivity.
  - intros reply ->. reflexivity.
Qed.

Lemma generate_summary_returns_witness :
  exists prompt w',
    @summary_prompt Fixture.json [] = Ok prompt /\
    @generate_summary Fixture.json Fixture.offline [] initial_world
      = (Ok "Error generating summary: Connection error.", w').
Proof.
  destruct (@generate_summary_returns Fixture.json Fixture.offline [] initial_world)
    as (prompt & text & w' & Hprompt & Hrun & _ & Hfail & _).
  - constructor.
  - exists prompt, w'. split; [assumption|].
    rewrite Hrun. f_equal. f_equal.
    apply (Hfail Fixture.connection_error). reflexivity.
Defined.

(** C8. On well-formed records [summary_data] returns, and its
    [common_points] are the top 10 (its [common_emotions] the top 5) of the
    concatenation, in record order, of the records' [key_points]
    ([emotions]) lists: the first entries of the list of distinct items
    ranked by decreasing frequency, items of equal frequency in order of
    first appearance.  That ranking is unique, so the selection is determined
    by the input. *)
Theorem top_items_ranking (rs : list dict) :
  all_well_formed rs ->
  exists data points emotions,
    summary_data rs = Ok data /\
    Summary.common_points data = map VStr points /\
    Summary.common_emotions data = map VStr emotions /\
    top_ranked 10 (List.concat (map key_points_of rs)) points /\
    top_ranked 5 (List.concat (map emotions_of rs)) emotions /\
    (forall other,
        top_ranked 10 (List.concat (map key_points_of rs)) other -> other = points) /\
    (forall other,
        top_ranked 5 (List.concat (map emotions_of rs)) other -> other = emotions).
Proof.
  intros Hwf.
  destruct (summary_data_well_formed rs Hwf)
    as (average & vpoints & vemotions & Hdata & Hpoints & Hemotions).
  destruct (top_items_top_ranked 10 (List.concat (map key_points_of rs)))
    as (points & Hrun_points & Htop_points).
  destruct (top_items_top_ranked 5 (List.concat (map emotions_of rs)))
    as (emotions & Hrun_emotions & Htop_emotions).
  eexists _, points, emotions. split; [exact Hdata|]. cbn [Summary.common_points Summary.common_emotions].
  repeat split; try assumption; try congruence.
  - intros other Hother. eapply top_ranked_unique; eauto.
  - intros other Hother. eapply top_ranked_unique; eauto.
Qed.

Lemma top_items_ranking_witness :
  exists data,
    summary_data Fixture.tied = Ok data /\
    Summary.common_points data = [VStr "price"; VStr "quality"; VStr "delivery"].
Proof.
  destruct (top_items_ranking Fixture.tied)
    as (data & points & emotions & Hdata & _).
  - repeat constructor.
  - exists data. split; [assumption|].
    vm_compute in Hdata. inversion Hdata. reflexivity.
Defined.

(** C9 (as amended). The extractor sends the configured temperature and the
    summary call sends the literal 0.5, whatever was configured.  Hence the
    summary temperature is strictly higher than the extractor's exactly when
    the configured temperature is below 0.5, as it is for the default 0.3. *)
Theorem summary_temperature_fixed {J : Json} (self : ReviewAnalyzer)
    (review : string) (rs : list dict) (w1 w2 : World) :
  all_well_formed rs ->
  exists r w1' text w2' extraction_call summary_call,
    analyze_sentiment self review w1 = (Ok r, w1') /\
    calls w1' = calls w1 ++ [extraction_call] /\
    generate_summary self rs w2 = (Ok text, w2') /\
    calls w2' = calls w2 ++ [summary_call] /\
    req_temperature extraction_call = temperature self /\
    req_temperature summary_call = Float.of_decimal 5 1 /\
    Float.ltb (req_temperature extraction_call) (req_temperature summary_call)
      = Float.ltb (temperature self) (Float.of_decimal 5 1) /\
    (forall c m, temperature (init c m None) = Float.of_decimal 3 1) /\
    Float.ltb (Float.of_decimal 3 1) (Float.of_decimal 5 1) = true.
Proof.
  intros Hwf.
  destruct (analyze_sentiment_review self review w1) as (r & w1' & Hrun1 & _ & Hlog1).
  destruct (summary_prompt_ok rs Hwf) as (prompt & Hprompt).
  exists r, w1'. eexists _, _.
  exists (sentiment_request self review), (summary_request self prompt).
  split; [assumption|]. split; [assumption|].
  split; [exact (generate_summary_run self rs prompt _ Hprompt)|].
  repeat split.
Qed.

Lemma summary_temperature_fixed_witness :
  exists r w1' text w2' extraction_call summary_call,
    @analyze_sentiment Fixture.json Fixture.offline "Test review" initial_world
      = (Ok r, w1') /\
    calls w1' = calls initial_world ++ [extraction_call] /\
    @generate_summary Fixture.json Fixture.offline Fixture.two_scores initial_world
      = (Ok text, w2') /\
    calls w2' = calls initial_world ++ [summary_call] /\
    req_temperature extraction_call = temperature Fixture.offline /\
    req_temperature summary_call = Float.of_decimal 5 1 /\
    Float.ltb (req_temperature extraction_call) (req_temperature summary_call)
      = Float.ltb (temperature Fixture.offline) (Float.of_decimal 5 1) /\
    (forall c m, temperature (init c m None) = Float.of_decimal 3 1) /\
    Float.ltb (Float.of_decimal 3 1) (Float.of_decimal 5 1) = true.
Proof.
  apply (@summary_temperature_fixed Fixture.json Fixture.offline "Test review"
           Fixture.two_scores initial_world initial_world).
  repeat constructor.
Defined.

(** C9, counterexample to the claim as stated: with the settings of the
    custom-settings test (temperature 0.5, inside [0.0, 1.0]) the extractor
    and the summary call send the same temperature, so the summary's is not
    strictly higher. *)
Lemma summary_temperature_not_higher :
  Float.leb (Float.of_Z 0) (temperature Fixture.custom) = true /\
  Float.leb (temperature Fixture.custom) (Float.of_Z 1) = true /\
  exists r w1' text w2' extraction_call summary_call,
    @analyze_sentiment Fixture.json Fixture.custom "Test review" initial_world
      = (Ok r, w1') /\
    calls w1' = [extraction_call] /\
    @generate_summary Fixture.json Fixture.custom [] initial_world = (Ok text, w2') /\
    calls w2' = [summary_call] /\
    Float.ltb (req_temperature extraction_call) (req_temperature summary_call) = false.
Proof.
  split; [vm_compute; reflexivity|]. split; [vm_compute; reflexivity|].
  eexists _, _, _, _, _, _.
  split; [vm_compute; reflexivity|]. split; [vm_compute; reflexivity|].
  split; [vm_compute; reflexivity|]. split; [vm_compute; reflexivity|].
  vm_compute. reflexivity.
Qed.

(** * Further properties of the code *)

(** ** The batch as a function of the request log *)

Section BatchFacts.

Context {J : Json}.
Variable self : ReviewAnalyzer.

Lemma analyze_sentiment_record review w :
  exists w',
    analyze_sentiment self review w = (Ok (record_after self (calls w) review), w') /\
    calls w' = calls w ++ [sentiment_request self review].
Proof.
  unfold record_after, analyze_sentiment, try_except, bind, create, lift, print, ret.
  cbn [calls stdout].
  destruct (client self (calls w) (sentiment_request self review)) as [e|text].
  - eexists. split; reflexivity.
  - destruct (json_loads text) as [parsed|e].
    + destruct (setitem_review parsed review); eexists; split; reflexivity.
    + eexists. split; reflexivity.
Qed.

Lemma analyze_batch_loop_records total verbose rest :
  forall i results w,
  exists w',
    analyze_batch_loop self total i rest verbose results w
      = (Ok (results ++ batch_records self (calls w) rest), w') /\
    calls w' = calls w ++ map (sentiment_request self) rest.
Proof.
  induction rest as [|review rest IH]; intros i results w; cbn [analyze_batch_loop].
  - exists w. cbn [batch_records map]. rewrite !app_nil_r. split; reflexivity.
  - set (progress := if verbose
                     then print ("Analyzing review " ++ str_of_nat i ++ "/" ++
                                 str_of_nat total ++ "...")
                     else ret tt).
    destruct (progress w) as [u w0] eqn:Hprint.
    assert (Hw0 : u = Ok tt /\ calls w0 = calls w).
    { unfold progress in Hprint. destruct verbose; inversion Hprint; auto. }
    destruct Hw0 as [-> Hcalls].
    destruct (analyze_sentiment_record review w0) as (w1 & Hrun & Hlog).
    destruct (IH (S i) (results ++ [record_after self (calls w0) review]) w1)
      as (w2 & Hloop & Hlog2).
    exists w2. split.
    + rewrite (bind_ok _ _ _ _ _ Hprint), (bind_ok _ _ _ _ _ Hrun), Hloop.
      cbn [batch_records]. rewrite Hlog, Hcalls, <- app_assoc. reflexivity.
    + rewrite Hlog2, Hlog, Hcalls. cbn [map]. now rewrite <- app_assoc.
Qed.

Lemma analyze_batch_records reviews verbose w :
  exists w',
    analyze_batch self reviews verbose w
      = (Ok (batch_records self (calls w) reviews), w') /\
    calls w' = calls w ++ map (sentiment_request self) reviews.
Proof.
  apply (analyze_batch_loop_records (List.length reviews) verbose reviews 1 [] w).
Qed.

Lemma batch_records_app history l1 l2 :
  batch_records self history (l1 ++ l2) =
    batch_records self history l1 ++
    batch_records self (history ++ map (sentiment_request self) l1) l2.
Proof.
  revert history. induction l1 as [|x l1 IH]; intros history; cbn [app batch_records map].
  - now rewrite app_nil_r.
  - rewrite IH, <- app_assoc. reflexivity.
Qed.

Lemma batch_records_nth history reviews :
  forall i review,
    nth_error reviews i = Some review ->
    nth_error (batch_records self history reviews) i =
      Some (record_after self
              (history ++ map (sentiment_request self) (firstn i reviews)) review).
Proof.
  revert history. induction reviews as [|x reviews IH]; intros history [|i] review H;
    cbn in H; try discriminate.
  - inversion H; subst. cbn. now rewrite app_nil_r.
  - cbn [batch_records nth_error firstn map]. rewrite (IH _ i review H).
    now rewrite <- app_assoc.
Qed.

End BatchFacts.

(** X2. Each record of a batch is the one [analyze_sentiment] returns for
    its own review once the requests of the earlier reviews have been sent:
    nothing else of the earlier extractions, failed or not, reaches it. *)
Theorem analyze_batch_record_isolated {J : Json} (self : ReviewAnalyzer)
    (reviews : list string) (verbose : bool) (w : World) :
  exists results w',
    analyze_batch self reviews verbose w = (Ok results, w') /\
    forall i review w_i,
      nth_error reviews i = Some review ->
      calls w_i = calls w ++ map (sentiment_request self) (firstn i reviews) ->
      exists r w_i',
        nth_error results i = Some r /\
        analyze_sentiment self review w_i = (Ok r, w_i').
Proof.
  destruct (analyze_batch_records self reviews verbose w) as (w' & Hrun & _).
  eexists _, w'. split; [exact Hrun|].
  intros i review w_i Hnth Hlog.
  destruct (analyze_sentiment_record self review w_i) as (w_i' & Hone & _).
  eexists _, w_i'. split; [|exact Hone].
  rewrite Hlog. now apply batch_records_nth.
Qed.

Lemma analyze_batch_record_isolated_witness :
  exists results w',
    @analyze_batch Fixture.json Fixture.well_behaved ["Good product"; "Bad quality"]
      true initial_world = (Ok results, w') /\
    exists r w_i',
      nth_error results 1 = Some r /\
      @analyze_sentiment Fixture.json Fixture.well_behaved "Bad quality"
        {| calls := [sentiment_request Fixture.well_behaved "Good product"];
           stdout := [] |} = (Ok r, w_i').
Proof.
  destruct (@analyze_batch_record_isolated Fixture.json Fixture.well_behaved
              ["Good product"; "Bad quality"] true initial_world)
    as (results & w' & Hrun & Hiso).
  exists results, w'. split; [exact Hrun|].
  apply (Hiso 1 "Bad quality"); reflexivity.
Defined.

(** X3. Progress reporting does not change what a batch returns or what it
    sends: with and without [verbose], from worlds with the same request
    log, the records and the requests are the same. *)
Theorem analyze_batch_verbose_irrelevant {J : Json} (self : ReviewAnalyzer)
    (reviews : list string) (w1 w2 : World) :
  calls w1 = calls w2 ->
  fst (analyze_batch self reviews true w1) = fst (analyze_batch self reviews false w2) /\
  calls (snd (analyze_batch self reviews true w1))
    = calls (snd (analyze_batch self reviews false w2)).
Proof.
  intros Hcalls.
  destruct (analyze_batch_records self reviews true w1) as (w1' & -> & Hlog1).
  destruct (analyze_batch_records self reviews false w2) as (w2' & -> & Hlog2).
  cbn [fst snd]. rewrite Hlog1, Hlog2, Hcalls. split; reflexivity.
Qed.

Lemma analyze_batch_verbose_irrelevant_witness :
  fst (@analyze_batch Fixture.json Fixture.chatty ["Fine"; "Great!"] true initial_world)
    = fst (@analyze_batch Fixture.json Fixture.chatty ["Fine"; "Great!"] false
             {| calls := []; stdout := ["Starting"] |}) /\
  calls (snd (@analyze_batch Fixture.json Fixture.chatty ["Fine"; "Great!"] true
                initial_world))
    = calls (snd (@analyze_batch Fixture.json Fixture.chatty ["Fine"; "Great!"] false
                    {| calls := []; stdout := ["Starting"] |})).
Proof.
  apply (@analyze_batch_verbose_irrelevant Fixture.json Fixture.chatty ["Fine"; "Great!"]
           initial_world {| calls := []; stdout := ["Starting"] |}).
  reflexivity.
Defined.

(** X4. Splitting a batch changes nothing: analysing [l1] and then [l2]
    yields the records and the request log of analysing [l1 ++ l2] at
    once. *)
Theorem analyze_batch_app {J : Json} (self : ReviewAnalyzer)
    (l1 l2 : list string) (verbose : bool) (w w1 w2 : World) (r1 r2 : list dict) :
  analyze_batch self l1 verbose w = (Ok r1, w1) ->
  analyze_batch self l2 verbose w1 = (Ok r2, w2) ->
  exists w',
    analyze_batch self (l1 ++ l2) verbose w = (Ok (r1 ++ r2), w') /\
    calls w' = calls w2.
Proof.
  intros H1 H2.
  destruct (analyze_batch_records self l1 verbose w) as (w1' & E1 & Hlog1).
  rewrite E1 in H1. inversion H1; subst r1 w1'. clear H1.
  destruct (analyze_batch_records self l2 verbose w1) as (w2' & E2 & Hlog2).
  rewrite E2 in H2. inversion H2; subst r2 w2'. clear H2.
  destruct (analyze_batch_records self (l1 ++ l2) verbose w) as (w' & E & Hlog).
  exists w'. split.
  - rewrite E, batch_records_app, Hlog1. reflexivity.
  - rewrite Hlog, Hlog2, Hlog1, map_app, app_assoc. reflexivity.
Qed.

Lemma analyze_batch_app_witness :
  exists w',
    @analyze_batch Fixture.json Fixture.offline (["Good product"] ++ ["Bad quality"])
      false initial_world
      = (Ok ([fallback "Good product" Fixture.connection_error] ++
             [fallback "Bad quality" Fixture.connection_error]), w').
Proof.
  destruct (@analyze_batch_app Fixture.json Fixture.offline
              ["Good product"] ["Bad quality"] false initial_world
              (snd (@analyze_batch Fixture.json Fixture.offline ["Good product"] false
                      initial_world))
              (snd (@analyze_batch Fixture.json Fixture.offline ["Bad quality"] false
                      (snd (@analyze_batch Fixture.json Fixture.offline ["Good product"]
                              false initial_world))))
              [fallback "Good product" Fixture.connection_error]
              [fallback "Bad quality" Fixture.connection_error])
    as (w' & Hrun & _); [reflexivity | reflexivity |].
  exists w'. exact Hrun.
Defined.

(** X1. When the reply parses to a JSON object, the record is that object
    with [review] set to the input: every other member is returned as the
    model gave it, a [review] member of the reply is overwritten, and nothing
    is printed. *)
Theorem analyze_sentiment_keeps_reply {J : Json} (self : ReviewAnalyzer)
    (review : string) (w : World) (text : string) (d : dict) :
  reply_to_review self review w = Replies text ->
  json_loads text = Ok (VDict d) ->
  exists r w',
    analyze_sentiment self review w = (Ok r, w') /\
    Dict.lookup r "review" = Some (VStr review) /\
    (forall key, key <> "review" -> Dict.lookup r key = Dict.lookup d key) /\
    stdout w' = stdout w.
Proof.
  intros Hreply Hparse.
  exists (Dict.set d "review" (VStr review)), (after_success self review w).
  split; [now apply analyze_sentiment_success with (text := text)|].
  split; [apply lookup_set_same|]. split; [|reflexivity].
  intros key Hkey. apply lookup_set_other. congruence.
Qed.

Lemma analyze_sentiment_keeps_reply_witness :
  exists r w',
    @analyze_sentiment Fixture.json Fixture.chatty "Fine" initial_world = (Ok r, w') /\
    Dict.lookup r "review" = Some (VStr "Fine") /\
    (forall key, key <> "review" -> Dict.lookup r key = Dict.lookup
       [ ("sentiment", VStr "positive"); ("error", VStr "none") ] key) /\
    stdout w' = stdout initial_world.
Proof.
  apply (@analyze_sentiment_keeps_reply Fixture.json Fixture.chatty "Fine" initial_world
           Fixture.error_text); reflexivity.
Defined.

Section HealthyService.

Context {J : Json}.
Variable self : ReviewAnalyzer.
Hypothesis Hhealthy : healthy (client self).

Lemma analyze_sentiment_healthy review w :
  exists r,
    analyze_sentiment self review w = (Ok r, after_success self review w).
Proof.
  destruct (Hhealthy (calls w) (sentiment_request self review)) as (text & d & Hreply & Hparse).
  eexists. now apply analyze_sentiment_success with (text := text) (d := d).
Qed.

Lemma analyze_batch_loop_healthy total verbose rest :
  forall i results w,
  exists res w',
    analyze_batch_loop self total i rest verbose results w = (Ok res, w') /\
    stdout w' = stdout w ++
      (if verbose then map (progress_line total) (seq i (List.length rest)) else []).
Proof.
  induction rest as [|review rest IH]; intros i results w; cbn [analyze_batch_loop].
  - exists results, w. split; [reflexivity|]. destruct verbose; cbn; now rewrite app_nil_r.
  - destruct verbose.
    + set (w0 := {| calls := calls w; stdout := stdout w ++ [progress_line total i] |}).
      destruct (analyze_sentiment_healthy review w0) as (r & Hrun).
      destruct (IH (S i) (results ++ [r]) (after_success self review w0))
        as (res & w' & Hloop & Hout).
      exists res, w'. split.
      * rewrite (bind_ok _ _ w tt w0) by reflexivity.
        rewrite (bind_ok _ _ _ _ _ Hrun). exact Hloop.
      * rewrite Hout. cbn [after_success stdout w0 List.length seq map].
        now rewrite <- app_assoc.
    + destruct (analyze_sentiment_healthy review w) as (r & Hrun).
      destruct (IH (S i) (results ++ [r]) (after_success self review w))
        as (res & w' & Hloop & Hout).
      exists res, w'. split.
      * rewrite (bind_ok _ _ w tt w) by reflexivity.
        rewrite (bind_ok _ _ _ _ _ Hrun). exact Hloop.
      * rewrite Hout. reflexivity.
Qed.

End HealthyService.

(** X5. When the service answers every request with a JSON object, a batch
    prints exactly its progress lines, "Analyzing review i/n..." for i from 1
    to n in order, when [verbose] is set, and prints nothing otherwise. *)
Theorem analyze_batch_progress {J : Json} (self : ReviewAnalyzer)
    (reviews : list string) (verbose : bool) (w : World) :
  healthy (client self) ->
  exists results w',
    analyze_batch self reviews verbose w = (Ok results, w') /\
    stdout w' = stdout w ++
      (if verbose
       then map (progress_line (List.length reviews)) (seq 1 (List.length reviews))
       else []).
Proof.
  intros Hhealthy.
  apply (analyze_batch_loop_healthy self Hhealthy (List.length reviews) verbose reviews 1 [] w).
Qed.

Lemma analyze_batch_progress_witness :
  exists results w',
    @analyze_batch Fixture.json Fixture.well_behaved ["Good product"; "Bad quality"]
      true initial_world = (Ok results, w') /\
    stdout w' = ["Analyzing review 1/2..."; "Analyzing review 2/2..."].
Proof.
  apply (@analyze_batch_progress Fixture.json Fixture.well_behaved
           ["Good product"; "Bad quality"] true initial_world).
  intros history req. exists Fixture.good_text.
  eexists. split; reflexivity.
Defined.

(** ** The stand-alone script against the package *)

Section LegacyFacts.

Context {J : Json}.
Variable c : Client.

Lemma legacy_analyze_sentiment_record review w :
  exists w',
    Legacy.analyze_sentiment c review w
      = (Ok (record_after (init c None None) (calls w) review), w') /\
    calls w' = calls w ++ [sentiment_request (init c None None) review].
Proof.
  unfold record_after, Legacy.analyze_sentiment, analyze_sentiment,
    try_except, bind, create, lift, print, ret.
  cbn [calls stdout].
  change (Legacy.sentiment_request review)
    with (sentiment_request (init c None None) review).
  change (client (init c None None)) with c.
  destruct (c (calls w) (sentiment_request (init c None None) review)) as [e|text].
  - eexists. split; reflexivity.
  - destruct (json_loads text) as [parsed|e].
    + destruct (setitem_review parsed review); eexists; split; reflexivity.
    + eexists. split; reflexivity.
Qed.

Lemma legacy_analyze_batch_loop_records total rest :
  forall i results w,
  exists w',
    Legacy.analyze_batch_loop c total i rest results w
      = (Ok (results ++ batch_records (init c None None) (calls w) rest), w') /\
    calls w' = calls w ++ map (sentiment_request (init c None None)) rest.
Proof.
  induction rest as [|review rest IH]; intros i results w;
    cbn [Legacy.analyze_batch_loop].
  - exists w. cbn [batch_records map]. rewrite !app_nil_r. split; reflexivity.
  - set (w0 := {| calls := calls w;
                  stdout := stdout w ++
                    [("Analyzing review " ++ str_of_nat (i + 1) ++ "/" ++
                      str_of_nat total ++ "...")%string] |}).
    destruct (legacy_analyze_sentiment_record review w0) as (w1 & Hrun & Hlog).
    destruct (IH (S i) (results ++ [record_after (init c None None) (calls w0) review]) w1)
      as (w2 & Hloop & Hlog2).
    exists w2. split.
    + rewrite (bind_ok _ _ w tt w0) by reflexivity.
      rewrite (bind_ok _ _ _ _ _ Hrun), Hloop.
      cbn [batch_records]. rewrite Hlog. cbn [calls w0].
      rewrite <- app_assoc. reflexivity.
    + rewrite Hlog2, Hlog. cbn [map calls w0]. now rewrite <- app_assoc.
Qed.

End LegacyFacts.

(** X13. The stand-alone script and the package with its default settings
    do the same work: a batch returns the same records and sends the same
    requests (only the printed diagnostic differs), and the summary and the
    report are the same down to the resulting world. *)
Theorem legacy_agrees_with_defaults {J : Json} (c : Client)
    (reviews : list string) (rs : list dict) (w : World) :
  fst (Legacy.analyze_batch c reviews w)
    = fst (analyze_batch (init c None None) reviews true w) /\
  calls (snd (Legacy.analyze_batch c reviews w))
    = calls (snd (analyze_batch (init c None None) reviews true w)) /\
  Legacy.generate_summary c rs w = generate_summary (init c None None) rs w /\
  Legacy.generate_report c rs w = generate_report (init c None None) rs w.
Proof.
  destruct (legacy_analyze_batch_loop_records c (List.length reviews) reviews 0 [] w)
    as (w1 & E1 & Hlog1).
  destruct (analyze_batch_records (init c None None) reviews true w) as (w2 & E2 & Hlog2).
  unfold Legacy.analyze_batch. rewrite E1, E2. cbn [fst snd app].
  rewrite Hlog1, Hlog2. repeat split; reflexivity.
Qed.

(** ** What a returned report tells about the stages before it *)

Lemma column_length key rs vs : column key rs = Ok vs -> List.length vs = List.length rs.
Proof.
  revert vs. induction rs as [|r rs IH]; intros vs H; cbn [column] in H.
  - inversion H. reflexivity.
  - destruct (Dict.getitem r key) as [v|e]; cbn [rbind] in H; [|discriminate].
    destruct (column key rs) as [vs'|e]; cbn [rbind] in H; [|discriminate].
    inversion H; subst. cbn [List.length]. now rewrite (IH vs').
Qed.

Lemma column_missing key rs :
  (exists r, In r rs /\ Dict.mem r key = false) ->
  column key rs = Raise (KeyError key).
Proof.
  intros (r & Hin & Hmem). induction rs as [|r0 rs IH]; [contradiction|].
  cbn [column]. unfold Dict.getitem. rewrite mem_lookup in Hmem.
  destruct Hin as [->|Hin].
  - destruct (Dict.lookup r key); [discriminate | reflexivity].
  - destruct (Dict.lookup r0 key); [|reflexivity]. cbn [rbind].
    now rewrite (IH Hin).
Qed.

Lemma column_present key rs :
  (forall r, In r rs -> Dict.mem r key = true) ->
  column key rs = Ok (map (fun r => Dict.get r key VNone) rs).
Proof.
  induction rs as [|r rs IH]; intros Hall; [reflexivity|].
  cbn [column map]. unfold Dict.getitem, Dict.get.
  pose proof (Hall r (or_introl eq_refl)) as Hr. rewrite mem_lookup in Hr.
  destruct (Dict.lookup r key); [|discriminate]. cbn [rbind].
  rewrite IH by (intros r' Hr'; apply Hall; now right). reflexivity.
Qed.

(** One pure stage of a method body: it returns and the body goes on, or it
    raises and the body stops in the same world. *)
Ltac lift_stage H w :=
  match type of H with
  | bind (lift ?r) _ w = _ =>
      let E := fresh "Estage" in
      destruct r eqn:E;
      [ rewrite (bind_ok _ _ _ _ _ (lift_ok _ _ w eq_refl)) in H
      | rewrite (bind_raise _ _ _ _ _ (lift_raise _ _ w eq_refl)) in H ]
  end.

Section ReportStages.

Context {J : Json}.
Variable self : ReviewAnalyzer.

(** [generate_summary] either fails while building the prompt, before any
    request, or sends one request and returns. *)
Lemma generate_summary_cases rs w :
  (exists e, summary_prompt rs = Raise e /\
             generate_summary self rs w = (Raise e, w)) \/
  (exists prompt,
      summary_prompt rs = Ok prompt /\
      generate_summary self rs w =
        (Ok (summary_text (client self (calls w) (summary_request self prompt))),
         {| calls := calls w ++ [summary_request self prompt]; stdout := stdout w |})).
Proof.
  destruct (summary_prompt rs) as [prompt|e] eqn:Hprompt.
  - right. exists prompt. split; [reflexivity|]. now apply generate_summary_run.
  - left. exists e. split; [reflexivity|].
    unfold generate_summary. now rewrite (bind_raise _ _ _ _ _ (lift_raise _ _ w Hprompt)).
Qed.

(** The stages behind a returned report. *)
Lemma generate_report_inv rs w rep w' :
  generate_report self rs w = (Ok rep, w') ->
  exists sentiments scores prompt,
    column "sentiment" rs = Ok sentiments /\
    column "score" rs = Ok scores /\
    Counter.make sentiments = Ok (sentiment_distribution rep) /\
    rounded_mean scores = Ok (average_rating rep) /\
    percentage sentiments "positive" = Ok (positive_percentage rep) /\
    percentage sentiments "negative" = Ok (negative_percentage rep) /\
    percentage sentiments "neutral" = Ok (neutral_percentage rep) /\
    summary_prompt rs = Ok prompt /\
    summary rep = summary_text (client self (calls w) (summary_request self prompt)) /\
    w' = {| calls := calls w ++ [summary_request self prompt]; stdout := stdout w |}.
Proof.
  unfold generate_report. intros H.
  do 7 (lift_stage H w; [|discriminate]).
  destruct (generate_summary_cases rs w) as [(e & _ & Hs) | (prompt & Hprompt & Hs)].
  - rewrite (bind_raise _ _ _ _ _ Hs) in H. discriminate.
  - rewrite (bind_ok _ _ _ _ _ Hs) in H. unfold ret in H. inversion H; subst.
    eexists _, _, prompt. cbn. repeat split; eassumption.
Qed.

(** A report that is not returned has cost nothing. *)
Lemma generate_report_raise_world rs w e w' :
  generate_report self rs w = (Raise e, w') -> w' = w.
Proof.
  unfold generate_report. intros H.
  do 7 (lift_stage H w; [|now inversion H]).
  destruct (generate_summary_cases rs w) as [(e8 & _ & Hs) | (prompt & Hprompt & Hs)].
  - rewrite (bind_raise _ _ _ _ _ Hs) in H. now inversion H.
  - rewrite (bind_ok _ _ _ _ _ Hs) in H. discriminate.
Qed.

End ReportStages.

(** X7. The aggregator spends at most one request and prints nothing: when
    [generate_summary] or [generate_report] raises, the world is the one it
    started in (no request was sent), and when it returns, exactly the
    summary request was added to the log. *)
Theorem report_request_accounting {J : Json} (self : ReviewAnalyzer)
    (rs : list dict) (w : World) :
  (forall e w', generate_summary self rs w = (Raise e, w') -> w' = w) /\
  (forall text w',
      generate_summary self rs w = (Ok text, w') ->
      exists prompt,
        w' = {| calls := calls w ++ [summary_request self prompt]; stdout := stdout w |}) /\
  (forall e w', generate_report self rs w = (Raise e, w') -> w' = w) /\
  (forall rep w',
      generate_report self rs w = (Ok rep, w') ->
      exists prompt,
        w' = {| calls := calls w ++ [summary_request self prompt]; stdout := stdout w |}).
Proof.
  repeat split.
  - intros e w' H.
    destruct (generate_summary_cases self rs w) as [(e' & _ & Hs) | (prompt & _ & Hs)];
      rewrite Hs in H; now inversion H.
  - intros text w' H.
    destruct (generate_summary_cases self rs w) as [(e' & _ & Hs) | (prompt & _ & Hs)];
      rewrite Hs in H; inversion H. now exists prompt.
  - intros e w'. apply generate_report_raise_world.
  - intros rep w' H.
    destruct (generate_report_inv self rs w rep w' H)
      as (? & ? & prompt & _ & _ & _ & _ & _ & _ & _ & _ & _ & Hw).
    now exists prompt.
Qed.

Lemma report_request_accounting_witness :
  snd (@generate_report Fixture.json Fixture.offline [[("review", VStr "Fine")]]
         {| calls := []; stdout := ["Starting"] |})
    = {| calls := []; stdout := ["Starting"] |}.
Proof.
  apply (proj1 (proj2 (proj2 (@report_request_accounting Fixture.json Fixture.offline
                                [[("review", VStr "Fine")]]
                                {| calls := []; stdout := ["Starting"] |})))
           (KeyError "sentiment")).
  vm_compute. reflexivity.
Defined.

(** X6. A record without a [sentiment] key, or, when all have one, a record
    without a [score] key, makes both [generate_report] and
    [generate_summary] raise the [KeyError] of that key before anything is
    sent.  (An unvalidated reply such as an empty JSON object produces such
    a record.) *)
Theorem missing_key_raises {J : Json} (self : ReviewAnalyzer)
    (rs : list dict) (w : World) :
  ((exists r, In r rs /\ Dict.mem r "sentiment" = false) ->
   generate_report self rs w = (Raise (KeyError "sentiment"), w) /\
   generate_summary self rs w = (Raise (KeyError "sentiment"), w)) /\
  ((forall r, In r rs -> Dict.mem r "sentiment" = true) ->
   (exists r, In r rs /\ Dict.mem r "score" = false) ->
   generate_report self rs w = (Raise (KeyError "score"), w) /\
   generate_summary self rs w = (Raise (KeyError "score"), w)).
Proof.
  split.
  - intros Hmissing. pose proof (column_missing "sentiment" rs Hmissing) as Hcol.
    split.
    + unfold generate_report.
      now rewrite (bind_raise _ _ _ _ _ (lift_raise _ _ w Hcol)).
    + unfold generate_summary, summary_prompt, summary_data.
      rewrite Hcol. reflexivity.
  - intros Hall Hmissing.
    pose proof (column_present "sentiment" rs Hall) as Hsent.
    pose proof (column_missing "score" rs Hmissing) as Hcol.
    split.
    + unfold generate_report.
      rewrite (bind_ok _ _ _ _ _ (lift_ok _ _ w Hsent)).
      now rewrite (bind_raise _ _ _ _ _ (lift_raise _ _ w Hcol)).
    + unfold generate_summary, summary_prompt, summary_data.
      rewrite Hsent, Hcol. reflexivity.
Qed.

Lemma missing_key_raises_witness :
  @generate_report Fixture.json Fixture.offline
    [Fixture.record "positive" 5 "Great!"; [("review", VStr "Fine")]] initial_world
    = (Raise (KeyError "sentiment"), initial_world) /\
  @generate_summary Fixture.json Fixture.offline
    [Fixture.record "positive" 5 "Great!"; [("review", VStr "Fine")]] initial_world
    = (Raise (KeyError "sentiment"), initial_world).
Proof.
  apply (proj1 (@missing_key_raises Fixture.json Fixture.offline
                  [Fixture.record "positive" 5 "Great!"; [("review", VStr "Fine")]]
                  initial_world)).
  exists [("review", VStr "Fine")]. split; [right; left; reflexivity | reflexivity].
Defined.

(** ** Counters of arbitrary hashable values *)

Lemma incr_total c x : counts_total (Counter.incr c x) = S (counts_total c).
Proof.
  unfold counts_total. induction c as [|[k n] c IH]; simpl.
  - reflexivity.
  - destruct (Counter.key_eqb k x); simpl; [reflexivity|].
    rewrite IH. lia.
Qed.

Lemma incr_keys (P : value -> Prop) c x :
  P x -> Forall (fun e => P (fst e)) c -> Forall (fun e => P (fst e)) (Counter.incr c x).
Proof.
  intros Hx. induction 1 as [|[k n] c Hk Hc IH]; cbn [Counter.incr].
  - repeat constructor. exact Hx.
  - destruct (Counter.key_eqb k x); constructor; assumption.
Qed.

Lemma incr_positive c x :
  Forall (fun e => 1 <= snd e) c -> Forall (fun e => 1 <= snd e) (Counter.incr c x).
Proof.
  induction 1 as [|[k n] c Hk Hc IH]; cbn [Counter.incr].
  - repeat constructor.
  - destruct (Counter.key_eqb k x); constructor; cbn [snd] in *; auto; lia.
Qed.

Lemma incr_distinct c x : distinct_keys c -> distinct_keys (Counter.incr c x).
Proof.
  unfold distinct_keys. induction 1 as [|[k n] c Hk Hc IH]; cbn [Counter.incr].
  - repeat constructor.
  - destruct (Counter.key_eqb k x) eqn:Ekx; constructor; auto.
    apply (incr_keys (fun y => Counter.key_eqb k y = false)); assumption.
Qed.

(** What [Counter] keeps while it counts: the counts grow by one per item,
    stay positive, and no key is entered twice. *)
Lemma update_invariants items : forall c c',
  Counter.update c items = Ok c' ->
  counts_total c' = counts_total c + List.length items /\
  (Forall (fun e => 1 <= snd e) c -> Forall (fun e => 1 <= snd e) c') /\
  (distinct_keys c -> distinct_keys c').
Proof.
  induction items as [|x items IH]; intros c c' H; cbn [Counter.update] in H.
  - inversion H; subst. cbn. repeat split; auto.
  - destruct (Counter.hash_check x); cbn [rbind] in H; [|discriminate].
    destruct (IH _ _ H) as (Htotal & Hpos & Hdist).
    rewrite Htotal, incr_total. cbn [List.length]. repeat split.
    + lia.
    + intros Hc. apply Hpos. now apply incr_positive.
    + intros Hc. apply Hdist. now apply incr_distinct.
Qed.

(** X8. In every report that is returned, whatever the records hold, the
    counts of [sentiment_distribution] add up to [total_reviews], every
    count is at least 1, and no two entries have equal keys. *)
Theorem sentiment_distribution_counts {J : Json} (self : ReviewAnalyzer)
    (rs : list dict) (w : World) (rep : Report) (w' : World) :
  generate_report self rs w = (Ok rep, w') ->
  counts_total (sentiment_distribution rep) = total_reviews rep /\
  Forall (fun e => 1 <= snd e) (sentiment_distribution rep) /\
  distinct_keys (sentiment_distribution rep).
Proof.
  intros H.
  destruct (generate_report_fields self rs w rep w' H) as [Htotal _].
  destruct (generate_report_inv self rs w rep w' H)
    as (sentiments & ? & ? & Hcol & _ & Hcounter & _).
  destruct (update_invariants sentiments [] _ Hcounter) as (Hsum & Hpos & Hdist).
  rewrite Hsum, Htotal. cbn. split; [now apply column_length in Hcol|].
  split; [apply Hpos | apply Hdist]; constructor.
Qed.

Lemma sentiment_distribution_counts_witness :
  exists rep w',
    @generate_report Fixture.json Fixture.offline Fixture.four_labels initial_world
      = (Ok rep, w') /\
    counts_total (sentiment_distribution rep) = total_reviews rep /\
    Forall (fun e => 1 <= snd e) (sentiment_distribution rep) /\
    distinct_keys (sentiment_distribution rep).
Proof.
  eexists _, _. split; [vm_compute; reflexivity|].
  eapply (@sentiment_distribution_counts Fixture.json Fixture.offline
            Fixture.four_labels initial_world).
  vm_compute. reflexivity.
Defined.

(** ** The average of a returned report *)

Lemma percentage_nonempty sentiments label p :
  percentage sentiments label = Ok p -> sentiments <> [].
Proof.
  intros H Hnil. subst. discriminate.
Qed.

Lemma rounded_mean_of_mean scores average :
  scores <> [] ->
  rounded_mean scores = Ok average ->
  exists q r,
    mean scores = Ok (NFloat q) /\ average = NFloat r /\ Float.round q 2 = Ok r.
Proof.
  intros Hne H. unfold rounded_mean, mean in *.
  destruct scores as [|v vs]; [congruence|].
  destruct (py_sum (v :: vs)) as [total|e]; cbn [rbind] in *; [|discriminate].
  destruct (Float.int_truediv total (Z.of_nat (List.length (v :: vs)))) as [q|e];
    cbn [rbind] in *; [|discriminate].
  destruct (Float.round q 2) as [r|e] eqn:Hr; cbn [rbind] in *; [|discriminate].
  inversion H; subst. now exists q, r.
Qed.

(** X17. A report is only ever returned for at least one record, so its
    [average_rating] is always a float: the [0] of the guard
    [if scores else 0] cannot appear in a returned report. *)
Theorem returned_report_nonempty {J : Json} (self : ReviewAnalyzer)
    (rs : list dict) (w : World) (rep : Report) (w' : World) :
  generate_report self rs w = (Ok rep, w') ->
  1 <= total_reviews rep /\ exists r, average_rating rep = NFloat r.
Proof.
  intros H.
  destruct (generate_report_fields self rs w rep w' H) as [Htotal _].
  destruct (generate_report_inv self rs w rep w' H)
    as (sentiments & scores & ? & Hsent & Hscore & _ & Hmean & Hpos & _).
  pose proof (percentage_nonempty _ _ _ Hpos) as Hne.
  apply column_length in Hsent. apply column_length in Hscore.
  assert (Hscores : scores <> []).
  { destruct scores; [|discriminate]. destruct sentiments; [congruence|].
    cbn in *. lia. }
  destruct (rounded_mean_of_mean scores _ Hscores Hmean) as (q & r & _ & Hr & _).
  split; [|now exists r].
  rewrite Htotal, <- Hsent. destruct sentiments; [congruence | cbn; lia].
Qed.

Lemma returned_report_nonempty_witness :
  exists rep w',
    @generate_report Fixture.json Fixture.offline Fixture.two_scores initial_world
      = (Ok rep, w') /\
    1 <= total_reviews rep /\ exists r, average_rating rep = NFloat r.
Proof.
  eexists _, _. split; [vm_compute; reflexivity|].
  eapply (@returned_report_nonempty Fixture.json Fixture.offline
            Fixture.two_scores initial_world).
  vm_compute. reflexivity.
Defined.



(** ** Exact quotients *)

Section ExactDivision.

Local Open Scope Z_scope.

Lemma Zdigits2_ge m d : 0 <= d -> 2 ^ d <= m -> d + 1 <= Zdigits2 m.
Proof.
  intros Hd Hm.
  assert (H0 : 0 < 2 ^ d) by (apply Z.pow_pos_nonneg; lia).
  pose proof (Zdigits2_upper m ltac:(lia)) as Hup.
  pose proof (Zdigits2_nonneg m) as Hnn.
  destruct (Z_le_gt_dec (d + 1) (Zdigits2 m)) as [|Hgt]; [assumption|].
  assert (2 ^ Zdigits2 m <= 2 ^ d) by (apply Z.pow_le_mono_r; lia).
  lia.
Qed.

Lemma Zdigits2_mul k b :
  Zdigits2 (Zpos k) - 1 <= Zdigits2 (Zpos (k * b)) - Zdigits2 (Zpos b) <= Zdigits2 (Zpos k).
Proof.
  cbn [Zdigits2].
  pose proof (digits2_pos_upper k) as Hk1. pose proof (digits2_pos_lower k) as Hk2.
  pose proof (digits2_pos_upper b) as Hb1. pose proof (digits2_pos_lower b) as Hb2.
  set (dk := Zpos (digits2_pos k)) in *. set (db := Zpos (digits2_pos b)) in *.
  assert (Hdk : 1 <= dk) by (unfold dk; lia).
  assert (Hdb : 1 <= db) by (unfold db; lia).
  assert (Hpk : 0 < 2 ^ (dk - 1)) by (apply Z.pow_pos_nonneg; lia).
  assert (Hpb : 0 < 2 ^ (db - 1)) by (apply Z.pow_pos_nonneg; lia).
  assert (Hup : Zdigits2 (Zpos (k * b)) <= dk + db).
  { apply Zdigits2_le; try lia. rewrite Z.pow_add_r by lia. rewrite Pos2Z.inj_mul. nia. }
  assert (Hlow : (dk + db - 2) + 1 <= Zdigits2 (Zpos (k * b))).
  { apply Zdigits2_ge; try lia.
    replace (dk + db - 2) with ((dk - 1) + (db - 1)) by lia.
    rewrite Z.pow_add_r by lia. rewrite Pos2Z.inj_mul. nia. }
  cbn [Zdigits2] in Hup, Hlow. lia.
Qed.

(** Dividing a multiple [k * b] by [b]: the quotient is exact, so the result
    is the float of [k], whichever of the two possible digit counts the
    dividend has. *)
Lemma int_truediv_multiple k b f :
  Zdigits2 (Zpos k) <= 53 ->
  (forall d,
      Zdigits2 (Zpos k) - 1 <= d <= Zdigits2 (Zpos k) ->
      binary_round_aux Float.prec Float.emax false
        (Zpos k * 2 ^ (53 - d)) (d - 53) loc_Exact = f) ->
  mag_le 970 f ->
  Float.int_truediv (Zpos (k * b)) (Zpos b) = Ok f.
Proof.
  intros Hk Hround Hmag. unfold Float.int_truediv.
  cbn [Z.eqb Float.raw SFdiv]. unfold SFdiv_core_binary.
  pose proof (Zdigits2_mul k b) as Hd.
  set (d := Zdigits2 (Zpos (k * b)) - Zdigits2 (Zpos b)) in *.
  replace (Zdigits2 (Zpos (k * b)) + 0 - (Zdigits2 (Zpos b) + 0)) with d by (unfold d; lia).
  pose proof (Zdigits2_nonneg (Zpos k)) as Hnn.
  assert (He : Z.min (fexp Float.prec Float.emax d) (0 - 0) = d - 53).
  { unfold fexp, emin, Float.prec, Float.emax. lia. }
  rewrite He.
  assert (Hm : match 0 - 0 - (d - 53) with
               | 0 => Zpos (k * b)
               | Zpos _ => Z.shiftl (Zpos (k * b)) (0 - 0 - (d - 53))
               | Zneg _ => 0
               end = Zpos k * 2 ^ (53 - d) * Zpos b).
  { destruct (0 - 0 - (d - 53)) as [|p|p] eqn:Es.
    - replace (53 - d) with 0 by lia. rewrite Pos2Z.inj_mul. simpl. lia.
    - rewrite Z.shiftl_mul_pow2 by lia. rewrite Pos2Z.inj_mul.
      replace (53 - d) with (Zpos p) by lia. ring.
    - lia. }
  rewrite Hm.
  assert (Hdiv : Z.div_eucl (Zpos k * 2 ^ (53 - d) * Zpos b) (Zpos b)
                 = (Zpos k * 2 ^ (53 - d), 0)).
  { pose proof (Z.div_eucl_eq (Zpos k * 2 ^ (53 - d) * Zpos b) (Zpos b) ltac:(lia)) as Heq.
    pose proof (Z.mod_pos_bound (Zpos k * 2 ^ (53 - d) * Zpos b) (Zpos b) ltac:(lia)) as Hmod.
    pose proof (Z_div_mult (Zpos k * 2 ^ (53 - d)) (Zpos b) ltac:(lia)) as Hq.
    pose proof (Z_mod_mult (Zpos k * 2 ^ (53 - d)) (Zpos b)) as Hr.
    unfold Z.div, Z.modulo in *.
    destruct (Z.div_eucl (Zpos k * 2 ^ (53 - d) * Zpos b) (Zpos b)) as [q r].
    now subst. }
  rewrite Hdiv.
  replace (new_location (Zpos b) 0) with loc_Exact
    by (unfold new_location, new_location_even, new_location_odd;
        destruct (Z.even (Zpos b)); reflexivity).
  cbv beta iota. cbn [xorb].
  rewrite (Hround d Hd).
  destruct f; try contradiction; reflexivity.
Qed.

Lemma int_truediv_self n : 0 < n -> Float.int_truediv n n = Ok (Float.of_Z 1).
Proof.
  intros Hn. destruct n as [|b|b]; try lia.
  replace (Zpos b) with (Zpos (1 * b)) at 1 by reflexivity.
  apply int_truediv_multiple.
  - vm_compute. discriminate.
  - intros d Hd. cbn [Zdigits2 digits2_pos] in Hd.
    assert (Hcases : d = 0 \/ d = 1) by lia.
    destruct Hcases; subst d; vm_compute; reflexivity.
  - vm_compute. discriminate.
Qed.

Lemma int_truediv_triple n : 0 < n -> Float.int_truediv (3 * n) n = Ok (Float.of_Z 3).
Proof.
  intros Hn. destruct n as [|b|b]; try lia.
  replace (3 * Zpos b) with (Zpos (3 * b)) by reflexivity.
  apply int_truediv_multiple.
  - vm_compute. discriminate.
  - intros d Hd. cbn [Zdigits2 digits2_pos] in Hd.
    assert (Hcases : d = 1 \/ d = 2) by lia.
    destruct Hcases; subst d; vm_compute; reflexivity.
  - vm_compute. discriminate.
Qed.

Lemma int_truediv_zero n : 0 < n -> Float.int_truediv 0 n = Ok (S754_zero false).
Proof.
  intros Hn. destruct n as [|b|b]; try lia. reflexivity.
Qed.

End ExactDivision.

(** ** The report of well-formed records, in full *)

Lemma generate_report_run {J : Json} (self : ReviewAnalyzer) rs w avg pos neg neu prompt :
  all_well_formed rs -> rs <> [] ->
  spec_average_rating rs = Ok avg ->
  spec_percentage "positive" rs = Ok pos ->
  spec_percentage "negative" rs = Ok neg ->
  spec_percentage "neutral" rs = Ok neu ->
  summary_prompt rs = Ok prompt ->
  generate_report self rs w =
    (Ok {| total_reviews := List.length rs;
           sentiment_distribution := tally (map sentiment_of rs);
           average_rating := NFloat avg;
           positive_percentage := pos;
           negative_percentage := neg;
           neutral_percentage := neu;
           summary := summary_text (client self (calls w) (summary_request self prompt));
           detailed_results := rs |},
     {| calls := calls w ++ [summary_request self prompt]; stdout := stdout w |}).
Proof.
  intros Hwf Hne Havg Hpos Hneg Hneu Hprompt.
  unfold generate_report.
  rewrite (bind_ok _ _ _ _ _ (lift_ok _ _ w (column_sentiment rs Hwf))).
  rewrite (bind_ok _ _ _ _ _ (lift_ok _ _ w (column_score rs Hwf))).
  rewrite sentiments_as_strings at 1.
  rewrite (bind_ok _ _ _ _ _ (lift_ok _ _ w (Counter_make_strings _))).
  rewrite (bind_ok _ _ _ _ _ (lift_ok _ _ w (rounded_mean_scores rs avg Hne Havg))).
  rewrite !percentage_sentiments.
  rewrite (bind_ok _ _ _ _ _ (lift_ok _ _ w Hpos)).
  rewrite (bind_ok _ _ _ _ _ (lift_ok _ _ w Hneg)).
  rewrite (bind_ok _ _ _ _ _ (lift_ok _ _ w Hneu)).
  rewrite (bind_ok _ _ _ _ _ (generate_summary_run self rs prompt w Hprompt)).
  reflexivity.
Qed.

Lemma labelled_all label rs :
  (forall r, In r rs -> sentiment_of r = label) -> labelled label rs = List.length rs.
Proof.
  unfold labelled. induction rs as [|r rs IH]; intros Hall; [reflexivity|].
  cbn [filter]. rewrite (Hall r (or_introl eq_refl)), String.eqb_refl.
  cbn [List.length]. rewrite IH; [reflexivity|]. intros r' Hr'. apply Hall. now right.
Qed.

Lemma labelled_none label rs :
  (forall r, In r rs -> sentiment_of r <> label) -> labelled label rs = 0.
Proof.
  unfold labelled. induction rs as [|r rs IH]; intros Hnone; [reflexivity|].
  cbn [filter]. pose proof (Hnone r (or_introl eq_refl)) as Hr.
  apply String.eqb_neq in Hr. rewrite Hr.
  apply IH. intros r' Hr'. apply Hnone. now right.
Qed.

Lemma length_pos_Z {A} (l : list A) : l <> [] -> (0 < Z.of_nat (List.length l))%Z.
Proof. destruct l; [congruence | cbn [List.length]; lia]. Qed.

Lemma spec_percentage_all label rs :
  rs <> [] ->
  (forall r, In r rs -> sentiment_of r = label) ->
  spec_percentage label rs = Ok (Float.of_decimal 1000 1).
Proof.
  intros Hne Hall. unfold spec_percentage.
  rewrite (labelled_all label rs Hall).
  rewrite (int_truediv_self _ (length_pos_Z rs Hne)). vm_compute. reflexivity.
Qed.

Lemma spec_percentage_none label rs :
  rs <> [] ->
  (forall r, In r rs -> sentiment_of r <> label) ->
  spec_percentage label rs = Ok (Float.of_decimal 0 1).
Proof.
  intros Hne Hnone. unfold spec_percentage.
  rewrite (labelled_none label rs Hnone).
  change (Z.of_nat 0) with 0%Z.
  rewrite (int_truediv_zero _ (length_pos_Z rs Hne)). vm_compute. reflexivity.
Qed.

(** X9. In the report of well-formed records a label that every record
    carries gets exactly 100.0, and a label that no record carries gets
    exactly 0.0, however many records there are. *)
Theorem percentage_extremes {J : Json} (self : ReviewAnalyzer)
    (rs : list dict) (w : World) :
  all_well_formed rs -> rs <> [] ->
  exists rep w',
    generate_report self rs w = (Ok rep, w') /\
    ((forall r, In r rs -> sentiment_of r = "positive") ->
     positive_percentage rep = Float.of_decimal 1000 1) /\
    ((forall r, In r rs -> sentiment_of r <> "positive") ->
     positive_percentage rep = Float.of_decimal 0 1) /\
    ((forall r, In r rs -> sentiment_of r = "negative") ->
     negative_percentage rep = Float.of_decimal 1000 1) /\
    ((forall r, In r rs -> sentiment_of r <> "negative") ->
     negative_percentage rep = Float.of_decimal 0 1) /\
    ((forall r, In r rs -> sentiment_of r = "neutral") ->
     neutral_percentage rep = Float.of_decimal 1000 1) /\
    ((forall r, In r rs -> sentiment_of r <> "neutral") ->
     neutral_percentage rep = Float.of_decimal 0 1).
Proof.
  intros Hwf Hne.
  destruct (generate_report_well_formed self rs w Hwf Hne)
    as (rep & w' & avg & pos & neg & neu & Hrun & _ & Hpos & Hneg & Hneu
        & _ & H2 & H3 & H4 & _).
  exists rep, w'. split; [exact Hrun|].
  rewrite H2, H3, H4.
  repeat split; intros Hall.
  - pose proof (spec_percentage_all "positive" rs Hne Hall). congruence.
  - pose proof (spec_percentage_none "positive" rs Hne Hall). congruence.
  - pose proof (spec_percentage_all "negative" rs Hne Hall). congruence.
  - pose proof (spec_percentage_none "negative" rs Hne Hall). congruence.
  - pose proof (spec_percentage_all "neutral" rs Hne Hall). congruence.
  - pose proof (spec_percentage_none "neutral" rs Hne Hall). congruence.
Qed.

Lemma percentage_extremes_witness :
  exists rep w',
    @generate_report Fixture.json Fixture.offline
      [Fixture.record "positive" 5 "Great!"; Fixture.record "positive" 4 "Good";
       Fixture.record "positive" 4 "Nice"] initial_world = (Ok rep, w') /\
    positive_percentage rep = Float.of_decimal 1000 1 /\
    negative_percentage rep = Float.of_decimal 0 1.
Proof.
  destruct (@percentage_extremes Fixture.json Fixture.offline
              [Fixture.record "positive" 5 "Great!"; Fixture.record "positive" 4 "Good";
               Fixture.record "positive" 4 "Nice"] initial_world)
    as (rep & w' & Hrun & Hall & _ & _ & Hnone & _).
  - repeat constructor.
  - discriminate.
  - exists rep, w'. split; [exact Hrun|]. split.
    + apply Hall. intros r [<-|[<-|[<-|[]]]]; reflexivity.
    + apply Hnone. intros r [<-|[<-|[<-|[]]]]; discriminate.
Defined.

(** ** From the reviews to the report *)

Lemma fallback_well_formed review e : well_formed (fallback review e) = true.
Proof. reflexivity. Qed.

Lemma has_set_other d key key' v p :
  key <> key' -> has (Dict.set d key v) key' p = has d key' p.
Proof. intros Hne. unfold has. now rewrite lookup_set_other. Qed.

Lemma may_have_set_other d key key' v p :
  key <> key' -> may_have (Dict.set d key v) key' p = may_have d key' p.
Proof. intros Hne. unfold may_have. now rewrite lookup_set_other. Qed.

(** A reply that follows the schema becomes a well-formed record. *)
Lemma schema_well_formed d review :
  follows_schema d = true -> well_formed (Dict.set d "review" (VStr review)) = true.
Proof.
  unfold follows_schema, well_formed. intros H.
  rewrite (has_set_other d "review" "sentiment") by discriminate.
  rewrite (has_set_other d "review" "score") by discriminate.
  rewrite !may_have_set_other by discriminate.
  unfold has at 1. rewrite lookup_set_same. cbn [is_string andb]. exact H.
Qed.

Section Pipeline.

Context {J : Json}.
Variable self : ReviewAnalyzer.

Lemma record_after_cases history review :
  (exists text d,
      client self history (sentiment_request self review) = Replies text /\
      json_loads text = Ok (VDict d) /\
      record_after self history review = Dict.set d "review" (VStr review)) \/
  (exists e,
      extraction_fails self review {| calls := history; stdout := [] |} e /\
      record_after self history review = fallback review e).
Proof.
  unfold record_after.
  destruct (extraction_outcome self review {| calls := history; stdout := [] |})
    as [(text & d & Hreply & Hparse) | (e & Hfail)].
  - left. exists text, d. split; [exact Hreply|]. split; [exact Hparse|].
    now rewrite (analyze_sentiment_success self review _ text d Hreply Hparse).
  - right. exists e. split; [exact Hfail|].
    now rewrite (analyze_sentiment_failure self review _ e Hfail).
Qed.

Lemma batch_records_Forall (P : string -> dict -> Prop) reviews :
  (forall history review, P review (record_after self history review)) ->
  forall history, Forall2 P reviews (batch_records self history reviews).
Proof.
  intros HP. induction reviews as [|review reviews IH]; intros history;
    cbn [batch_records]; constructor; auto.
Qed.

Lemma record_after_conforming history review :
  conforming (client self) ->
  well_formed (record_after self history review) = true.
Proof.
  intros Hconf.
  destruct (record_after_cases history review)
    as [(text & d & Hreply & Hparse & ->) | (e & _ & ->)].
  - apply schema_well_formed. eapply Hconf; eauto.
  - apply fallback_well_formed.
Qed.

Lemma record_after_down history review :
  down (client self) ->
  exists e, record_after self history review = fallback review e.
Proof.
  intros Hdown.
  destruct (record_after_cases history review)
    as [(text & d & Hreply & _) | (e & _ & Heq)].
  - destruct (Hdown history (sentiment_request self review)) as (e & He). congruence.
  - now exists e.
Qed.

End Pipeline.

Lemma Forall2_right {A B} (P : B -> Prop) (l : list A) (l' : list B) :
  Forall2 (fun _ b => P b) l l' -> Forall P l'.
Proof. induction 1; constructor; auto. Qed.

(** X18. If every reply that parses to a JSON object follows the requested
    schema (string sentiment, integer score from 1 to 5, lists of strings),
    then, whatever else the service does (errors, prose, other JSON), a
    non-empty batch followed by [generate_report] returns a report over all
    the reviews. *)
Theorem pipeline_returns {J : Json} (self : ReviewAnalyzer)
    (reviews : list string) (verbose : bool) (w : World) :
  conforming (client self) -> reviews <> [] ->
  exists records w1 rep w2,
    analyze_batch self reviews verbose w = (Ok records, w1) /\
    all_well_formed records /\
    generate_report self records w1 = (Ok rep, w2) /\
    total_reviews rep = List.length reviews /\
    detailed_results rep = records.
Proof.
  intros Hconf Hne.
  destruct (analyze_batch_records self reviews verbose w) as (w1 & Hrun & _).
  pose proof (batch_records_Forall self (fun _ r => well_formed r = true) reviews
                (fun history review => record_after_conforming self history review Hconf)
                (calls w)) as Hall.
  assert (Hlen : List.length (batch_records self (calls w) reviews) = List.length reviews)
    by (symmetry; eapply Forall2_length; eauto).
  apply Forall2_right in Hall.
  assert (Hne' : batch_records self (calls w) reviews <> [])
    by (intros E; rewrite E in Hlen; destruct reviews; [congruence | discriminate]).
  destruct (generate_report_well_formed self _ w1 Hall Hne')
    as (rep & w2 & ? & ? & ? & ? & Hrep & _).
  destruct (generate_report_fields self _ _ _ _ Hrep) as [Htotal Hdetail].
  exists (batch_records self (calls w) reviews), w1, rep, w2.
  repeat split; auto. congruence.
Qed.

Lemma pipeline_returns_witness :
  exists records w1 rep w2,
    @analyze_batch Fixture.json Fixture.well_behaved ["Good product"; "Bad quality"]
      false initial_world = (Ok records, w1) /\
    all_well_formed records /\
    @generate_report Fixture.json Fixture.well_behaved records w1 = (Ok rep, w2) /\
    total_reviews rep = 2 /\
    detailed_results rep = records.
Proof.
  apply (@pipeline_returns Fixture.json Fixture.well_behaved
           ["Good product"; "Bad quality"] false initial_world).
  - intros history req text d Hreply Hparse.
    inversion Hreply; subst text. vm_compute in Hparse.
    inversion Hparse; subst d. reflexivity.
  - discriminate.
Defined.

Lemma total_score_constant rs z :
  (forall r, In r rs -> score_of r = z) ->
  total_score rs = (z * Z.of_nat (List.length rs))%Z.
Proof.
  unfold total_score. induction rs as [|r rs IH]; intros Hall; [cbn; lia|].
  cbn [map fold_right List.length]. rewrite (Hall r (or_introl eq_refl)).
  rewrite IH by (intros r' Hr'; apply Hall; now right). lia.
Qed.

Lemma spec_average_rating_threes rs :
  rs <> [] ->
  (forall r, In r rs -> score_of r = 3%Z) ->
  spec_average_rating rs = Ok (Float.of_decimal 30 1).
Proof.
  intros Hne Hall. unfold spec_average_rating.
  rewrite (total_score_constant rs 3 Hall).
  rewrite (int_truediv_triple _ (length_pos_Z rs Hne)). vm_compute. reflexivity.
Qed.

(** X10. When the service fails every request, a non-empty batch followed
    by [generate_report] still returns: every record is the neutral fallback
    with an [error] entry, and the report shows 100.0 percent neutral, 0.0
    percent positive and negative, an average of 3.0, and the error text in
    place of the summary.  A report of a dead service is thus a report of
    all-neutral reviews. *)
Theorem degraded_pipeline {J : Json} (self : ReviewAnalyzer)
    (reviews : list string) (verbose : bool) (w : World) :
  down (client self) -> reviews <> [] ->
  exists records w1 rep w2,
    analyze_batch self reviews verbose w = (Ok records, w1) /\
    Forall2 (fun review r => exists e, r = fallback review e) reviews records /\
    generate_report self records w1 = (Ok rep, w2) /\
    total_reviews rep = List.length reviews /\
    average_rating rep = NFloat (Float.of_decimal 30 1) /\
    neutral_percentage rep = Float.of_decimal 1000 1 /\
    positive_percentage rep = Float.of_decimal 0 1 /\
    negative_percentage rep = Float.of_decimal 0 1 /\
    exists e, summary rep = ("Error generating summary: " ++ exn_str e)%string.
Proof.
  intros Hdown Hne.
  destruct (analyze_batch_records self reviews verbose w) as (w1 & Hrun & _).
  set (records := batch_records self (calls w) reviews) in *.
  assert (Hfall : Forall2 (fun review r => exists e, r = fallback review e) reviews records).
  { apply batch_records_Forall. intros history review.
    now apply record_after_down. }
  assert (Hlen : List.length records = List.length reviews)
    by (symmetry; eapply Forall2_length; eauto).
  assert (Hall : forall r, In r records -> exists review e, r = fallback review e).
  { clear - Hfall. induction Hfall as [|review r ? ? (e & ->) _ IH]; intros r' Hin;
      [contradiction|].
    destruct Hin as [<-|Hin]; [now exists review, e | now apply IH]. }
  assert (Hwf : all_well_formed records).
  { apply Forall_forall. intros r Hr. destruct (Hall r Hr) as (? & ? & ->). reflexivity. }
  assert (Hne' : records <> [])
    by (intros E; rewrite E in Hlen; destruct reviews; [congruence | discriminate]).
  assert (Havg : spec_average_rating records = Ok (Float.of_decimal 30 1)).
  { apply spec_average_rating_threes; [exact Hne'|].
    intros r Hr. destruct (Hall r Hr) as (? & ? & ->). reflexivity. }
  assert (Hneu : spec_percentage "neutral" records = Ok (Float.of_decimal 1000 1)).
  { apply spec_percentage_all; [exact Hne'|].
    intros r Hr. destruct (Hall r Hr) as (? & ? & ->). reflexivity. }
  assert (Hpos : spec_percentage "positive" records = Ok (Float.of_decimal 0 1)).
  { apply spec_percentage_none; [exact Hne'|].
    intros r Hr. destruct (Hall r Hr) as (? & ? & ->). discriminate. }
  assert (Hneg : spec_percentage "negative" records = Ok (Float.of_decimal 0 1)).
  { apply spec_percentage_none; [exact Hne'|].
    intros r Hr. destruct (Hall r Hr) as (? & ? & ->). discriminate. }
  destruct (summary_prompt_ok records Hwf) as (prompt & Hprompt).
  destruct (Hdown (calls w1) (summary_request self prompt)) as (e & He).
  eexists records, w1, _, _. split; [exact Hrun|]. split; [exact Hfall|].
  split; [exact (generate_report_run self records w1 _ _ _ _ prompt
                   Hwf Hne' Havg Hpos Hneg Hneu Hprompt)|].
  cbn [total_reviews average_rating neutral_percentage positive_percentage
       negative_percentage summary].
  repeat split; auto. exists e. now rewrite He.
Qed.

Lemma degraded_pipeline_witness :
  exists records w1 rep w2,
    @analyze_batch Fixture.json Fixture.offline ["Good product"; "Bad quality"; "Average"]
      false initial_world = (Ok records, w1) /\
    Forall2 (fun review r => exists e, r = fallback review e)
      ["Good product"; "Bad quality"; "Average"] records /\
    @generate_report Fixture.json Fixture.offline records w1 = (Ok rep, w2) /\
    total_reviews rep = 3 /\
    average_rating rep = NFloat (Float.of_decimal 30 1) /\
    neutral_percentage rep = Float.of_decimal 1000 1 /\
    positive_percentage rep = Float.of_decimal 0 1 /\
    negative_percentage rep = Float.of_decimal 0 1 /\
    exists e, summary rep = ("Error generating summary: " ++ exn_str e)%string.
Proof.
  apply (@degraded_pipeline Fixture.json Fixture.offline
           ["Good product"; "Bad quality"; "Average"] false initial_world).
  - intros history req. exists Fixture.connection_error. reflexivity.
  - discriminate.
Defined.

(** X15. A failing summary call does not block the report: for well-formed
    records the report is returned either way, and its [summary] is the
    reply of the service or, when the call raises [e], the text
    "Error generating summary: " followed by [str(e)]. *)
Theorem summary_failure_keeps_report {J : Json} (self : ReviewAnalyzer)
    (rs : list dict) (w : World) :
  all_well_formed rs -> rs <> [] ->
  exists prompt rep w',
    summary_prompt rs = Ok prompt /\
    generate_report self rs w = (Ok rep, w') /\
    (forall e,
        client self (calls w) (summary_request self prompt) = Fails e ->
        summary rep = ("Error generating summary: " ++ exn_str e)%string) /\
    (forall reply,
        client self (calls w) (summary_request self prompt) = Replies reply ->
        summary rep = reply).
Proof.
  intros Hwf Hne.
  destruct (spec_average_rating_ok rs Hwf Hne) as (q & avg & _ & _ & _ & Havg).
  destruct (spec_percentage_ok "positive" rs Hne) as (pos & Hpos).
  destruct (spec_percentage_ok "negative" rs Hne) as (neg & Hneg).
  destruct (spec_percentage_ok "neutral" rs Hne) as (neu & Hneu).
  destruct (summary_prompt_ok rs Hwf) as (prompt & Hprompt).
  exists prompt. eexists _, _. split; [exact Hprompt|].
  split; [exact (generate_report_run self rs w avg pos neg neu prompt
                   Hwf Hne Havg Hpos Hneg Hneu Hprompt)|].
  cbn [summary]. split; intros ? ->; reflexivity.
Qed.

Lemma summary_failure_keeps_report_witness :
  exists prompt rep w',
    @summary_prompt Fixture.json Fixture.two_scores = Ok prompt /\
    @generate_report Fixture.json Fixture.offline Fixture.two_scores initial_world
      = (Ok rep, w') /\
    summary rep = "Error generating summary: Connection error.".
Proof.
  destruct (@summary_failure_keeps_report Fixture.json Fixture.offline
              Fixture.two_scores initial_world)
    as (prompt & rep & w' & Hprompt & Hrun & Hfail & _).
  - repeat constructor.
  - discriminate.
  - exists prompt, rep, w'. split; [exact Hprompt|]. split; [exact Hrun|].
    apply (Hfail Fixture.connection_error). reflexivity.
Defined.

(** ** Scores that are not numbers *)

Lemma py_sum_from_non_number l :
  (exists v, In v l /\ is_number v = false) ->
  forall acc, exists msg, py_sum_from acc l = Raise (TypeError msg).
Proof.
  intros (v & Hin & Hv). induction l as [|x l IH]; [contradiction|]. intros acc.
  destruct Hin as [->|Hin].
  - destruct v; try discriminate; cbn; eexists; reflexivity.
  - destruct x; cbn [py_sum_from]; try (eexists; reflexivity); now apply IH.
Qed.

Lemma column_strings key rs :
  (forall r, In r rs -> has r key is_string = true) ->
  column key rs = Ok (map VStr (map (fun r => text_of (Dict.get r key VNone)) rs)).
Proof.
  intros Hall. rewrite column_present.
  - f_equal. rewrite map_map. apply map_ext_in. intros r Hr.
    specialize (Hall r Hr). unfold has, Dict.get in *.
    destruct (Dict.lookup r key) as [[]|]; try discriminate. reflexivity.
  - intros r Hr. specialize (Hall r Hr). rewrite mem_lookup. unfold has in Hall.
    now destruct (Dict.lookup r key).
Qed.

(** X16. When every record has a string [sentiment] and a [score], but some
    score is not a number (the string "4", [None], a list), [generate_report]
    raises a [TypeError] from [sum(scores)] and sends nothing. *)
Theorem non_numeric_score_raises {J : Json} (self : ReviewAnalyzer)
    (rs : list dict) (w : World) :
  (forall r, In r rs -> has r "sentiment" is_string = true /\ Dict.mem r "score" = true) ->
  (exists r, In r rs /\ has r "score" is_number = false) ->
  exists msg, generate_report self rs w = (Raise (TypeError msg), w).
Proof.
  intros Hall (r & Hin & Hscore).
  assert (Hsent : column "sentiment" rs
                  = Ok (map VStr (map (fun r => text_of (Dict.get r "sentiment" VNone)) rs)))
    by (apply column_strings; intros r' Hr'; now apply Hall).
  assert (Hcol : column "score" rs = Ok (map (fun r => Dict.get r "score" VNone) rs))
    by (apply column_present; intros r' Hr'; now apply Hall).
  assert (Hbad : exists v, In v (map (fun r => Dict.get r "score" VNone) rs) /\
                           is_number v = false).
  { exists (Dict.get r "score" VNone).
    split; [exact (in_map (fun r => Dict.get r "score" VNone) rs r Hin)|].
    destruct (Hall r Hin) as [_ Hmem]. rewrite mem_lookup in Hmem.
    unfold has, Dict.get in *. now destruct (Dict.lookup r "score"). }
  destruct (py_sum_from_non_number _ Hbad 0%Z) as (msg & Hsum).
  exists msg. unfold generate_report.
  rewrite (bind_ok _ _ _ _ _ (lift_ok _ _ w Hsent)).
  rewrite (bind_ok _ _ _ _ _ (lift_ok _ _ w Hcol)).
  rewrite (bind_ok _ _ _ _ _ (lift_ok _ _ w (Counter_make_strings _))).
  apply bind_raise. apply lift_raise.
  unfold rounded_mean, py_sum.
  destruct (map (fun r => Dict.get r "score" VNone) rs) as [|v vs] eqn:Es.
  - destruct Hbad as (? & [] & _).
  - now rewrite Hsum.
Qed.

Lemma non_numeric_score_raises_witness :
  exists msg,
    @generate_report Fixture.json Fixture.offline
      [[("sentiment", VStr "positive"); ("score", VStr "4"); ("review", VStr "Good")]]
      initial_world = (Raise (TypeError msg), initial_world).
Proof.
  apply (@non_numeric_score_raises Fixture.json Fixture.offline
           [[("sentiment", VStr "positive"); ("score", VStr "4"); ("review", VStr "Good")]]
           initial_world).
  - intros r [<-|[]]. split; reflexivity.
  - eexists. split; [left; reflexivity | reflexivity].
Defined.

(** ** The sample reviews of the summary prompt *)

Lemma take_len n s : Utf8.len (Utf8.take n s) = Nat.min n (Utf8.len s).
Proof.
  revert n. induction s as [|c s IH]; intros n; cbn [Utf8.take Utf8.len].
  - now rewrite Nat.min_0_r.
  - destruct (Utf8.continuation c) eqn:Ec.
    + cbn [Utf8.len]. rewrite Ec. apply IH.
    + destruct n as [|n]; [reflexivity|].
      cbn [Utf8.len]. rewrite Ec, IH. reflexivity.
Qed.

Lemma append_len s1 s2 : Utf8.len (s1 ++ s2) = Utf8.len s1 + Utf8.len s2.
Proof.
  induction s1 as [|c s1 IH]; cbn [append Utf8.len]; [reflexivity|].
  destruct (Utf8.continuation c); now rewrite IH.
Qed.

Lemma sample_well_formed r :
  well_formed r = true ->
  exists s,
    sample r = Ok (VStr s) /\
    Utf8.len s <= 203 /\
    (Utf8.len (review_of r) <= 200 -> s = review_of r) /\
    (200 < Utf8.len (review_of r) ->
     s = (Utf8.take 200 (review_of r) ++ "...")%string /\
     Utf8.len s = 203).
Proof.
  intros Hwf. destruct (well_formed_inv r Hwf) as (rv & ? & ? & Hrv & _).
  assert (Hreview : review_of r = rv) by (unfold review_of, Dict.get; now rewrite Hrv).
  unfold sample, Dict.getitem. rewrite Hrv, Hreview. cbn [rbind py_len].
  destruct (Nat.ltb_spec 200 (Utf8.len rv)) as [Hlong|Hshort].
  - eexists. split; [reflexivity|].
    assert (Hlen : Utf8.len (Utf8.take 200 rv ++ "...") = 203).
    { rewrite append_len, take_len. change (Utf8.len "...") with 3. lia. }
    repeat split; auto; lia.
  - exists rv. repeat split; auto; lia.
Qed.

Lemma take_prefix n s :
  exists rest, s = (Utf8.take n s ++ rest)%string /\ Utf8.starts_inside rest = false.
Proof.
  revert n. induction s as [|c s IH]; intros n; cbn [Utf8.take].
  - now exists EmptyString.
  - destruct (Utf8.continuation c) eqn:Ec.
    + destruct (IH n) as (rest & Hrest & Hin). exists rest. split; [|exact Hin].
      cbn [append]. now rewrite <- Hrest.
    + destruct n as [|n].
      * exists (String c s). split; [reflexivity | exact Ec].
      * destruct (IH n) as (rest & Hrest & Hin). exists rest. split; [|exact Hin].
        cbn [append]. now rewrite <- Hrest.
Qed.

(** An accented letter counts once, whatever its number of bytes. *)
Example len_counts_characters :
  Utf8.len (Fixture.times Fixture.e_acute 150) = 150 /\
  String.length (Fixture.times Fixture.e_acute 150) = 300 /\
  Utf8.take 200 (Fixture.times Fixture.e_acute 250) = Fixture.times Fixture.e_acute 200 /\
  py_iter (VStr ("a" ++ Fixture.e_acute ++ "b")) =
    Ok [VStr "a"; VStr Fixture.e_acute; VStr "b"].
Proof. repeat split; vm_compute; reflexivity. Qed.

(** X11. For well-formed records the summary prompt shows the first five
    reviews at most, each as it is when it has up to 200 characters and cut
    to its first 200 characters plus "..." otherwise, so never more than 203
    characters.  Characters are counted as Python counts them, by code
    point: the cut is a prefix of the review that ends at a character
    boundary and holds exactly 200 characters. *)
Theorem sample_reviews_bounded (rs : list dict) :
  all_well_formed rs ->
  exists shown,
    samples (firstn 5 rs) = Ok shown /\
    List.length shown = Nat.min 5 (List.length rs) /\
    forall i r,
      i < 5 -> nth_error rs i = Some r ->
      exists s,
        nth_error shown i = Some (VStr s) /\
        Utf8.len s <= 203 /\
        (Utf8.len (review_of r) <= 200 -> s = review_of r) /\
        (200 < Utf8.len (review_of r) ->
         exists cut rest,
           s = (cut ++ "...")%string /\
           review_of r = (cut ++ rest)%string /\
           Utf8.starts_inside rest = false /\
           Utf8.len cut = 200 /\
           cut = Utf8.take 200 (review_of r) /\
           Utf8.len s = 203).
Proof.
  intros Hwf.
  assert (Hall : forall l, all_well_formed l ->
            exists shown,
              samples l = Ok shown /\
              Forall2 (fun r v => exists s,
                         v = VStr s /\
                         Utf8.len s <= 203 /\
                         (Utf8.len (review_of r) <= 200 -> s = review_of r) /\
                         (200 < Utf8.len (review_of r) ->
                          s = (Utf8.take 200 (review_of r) ++ "...")%string /\
                          Utf8.len s = 203)) l shown).
  { induction 1 as [|r l Hr Hl (shown & Hshown & Hrel)].
    - exists []. split; [reflexivity | constructor].
    - destruct (sample_well_formed r Hr) as (s & Hs & Hfacts).
      exists (VStr s :: shown). split.
      + cbn [samples]. rewrite Hs. cbn [rbind]. now rewrite Hshown.
      + constructor; [now exists s | assumption]. }
  destruct (Hall (firstn 5 rs) (all_well_formed_firstn 5 rs Hwf)) as (shown & Hshown & Hrel).
  exists shown. split; [exact Hshown|]. split.
  - rewrite <- (Forall2_length Hrel). apply length_firstn.
  - intros i r Hi Hnth.
    assert (Hfirst : nth_error (firstn 5 rs) i = Some r)
      by (rewrite nth_error_firstn; destruct (Nat.ltb_spec i 5); [assumption | lia]).
    destruct (Forall2_nth_error _ _ _ Hrel i r Hfirst)
      as (v & Hv & s & -> & Hbound & Hshort & Hlong).
    exists s. split; [exact Hv|]. split; [exact Hbound|]. split; [exact Hshort|].
    intros Hlen. destruct (Hlong Hlen) as [Hs Hs203].
    destruct (take_prefix 200 (review_of r)) as (rest & Hrest & Hin).
    exists (Utf8.take 200 (review_of r)), rest.
    repeat split; try assumption.
    rewrite take_len. lia.
Qed.

Lemma sample_reviews_bounded_witness :
  exists shown,
    samples (firstn 5 Fixture.accented) = Ok shown /\
    nth_error shown 0 = Some (VStr (Fixture.times Fixture.e_acute 150)) /\
    nth_error shown 1 = Some (VStr (Fixture.times Fixture.e_acute 200 ++ "...")%string).
Proof.
  destruct (sample_reviews_bounded Fixture.accented) as (shown & Hshown & _ & Hnth).
  - repeat constructor.
  - exists shown. split; [exact Hshown|]. split.
    + destruct (Hnth 0 _ ltac:(lia) eq_refl) as (s & Hs & _ & Hshort & _).
      rewrite Hs, Hshort; [reflexivity|]. apply Nat.leb_le. vm_compute. reflexivity.
    + destruct (Hnth 1 _ ltac:(lia) eq_refl) as (s & Hs & _ & _ & Hlong).
      destruct Hlong as (cut & rest & -> & _ & _ & _ & -> & _).
      { apply Nat.ltb_lt. vm_compute. reflexivity. }
      rewrite Hs. vm_compute. reflexivity.
Defined.

(** ** What the list of common points contains *)

Lemma top_ranked_listing n items selected :
  top_ranked n items selected ->
  NoDup selected /\
  List.length selected <= n /\
  (forall p, In p selected -> In p items) /\
  (List.length (uniq items) <= n -> forall p, In p items -> In p selected).
Proof.
  intros (rest & Hperm & _ & Hlen).
  assert (Hnd : NoDup (selected ++ rest))
    by (eapply Permutation_NoDup; [symmetry; exact Hperm | apply uniq_NoDup]).
  split; [now apply NoDup_app_remove_r in Hnd|].
  split; [lia|]. split.
  - intros p Hp. apply uniq_In. eapply Permutation_in; [exact Hperm|].
    apply in_or_app. now left.
  - intros Hsmall p Hp.
    assert (Hrest : rest = []).
    { apply Permutation_length in Hperm. rewrite length_app in Hperm.
      destruct rest; [reflexivity | cbn in Hperm; lia]. }
    subst rest. rewrite app_nil_r in Hperm.
    eapply Permutation_in; [symmetry; exact Hperm|]. now apply uniq_In.
Qed.

Lemma in_concat_map {A B} (f : A -> list B) (l : list A) (b : B) :
  In b (List.concat (map f l)) <-> exists a, In a l /\ In b (f a).
Proof.
  rewrite in_concat. split.
  - intros (bs & Hbs & Hb). apply in_map_iff in Hbs. destruct Hbs as (a & <- & Ha).
    now exists a.
  - intros (a & Ha & Hb). exists (f a). split; [now apply in_map | assumption].
Qed.

(** X12. For well-formed records the list of common points has no
    duplicates and at most 10 entries, every entry is a key point of some
    record, and when the records hold at most 10 distinct key points every
    one of them is listed. *)
Theorem common_points_listing (rs : list dict) :
  all_well_formed rs ->
  exists data points,
    summary_data rs = Ok data /\
    Summary.common_points data = map VStr points /\
    NoDup points /\
    List.length points <= 10 /\
    (forall p, In p points -> exists r, In r rs /\ In p (key_points_of r)) /\
    (List.length (uniq (List.concat (map key_points_of rs))) <= 10 ->
     forall r p, In r rs -> In p (key_points_of r) -> In p points).
Proof.
  intros Hwf.
  destruct (summary_data_well_formed rs Hwf)
    as (average & vpoints & vemotions & Hdata & Hpoints & _).
  destruct (top_items_top_ranked 10 (List.concat (map key_points_of rs)))
    as (points & Hrun & Htop).
  destruct (top_ranked_listing _ _ _ Htop) as (Hnd & Hlen & Hsound & Hcomplete).
  eexists _, points. split; [exact Hdata|]. cbn [Summary.common_points].
  split; [congruence|]. split; [exact Hnd|]. split; [exact Hlen|]. split.
  - intros p Hp. apply in_concat_map. now apply Hsound.
  - intros Hsmall r p Hr Hp. apply (Hcomplete Hsmall). apply in_concat_map. now exists r.
Qed.

Lemma common_points_listing_witness :
  exists data points,
    summary_data Fixture.tied = Ok data /\
    Summary.common_points data = map VStr points /\
    NoDup points /\
    List.length points <= 10.
Proof.
  destruct (common_points_listing Fixture.tied)
    as (data & points & Hdata & Hpoints & Hnd & Hlen & _).
  - repeat constructor.
  - exists data, points. auto.
Defined.
